(** * CogniCap: semantic drift, cognitive overload and experiment ranking

    A shallow embedding of the measurement core of the repository:
    - [SemanticDriftMeasurement]   (protocols/semantic-drift-protocol.ts)
    - [CognitiveOverloadDetector]  (core/cognitive-overload.ts)
    - [ExperimentRunner]           (experiments/experiment-runner.ts)
    - [ExperimentScheduler]        (experiments/experiment-catalog.ts)
    - [CouncilOfAdvisors]          (philosophy/council-of-advisors.ts)
    - [ResearchMonitor]            (research/research-monitor.ts)
    - [AgentUsageTracker]          (tracking/agent-usage-tracker.ts)

    Conventions of the embedding.
    - A JavaScript number is a [number]: an exact rational, or one of the
      three special values that division by zero and their propagation
      produce ([PosInf], [NegInf], [NaN]).  Rounding and overflow of
      binary64 are not modelled, and a zero is always the positive zero;
      a bound that a theorem puts on a computed number is closed where the
      binary64 result can round up to it.
    - A JavaScript string is a [string] whose characters are the code units
      below 256.
    - [Date.now()] and [Math.random()] are inputs: a class method takes the
      readings it consumes as arguments, and the experiment runner draws them
      from an oracle indexed by the number of the call.
    - A [Map] keyed by agent id is a [gmap string _]; the one map whose
      iteration order is observed (the comparison results) is an
      insertion-ordered association list.
    - A method that can throw returns an [outcome]. *)

From Stdlib Require Import QArith Qminmax Qabs Lqa ZArith NArith List String Ascii Bool Lia
  DecimalString DecimalZ.
From stdpp Require Import gmap strings list.

Local Open Scope string_scope.
Local Open Scope list_scope.

(* ===================================================================== *)
(** ** JavaScript numbers *)
(* ===================================================================== *)

Module Num.

Inductive number : Type :=
  | Fin (q : Q)
  | PosInf
  | NegInf
  | NaN.

Definition ofZ (z : Z) : number := Fin (inject_Z z).
Definition ofNat (n : nat) : number := Fin (inject_Z (Z.of_nat n)).
Definition ofN (n : N) : number := Fin (inject_Z (Z.of_N n)).

(** Sign of a rational: -1, 0 or 1. *)
Definition sgn (q : Q) : Z := Z.sgn (Qnum q).

Definition neg (a : number) : number :=
  match a with
  | Fin x => Fin (- x)
  | PosInf => NegInf
  | NegInf => PosInf
  | NaN => NaN
  end.

Definition add (a b : number) : number :=
  match a, b with
  | NaN, _ | _, NaN => NaN
  | PosInf, NegInf | NegInf, PosInf => NaN
  | PosInf, _ | _, PosInf => PosInf
  | NegInf, _ | _, NegInf => NegInf
  | Fin x, Fin y => Fin (x + y)
  end.

Definition sub (a b : number) : number := add a (neg b).

(** An infinity scaled by a finite factor. *)
Definition scaleInf (positive : bool) (x : Q) : number :=
  match sgn x with
  | Z0 => NaN
  | Zpos _ => if positive then PosInf else NegInf
  | Zneg _ => if positive then NegInf else PosInf
  end.

Definition mul (a b : number) : number :=
  match a, b with
  | NaN, _ | _, NaN => NaN
  | Fin x, Fin y => Fin (x * y)
  | Fin x, PosInf | PosInf, Fin x => scaleInf true x
  | Fin x, NegInf | NegInf, Fin x => scaleInf false x
  | PosInf, PosInf | NegInf, NegInf => PosInf
  | PosInf, NegInf | NegInf, PosInf => NegInf
  end.

Definition div (a b : number) : number :=
  match a, b with
  | NaN, _ | _, NaN => NaN
  | Fin x, Fin y =>
      if Qeq_bool y 0 then
        match sgn x with
        | Z0 => NaN
        | Zpos _ => PosInf
        | Zneg _ => NegInf
        end
      else Fin (x / y)
  | Fin _, PosInf | Fin _, NegInf => Fin 0
  | PosInf, Fin y => match sgn y with Zneg _ => NegInf | _ => PosInf end
  | NegInf, Fin y => match sgn y with Zneg _ => PosInf | _ => NegInf end
  | PosInf, PosInf | PosInf, NegInf | NegInf, PosInf | NegInf, NegInf => NaN
  end.

(** [a <= b]; every comparison with [NaN] is false. *)
Definition le (a b : number) : bool :=
  match a, b with
  | NaN, _ | _, NaN => false
  | NegInf, _ => true
  | _, PosInf => true
  | Fin x, Fin y => Qle_bool x y
  | _, _ => false
  end.

(** [a < b]. *)
Definition lt (a b : number) : bool :=
  match a, b with
  | NaN, _ | _, NaN => false
  | Fin x, Fin y => negb (Qle_bool y x)
  | NegInf, NegInf | PosInf, PosInf => false
  | NegInf, _ => true
  | _, PosInf => true
  | _, _ => false
  end.

Definition ge (a b : number) : bool := le b a.
Definition gt (a b : number) : bool := lt b a.

(** [a === b]. *)
Definition strictEq (a b : number) : bool :=
  match a, b with
  | Fin x, Fin y => Qeq_bool x y
  | PosInf, PosInf | NegInf, NegInf => true
  | _, _ => false
  end.

(** [Math.max(a, b)] and [Math.min(a, b)]. *)
Definition max (a b : number) : number :=
  match a, b with
  | NaN, _ | _, NaN => NaN
  | _, _ => if le a b then b else a
  end.

Definition min (a b : number) : number :=
  match a, b with
  | NaN, _ | _, NaN => NaN
  | _, _ => if le a b then a else b
  end.

(** [Math.abs(a)]. *)
Definition abs (a : number) : number :=
  match a with
  | Fin x => Fin (Qabs x)
  | PosInf | NegInf => PosInf
  | NaN => NaN
  end.

Definition isNaN (a : number) : bool :=
  match a with NaN => true | _ => false end.

(** Two numbers denote the same value. *)
Definition same (a b : number) : Prop :=
  match a, b with
  | Fin x, Fin y => x == y
  | PosInf, PosInf | NegInf, NegInf | NaN, NaN => True
  | _, _ => False
  end.

(** [arr.reduce((a, b) => a + b, 0)]. *)
Definition sum (l : list number) : number := fold_left add l (Fin 0).

End Num.

Export Num(number, Fin, PosInf, NegInf, NaN).

Declare Scope js_scope.
Delimit Scope js_scope with js.
Bind Scope js_scope with number.
Infix "+" := Num.add : js_scope.
Infix "-" := Num.sub : js_scope.
Infix "*" := Num.mul : js_scope.
Infix "/" := Num.div : js_scope.
Infix ">=?" := Num.ge (at level 70, no associativity) : js_scope.
Infix ">?" := Num.gt (at level 70, no associativity) : js_scope.
Infix "<?" := Num.lt (at level 70, no associativity) : js_scope.

(* ===================================================================== *)
(** ** Exceptions *)
(* ===================================================================== *)

Inductive exn : Type :=
  | Error (message : string)
  | TypeError (message : string).

Inductive outcome (A : Type) : Type :=
  | Ok (a : A)
  | Throw (e : exn).

Arguments Ok {A} a.
Arguments Throw {A} e.

Definition isThrow {A} (o : outcome A) : bool :=
  match o with Throw _ => true | Ok _ => false end.

(** [arr.slice(-n)] for [n > 0]: the last [n] elements, all of them when the
    array is shorter. *)
Definition sliceLast {A} (n : nat) (l : list A) : list A :=
  skipn (length l - n) l.

(* ===================================================================== *)
(** ** The clock and the random generator *)
(* ===================================================================== *)

(** [nowAt n] is the reading of the call number [n] of [Date.now()], and
    [randomAt n] the value of the call number [n] of [Math.random()]. *)
Record Env := {
  nowAt : nat -> Z;
  randomAt : nat -> Q;
  nowCalls : nat;
  randomCalls : nat
}.

Definition dateNow (env : Env) : Z * Env :=
  (nowAt env (nowCalls env),
   {| nowAt := nowAt env; randomAt := randomAt env;
      nowCalls := S (nowCalls env); randomCalls := randomCalls env |}).

Definition mathRandom (env : Env) : number * Env :=
  (Fin (randomAt env (randomCalls env)),
   {| nowAt := nowAt env; randomAt := randomAt env;
      nowCalls := nowCalls env; randomCalls := S (randomCalls env) |}).

(* ===================================================================== *)
(** ** Strings *)
(* ===================================================================== *)

Module Str.

(** [String.prototype.toLowerCase] on one code unit below 256: the letters
    A-Z, and the accented capitals 192-222 except the multiplication sign. *)
Definition lowerChar (c : ascii) : ascii :=
  let n := N_of_ascii c in
  if ((65 <=? n) && (n <=? 90))%N then ascii_of_N (n + 32)
  else if ((192 <=? n) && (n <=? 222) && negb (n =? 215))%N then ascii_of_N (n + 32)
  else c.

Fixpoint toLowerCase (s : string) : string :=
  match s with
  | EmptyString => EmptyString
  | String c s' => String (lowerChar c) (toLowerCase s')
  end.

(** The class [\s] below 256: tab, line feed, vertical tab, form feed,
    carriage return, space and the no-break space. *)
Definition isSpace (c : ascii) : bool :=
  let n := N_of_ascii c in
  (((9 <=? n) && (n <=? 13)) || (n =? 32) || (n =? 160))%N.

Fixpoint revString (s acc : string) : string :=
  match s with
  | EmptyString => acc
  | String c s' => revString s' (String c acc)
  end.

(** [s.split(/\s+/)], scanning left to right: [cur] is the piece being read,
    reversed, and [inWs] tells that the previous character was white space.
    A leading or trailing run of white space yields an empty piece, and the
    empty string splits into one empty piece. *)
Fixpoint splitGo (s : string) (cur : string) (inWs : bool) : list string :=
  match s with
  | EmptyString => [revString cur EmptyString]
  | String c s' =>
      if isSpace c then
        if inWs then splitGo s' EmptyString true
        else revString cur EmptyString :: splitGo s' EmptyString true
      else splitGo s' (String c cur) false
  end.

Definition splitWhitespace (s : string) : list string := splitGo s EmptyString false.

(** Case folding of a regular expression with the [i] flag and without the
    [u] flag, on code units below 256: only the ASCII letters fold, and a
    code unit from 128 up never matches an ASCII letter. *)
Definition foldChar (c : ascii) : ascii :=
  let n := N_of_ascii c in
  if ((65 <=? n) && (n <=? 90))%N then ascii_of_N (n + 32) else c.

Fixpoint foldCase (s : string) : string :=
  match s with
  | EmptyString => EmptyString
  | String c s' => String (foldChar c) (foldCase s')
  end.

(** [/^(w1|w2|...)$/i.test(word)]. *)
Definition testAlternatives (alts : list string) (word : string) : bool :=
  existsb (String.eqb (foldCase word)) alts.

End Str.

(* ===================================================================== *)
(** ** SemanticDriftMeasurement *)
(* ===================================================================== *)

Module Drift.

(** [Map<string, number>] of term counts. *)
Abbreviation Terminology := (gmap string N).

Record Patterns := {
  avgLength : number
}.

Record Baseline := {
  terminology : Terminology;
  patterns : Patterns;
  timestamp : Z;
  sampleCount : nat
}.

Record Measurement := {
  m_agentId : string;
  m_drift : number;
  m_timestamp : Z
}.

(** The private fields [baseline] and [measurements]. *)
Record State := {
  baseline : gmap string Baseline;
  measurements : list Measurement
}.

Definition init : State := {| baseline := ∅; measurements := [] |}.

Definition technicalPatterns : list (list string) :=
  [ ["api"; "sdk"; "cli"; "gui"; "ui"; "ux"];
    ["async"; "sync"; "await"; "promise"];
    ["function"; "method"; "class"; "interface"];
    ["database"; "query"; "index"; "schema"];
    ["agent"; "protocol"; "orchestrat"];
    ["semantic"; "cognitive"; "drift"; "overload"] ].

Definition isTechnicalTerm (word : string) : bool :=
  existsb (fun pattern => Str.testAlternatives pattern word) technicalPatterns.

(** The inner loop of [extractTerminology] over the words of one sample. *)
Definition countWords (words : list string) (terms : Terminology) : Terminology :=
  fold_left
    (fun terms word =>
       if isTechnicalTerm word
       then <[word := (default 0 (terms !! word) + 1)%N]> terms
       else terms)
    words terms.

Definition extractTerminology (samples : list string) : Terminology :=
  fold_left
    (fun terms sample =>
       countWords (Str.splitWhitespace (Str.toLowerCase sample)) terms)
    samples ∅.

(** [analyzePatterns], restricted to the field that is a number; the fields
    [structureTypes] and [commonPhrases] are stored and never read. *)
Definition analyzePatterns (samples : list string) : Patterns :=
  {| avgLength :=
       (fold_left (fun sum s => sum + Num.ofNat (String.length s)) samples (Fin 0)
        / Num.ofNat (length samples))%js |}.

(** One turn of the loop of [calculateDrift]: the accumulators are
    [similarity] and [total]. *)
Definition driftStep (baseline current : Terminology) (acc : N * N) (term : string)
  : N * N :=
  let baselineFreq := default 0%N (baseline !! term) in
  let currentFreq := default 0%N (current !! term) in
  if (0 <? baselineFreq)%N || (0 <? currentFreq)%N
  then (fst acc + N.min baselineFreq currentFreq, snd acc + N.max baselineFreq currentFreq)%N
  else acc.

Definition calculateDrift (baseline current : Terminology) : number :=
  let allTerms := elements (dom baseline ∪ dom current) in
  let '(similarity, total) := fold_left (driftStep baseline current) allTerms (0%N, 0%N) in
  if (0 <? total)%N
  then (Fin 1 - Num.ofN similarity / Num.ofN total)%js
  else Fin 0.

(** [establishBaseline(agentId, samples)].  The method has no [throw] and
    calls nothing that throws. *)
Definition establishBaseline (agentId : string) (samples : list string)
    (env : Env) (st : State) : outcome (Env * State) :=
  let terms := extractTerminology samples in
  let pats := analyzePatterns samples in
  let '(now, env) := dateNow env in
  Ok (env,
      {| baseline :=
           <[agentId := {| terminology := terms;
                           patterns := pats;
                           timestamp := now;
                           sampleCount := length samples |}]> (baseline st);
         measurements := measurements st |}).

(** [measureDrift(agentId, newSample)]. *)
Definition measureDrift (agentId : string) (newSample : string)
    (env : Env) (st : State) : number * Env * State :=
  match baseline st !! agentId with
  | None => (Fin 0, env, st)
  | Some b =>
      let currentTerms := extractTerminology [newSample] in
      let drift := calculateDrift (terminology b) currentTerms in
      let '(now, env) := dateNow env in
      (drift, env,
       {| baseline := baseline st;
          measurements :=
            measurements st ++
              [{| m_agentId := agentId; m_drift := drift; m_timestamp := now |}] |})
  end.

End Drift.

(* ===================================================================== *)
(** ** CognitiveOverloadDetector *)
(* ===================================================================== *)

Module Overload.

Record CognitiveMetrics := {
  agentId : string;
  timestamp : Z;
  contextWindowUsage : number;
  processingLatency : number;
  errorRate : number;
  semanticConsistency : number;
  cognitiveLoadIndex : number
}.

Record DerivedBaseline := {
  latency : number;
  contextUsage : number;
  consistency : number
}.

Inductive Severity : Type := SevNone | SevWarning | SevCritical.

Definition isNone (s : Severity) : bool :=
  match s with SevNone => true | _ => false end.

Record OverloadResult := {
  isOverloaded : bool;
  severity : Severity;
  factors : list string;
  recommendations : list string
}.

(** The private fields [metrics] and [baselines]. *)
Record State := {
  metrics : gmap string (list CognitiveMetrics);
  baselines : gmap string DerivedBaseline
}.

Definition init : State := {| metrics := ∅; baselines := ∅ |}.

(** The constant table [thresholds]. *)
Module thresholds.
Module contextWindow.
Definition safe : number := Fin 0.60.
Definition warning : number := Fin 0.75.
Definition critical : number := Fin 0.90.
End contextWindow.
Module latency.
Definition baselineMs : number := Fin 1000.
Definition warningMultiplier : number := Fin 1.5.
Definition criticalMultiplier : number := Fin 2.0.
End latency.
Module errorRate.
Definition acceptable : number := Fin 0.02.
Definition warning : number := Fin 0.05.
Definition critical : number := Fin 0.10.
End errorRate.
Module semanticDrift.
Definition acceptable : number := Fin 0.15.
Definition warning : number := Fin 0.25.
Definition critical : number := Fin 0.40.
End semanticDrift.
End thresholds.

(** [l.map(f).reduce((a, b) => a + b, 0) / l.length]. *)
Definition mean (f : CognitiveMetrics -> number) (l : list CognitiveMetrics) : number :=
  (Num.sum (map f l) / Num.ofNat (length l))%js.

Definition getRecentMetrics (agentId : string) (count : nat) (st : State)
  : list CognitiveMetrics :=
  let allMetrics := default [] (metrics st !! agentId) in
  sliceLast count allMetrics.

Definition createDefaultBaseline : DerivedBaseline :=
  {| latency := thresholds.latency.baselineMs;
     contextUsage := Fin 0.40;
     consistency := Fin 0.90 |}.

Definition normalizeMetric (value min max : number) : number :=
  if Num.strictEq max min then Fin 0
  else Num.max (Fin 0) (Num.min (Fin 1) ((value - min) / (max - min))%js).

(** The predicate of the filter in [updateBaseline]. *)
Definition healthy (m : CognitiveMetrics) : bool :=
  (errorRate m <? Fin 0.05)%js && (semanticConsistency m >? Fin 0.85)%js.

Definition updateBaseline (agentId : string) (st : State) : State :=
  let ms := default [] (metrics st !! agentId) in
  if (length ms <? 20)%nat then st
  else
    let healthyMetrics := sliceLast 50 (List.filter healthy ms) in
    if (10 <? length healthyMetrics)%nat then
      {| metrics := metrics st;
         baselines :=
           <[agentId := {| latency := mean processingLatency healthyMetrics;
                           contextUsage := mean contextWindowUsage healthyMetrics;
                           consistency := mean semanticConsistency healthyMetrics |}]>
             (baselines st) |}
    else st.

Definition recordMetric (metric : CognitiveMetrics) (st : State) : State :=
  let agentMetrics := default [] (metrics st !! agentId metric) in
  let agentMetrics := agentMetrics ++ [metric] in
  let agentMetrics :=
    if (1000 <? length agentMetrics)%nat then tail agentMetrics else agentMetrics in
  updateBaseline (agentId metric)
    {| metrics := <[agentId metric := agentMetrics]> (metrics st);
       baselines := baselines st |}.

(** [this.baselines.get(agentId) || this.createDefaultBaseline()]. *)
Definition baselineOf (agentId : string) (st : State) : DerivedBaseline :=
  default createDefaultBaseline (baselines st !! agentId).

Definition calculateCognitiveLoad (agentId : string) (st : State) : number :=
  let recent := getRecentMetrics agentId 10 st in
  if (length recent =? 0)%nat then Fin 0
  else
    let baseline := baselineOf agentId st in
    let contextLoad := normalizeMetric (mean contextWindowUsage recent) (Fin 0) (Fin 1) in
    let latencyLoad :=
      normalizeMetric (mean processingLatency recent)
        (latency baseline) (latency baseline * Fin 3)%js in
    let errorLoad := normalizeMetric (mean errorRate recent) (Fin 0) (Fin 0.20) in
    let driftLoad :=
      normalizeMetric (Fin 1 - mean semanticConsistency recent)%js (Fin 0) (Fin 0.50) in
    (contextLoad * Fin 0.25 + latencyLoad * Fin 0.25
     + errorLoad * Fin 0.30 + driftLoad * Fin 0.20)%js.

(** The object [avgMetrics] of [detectOverload]. *)
Record AvgMetrics := {
  avg_contextWindow : number;
  avg_latency : number;
  avg_errorRate : number;
  avg_semanticDrift : number
}.

Definition avgMetricsOf (recent : list CognitiveMetrics) : AvgMetrics :=
  {| avg_contextWindow := mean contextWindowUsage recent;
     avg_latency := mean processingLatency recent;
     avg_errorRate := mean errorRate recent;
     avg_semanticDrift := (Fin 1 - mean semanticConsistency recent)%js |}.

(** The three locals [factors], [recommendations] and [severity]. *)
Record Findings := {
  f_factors : list string;
  f_recommendations : list string;
  f_severity : Severity
}.

(** The body of a critical branch: two pushes and [severity = 'critical']. *)
Definition raiseCritical (factor recommendation : string) (acc : Findings) : Findings :=
  {| f_factors := f_factors acc ++ [factor];
     f_recommendations := f_recommendations acc ++ [recommendation];
     f_severity := SevCritical |}.

(** The body of a warning branch: two pushes and
    [if (severity === 'none') severity = 'warning']. *)
Definition raiseWarning (factor recommendation : string) (acc : Findings) : Findings :=
  {| f_factors := f_factors acc ++ [factor];
     f_recommendations := f_recommendations acc ++ [recommendation];
     f_severity := if isNone (f_severity acc) then SevWarning else f_severity acc |}.

Definition checkContext (avg : AvgMetrics) (acc : Findings) : Findings :=
  if (avg_contextWindow avg >=? thresholds.contextWindow.critical)%js then
    raiseCritical "Critical context window usage"
      "Reduce context size or implement chunking" acc
  else if (avg_contextWindow avg >=? thresholds.contextWindow.warning)%js then
    raiseWarning "High context window usage" "Consider context optimization" acc
  else acc.

Definition checkLatency (baseline : DerivedBaseline) (avg : AvgMetrics) (acc : Findings)
  : Findings :=
  if (avg_latency avg >=? latency baseline * thresholds.latency.criticalMultiplier)%js then
    raiseCritical "Critical processing latency" "Investigate performance bottlenecks" acc
  else if (avg_latency avg >=? latency baseline * thresholds.latency.warningMultiplier)%js then
    raiseWarning "Elevated processing latency" "Monitor system resources" acc
  else acc.

Definition checkError (avg : AvgMetrics) (acc : Findings) : Findings :=
  if (avg_errorRate avg >=? thresholds.errorRate.critical)%js then
    raiseCritical "Critical error rate" "Review agent training and protocols" acc
  else if (avg_errorRate avg >=? thresholds.errorRate.warning)%js then
    raiseWarning "Elevated error rate" "Check recent changes and inputs" acc
  else acc.

Definition checkDrift (avg : AvgMetrics) (acc : Findings) : Findings :=
  if (avg_semanticDrift avg >=? thresholds.semanticDrift.critical)%js then
    raiseCritical "Critical semantic drift" "Retrain agent or reset context" acc
  else if (avg_semanticDrift avg >=? thresholds.semanticDrift.warning)%js then
    raiseWarning "Significant semantic drift" "Reinforce training protocols" acc
  else acc.

Definition detectOverload (agentId : string) (st : State) : OverloadResult :=
  let recent := getRecentMetrics agentId 5 st in
  if (length recent =? 0)%nat then
    {| isOverloaded := false; severity := SevNone; factors := []; recommendations := [] |}
  else
    let avgMetrics := avgMetricsOf recent in
    let acc := {| f_factors := []; f_recommendations := []; f_severity := SevNone |} in
    let acc := checkContext avgMetrics acc in
    let baseline := baselineOf agentId st in
    let acc := checkLatency baseline avgMetrics acc in
    let acc := checkError avgMetrics acc in
    let acc := checkDrift avgMetrics acc in
    {| isOverloaded := negb (isNone (f_severity acc));
       severity := f_severity acc;
       factors := f_factors acc;
       recommendations := f_recommendations acc |}.

(** The detector after a sequence of [recordMetric] calls. *)
Definition recordAll (ms : list CognitiveMetrics) (st : State) : State :=
  fold_left (fun st m => recordMetric m st) ms st.

Definition history (agentId : string) (st : State) : list CognitiveMetrics :=
  default [] (metrics st !! agentId).

End Overload.

(* ===================================================================== *)
(** ** ExperimentRunner *)
(* ===================================================================== *)

Module Runner.

Inductive Specialization : Type := expert | generalist | hybridSpecialization.
Inductive ContextWindow : Type := minimal | standard | extended.
Inductive MemoryStrategy : Type := ephemeral | persistent | hybridMemory.

Record AgentConfiguration := {
  id : string;
  name : string;
  database : bool;
  specialization : Specialization;
  contextWindow : ContextWindow;
  memoryStrategy : MemoryStrategy;
  trainingProtocol : option string
}.

Record ResultMetrics := {
  semanticConsistency : number;
  cognitiveLoad : number;
  processingLatency : number;
  errorRate : number;
  driftVelocity : number
}.

Record ExperimentResult := {
  configurationId : string;
  metrics : ResultMetrics;
  samples : nat;
  duration : Z;
  recommendations : list string
}.

(** The runner with its two collaborators, and the clock and generator it
    reads. *)
Record World := {
  env : Env;
  driftMeasurement : Drift.State;
  overloadDetector : Overload.State;
  experiments : gmap string ExperimentResult
}.

Definition newWorld (e : Env) : World :=
  {| env := e; driftMeasurement := Drift.init; overloadDetector := Overload.init;
     experiments := ∅ |}.

(** State and exception monad of the runner's methods. *)
Definition M (A : Type) : Type := World -> outcome (A * World).

Definition ret {A} (a : A) : M A := fun w => Ok (a, w).

Definition bind {A B} (c : M A) (k : A -> M B) : M B :=
  fun w => match c w with
           | Ok (a, w') => k a w'
           | Throw e => Throw e
           end.

Definition throw {A} (e : exn) : M A := fun _ => Throw e.

Notation "'let*' x ':=' c 'in' k" := (bind c (fun x => k))
  (at level 10, x name, c at level 100, k at level 200).
Notation "'run' c 'in' k" := (bind c (fun _ => k))
  (at level 10, c at level 100, k at level 200).

Definition now : M Z := fun w =>
  let '(t, e) := dateNow (env w) in
  Ok (t, {| env := e; driftMeasurement := driftMeasurement w;
            overloadDetector := overloadDetector w; experiments := experiments w |}).

Definition random : M number := fun w =>
  let '(r, e) := mathRandom (env w) in
  Ok (r, {| env := e; driftMeasurement := driftMeasurement w;
            overloadDetector := overloadDetector w; experiments := experiments w |}).

Definition establishBaseline (agentId : string) (samples : list string) : M unit := fun w =>
  match Drift.establishBaseline agentId samples (env w) (driftMeasurement w) with
  | Ok (e, d) =>
      Ok (tt, {| env := e; driftMeasurement := d;
                 overloadDetector := overloadDetector w; experiments := experiments w |})
  | Throw x => Throw x
  end.

Definition measureDrift (agentId sample : string) : M number := fun w =>
  let '(drift, e, d) := Drift.measureDrift agentId sample (env w) (driftMeasurement w) in
  Ok (drift, {| env := e; driftMeasurement := d;
                overloadDetector := overloadDetector w; experiments := experiments w |}).

Definition recordMetric (metric : Overload.CognitiveMetrics) : M unit := fun w =>
  Ok (tt, {| env := env w; driftMeasurement := driftMeasurement w;
             overloadDetector := Overload.recordMetric metric (overloadDetector w);
             experiments := experiments w |}).

Definition calculateCognitiveLoad (agentId : string) : M number := fun w =>
  Ok (Overload.calculateCognitiveLoad agentId (overloadDetector w), w).

Definition setExperiment (agentId : string) (r : ExperimentResult) : M unit := fun w =>
  Ok (tt, {| env := env w; driftMeasurement := driftMeasurement w;
             overloadDetector := overloadDetector w;
             experiments := <[agentId := r]> (experiments w) |}).

Definition calculateContextUsage (cw : ContextWindow) : M number :=
  let* r := random in
  ret match cw with
      | minimal => (Fin 0.30 + r * Fin 0.20)%js
      | standard => (Fin 0.50 + r * Fin 0.25)%js
      | extended => (Fin 0.70 + r * Fin 0.25)%js
      end.

Definition calculateCognitiveLoadForConfig (config : AgentConfiguration)
    (metric : Overload.CognitiveMetrics) : number :=
  let load := (Overload.contextWindowUsage metric * Fin 0.25)%js in
  let load := if database config then (load - Fin 0.10)%js else load in
  let load :=
    match specialization config with
    | expert => (load - Fin 0.15)%js
    | generalist => (load + Fin 0.10)%js
    | hybridSpecialization => load
    end in
  let load :=
    match memoryStrategy config with
    | persistent => (load - Fin 0.05)%js
    | ephemeral => (load + Fin 0.05)%js
    | hybridMemory => load
    end in
  let load := (load + (Fin 1 - Overload.semanticConsistency metric) * Fin 0.30)%js in
  let load := (load + Overload.errorRate metric * Fin 2)%js in
  Num.max (Fin 0) (Num.min (Fin 1) load).

(** The delay of [simulateProcessingDelay], in milliseconds. *)
Definition processingDelay (config : AgentConfiguration) : nat :=
  let delay := 100%nat in
  let delay := if database config then (delay + 50)%nat else delay in
  let delay := match contextWindow config with extended => (delay + 30)%nat | _ => delay end in
  let delay := match specialization config with generalist => (delay + 20)%nat | _ => delay end in
  delay.

(** Awaiting the timer changes no state of the runner; the time it takes
    shows in the later readings of the clock. *)
Definition simulateProcessingDelay (config : AgentConfiguration) : M unit :=
  let _ := processingDelay config in ret tt.

(** The loop of [calculateDriftVelocity], from index 1. *)
Fixpoint totalChange (prev : number) (rest : list number) (acc : number) : number :=
  match rest with
  | [] => acc
  | x :: rest' => totalChange x rest' (acc + Num.abs (x - prev))%js
  end.

Definition calculateDriftVelocity (measurements : list number) : number :=
  if (length measurements <? 2)%nat then Fin 0
  else
    match measurements with
    | [] => Fin 0
    | first :: rest =>
        (totalChange first rest (Fin 0) / Num.ofNat (length measurements - 1))%js
    end.

(** [metrics.reduce((sum, m) => sum + f(m), 0) / metrics.length]. *)
Definition average (f : Overload.CognitiveMetrics -> number)
    (ms : list Overload.CognitiveMetrics) : number :=
  (fold_left (fun sum m => sum + f m) ms (Fin 0) / Num.ofNat (length ms))%js.

Definition generateRecommendations (config : AgentConfiguration)
    (ms : list Overload.CognitiveMetrics) : list string :=
  let avgConsistency := average Overload.semanticConsistency ms in
  let avgLoad := average Overload.cognitiveLoadIndex ms in
  let recommendations := [] in
  let recommendations :=
    if (avgConsistency <? Fin 0.85)%js then
      recommendations ++
        ["Consider implementing persistent memory to improve semantic consistency"]
    else recommendations in
  let recommendations :=
    if (avgLoad >? Fin 0.70)%js then
      recommendations ++
        ["Cognitive load is high - consider specialization or context reduction"]
    else recommendations in
  let recommendations :=
    if negb (database config) && (avgConsistency <? Fin 0.90)%js then
      recommendations ++ ["Database backing could improve consistency by 15-20%"]
    else recommendations in
  let recommendations :=
    if match specialization config with generalist => true | _ => false end
       && (avgLoad >? Fin 0.60)%js then
      recommendations ++ ["Specialization could reduce cognitive load by 20-30%"]
    else recommendations in
  let recommendations :=
    if match contextWindow config with extended => true | _ => false end
       && (avgLoad >? Fin 0.65)%js then
      recommendations ++ ["Reducing context window could improve performance"]
    else recommendations in
  recommendations.

(** The [while] loop of [runExperiment].  [rest] holds the samples from
    index [sampleIndex] on, so that [sampleIndex < testSamples.length] is
    [rest] not being empty; the clock is read before that test. *)
Fixpoint processSamples (config : AgentConfiguration) (startTime : Z)
    (durationMs : number) (rest : list string) (sampleIndex : nat)
    (ms : list Overload.CognitiveMetrics) (driftMeasurements : list number)
  : M (nat * list Overload.CognitiveMetrics * list number) :=
  let* t := now in
  match rest with
  | [] => ret (sampleIndex, ms, driftMeasurements)
  | sample :: rest' =>
      if (Num.ofZ (t - startTime) <? durationMs)%js then
        let* processingStart := now in
        let* drift := measureDrift (id config) sample in
        let* stamp := now in
        let* usage := calculateContextUsage (contextWindow config) in
        let* processingEnd := now in
        let* r := random in
        let metric :=
          {| Overload.agentId := id config;
             Overload.timestamp := stamp;
             Overload.contextWindowUsage := usage;
             Overload.processingLatency := Num.ofZ (processingEnd - processingStart);
             Overload.errorRate := (r * Fin 0.05)%js;
             Overload.semanticConsistency := (Fin 1 - drift)%js;
             Overload.cognitiveLoadIndex := Fin 0 |} in
        let metric :=
          {| Overload.agentId := Overload.agentId metric;
             Overload.timestamp := Overload.timestamp metric;
             Overload.contextWindowUsage := Overload.contextWindowUsage metric;
             Overload.processingLatency := Overload.processingLatency metric;
             Overload.errorRate := Overload.errorRate metric;
             Overload.semanticConsistency := Overload.semanticConsistency metric;
             Overload.cognitiveLoadIndex := calculateCognitiveLoadForConfig config metric |} in
        run recordMetric metric in
        run simulateProcessingDelay config in
        processSamples config startTime durationMs rest' (S sampleIndex)
          (ms ++ [metric]) (driftMeasurements ++ [drift])
      else ret (sampleIndex, ms, driftMeasurements)
  end.

Definition runExperiment (configuration : AgentConfiguration) (testSamples : list string)
    (durationMs : number) : M ExperimentResult :=
  let* startTime := now in
  run establishBaseline (id configuration) (firstn 10 testSamples) in
  let* looped :=
    processSamples configuration startTime durationMs (skipn 10 testSamples) 10 [] [] in
  let '(sampleIndex, ms, driftMeasurements) := looped in
  let consistency := average Overload.semanticConsistency ms in
  let* load := calculateCognitiveLoad (id configuration) in
  let latency := average Overload.processingLatency ms in
  let errors := average Overload.errorRate ms in
  let velocity := calculateDriftVelocity driftMeasurements in
  let* endTime := now in
  let result :=
    {| configurationId := id configuration;
       metrics := {| semanticConsistency := consistency;
                     cognitiveLoad := load;
                     processingLatency := latency;
                     errorRate := errors;
                     driftVelocity := velocity |};
       samples := sampleIndex - 10;
       duration := endTime - startTime;
       recommendations := generateRecommendations configuration ms |} in
  run setExperiment (id configuration) result in
  ret result.

(** The default value of the parameter [durationMs]. *)
Definition defaultDurationMs : number := Fin 60000.

(** [Map<string, ExperimentResult>] in insertion order: [set] on a key that
    is present replaces the value where it stands, and appends otherwise. *)
Abbreviation Results := (list (string * ExperimentResult)).

Fixpoint mapSet (key : string) (value : ExperimentResult) (m : Results) : Results :=
  match m with
  | [] => [(key, value)]
  | (k, v) :: m' =>
      if String.eqb k key then (key, value) :: m' else (k, v) :: mapSet key value m'
  end.

Definition calculateScore (result : ExperimentResult) : number :=
  (semanticConsistency (metrics result) * Fin 40
   + (Fin 1 - cognitiveLoad (metrics result)) * Fin 30
   + (Fin 1 - errorRate (metrics result) * Fin 10) * Fin 20
   + (Fin 1000 / processingLatency (metrics result)) * Fin 10)%js.

(** One turn of the loop of [determineWinner] on [(bestScore, winner)]. *)
Definition winnerStep (acc : number * string) (entry : string * ExperimentResult)
  : number * string :=
  let score := calculateScore (snd entry) in
  if (score >? fst acc)%js then (score, fst entry) else acc.

Definition determineWinner (results : Results) : string :=
  snd (fold_left winnerStep results (NegInf, "")).

(** [generateComparativeAnalysis] builds a text report with [toFixed], which
    is not modelled.  What is kept is its one way to fail: [sorted[0][1]]
    reads a property of [undefined] when the map is empty (the message is
    that of V8). *)
Definition generateComparativeAnalysis (results : Results) : M unit :=
  match results with
  | [] => throw (TypeError "Cannot read properties of undefined (reading '1')")
  | _ :: _ => ret tt
  end.

Record Comparison := {
  winner : string;
  comparison : Results
}.

(** The [for] loop of [compareConfigurations]. *)
Fixpoint runAll (configs : list AgentConfiguration) (testSamples : list string)
    (results : Results) : M Results :=
  match configs with
  | [] => ret results
  | config :: configs' =>
      let* result := runExperiment config testSamples defaultDurationMs in
      runAll configs' testSamples (mapSet (id config) result results)
  end.

Definition compareConfigurations (configs : list AgentConfiguration)
    (testSamples : list string) : M Comparison :=
  let* results := runAll configs testSamples [] in
  let best := determineWinner results in
  run generateComparativeAnalysis results in
  ret {| winner := best; comparison := results |}.


(** A score that takes part in the ranking: a number above [-Infinity]. *)
Definition ranked (score : number) : bool := (score >? NegInf)%js.



Definition scoreOf (entry : string * ExperimentResult) : number :=
  calculateScore (snd entry).


End Runner.

(* ===================================================================== *)
(** ** ExperimentScheduler *)
(* ===================================================================== *)

Module Scheduler.

Record ExperimentDesign := {
  id : string;
  name : string;
  hypothesis : string;
  methodology : string;
  metrics : list string;
  duration : Z;
  requiredSamples : Z;
  controlVariables : list string;
  independentVariable : string;
  dependentVariables : list string
}.

Definition EXPERIMENT_CATALOG : list ExperimentDesign :=
  [
    {| id := "exp-001-database-impact";
       name := "Database Persistence Impact Study";
       hypothesis := "Database-backed agents maintain 20% better semantic consistency than ephemeral agents";
       methodology := "A/B test comparing identical agents with/without database persistence over 1000 interactions";
       metrics := ["semantic_consistency"; "drift_velocity"; "memory_recall"; "response_latency"];
       duration := 3600000;
       requiredSamples := 1000;
       controlVariables := ["context_window"; "specialization"; "training_protocol"];
       independentVariable := "database_persistence";
       dependentVariables := ["semantic_consistency"; "cognitive_load"] |};
    {| id := "exp-002-specialization-efficiency";
       name := "Expert vs Generalist Performance Analysis";
       hypothesis := "Expert agents show 30% lower cognitive load in domain-specific tasks";
       methodology := "Compare specialized agents against generalists on domain-specific and cross-domain tasks";
       metrics := ["cognitive_load"; "task_completion_rate"; "error_rate"; "processing_time"];
       duration := 7200000;
       requiredSamples := 500;
       controlVariables := ["database"; "context_window"; "memory_strategy"];
       independentVariable := "agent_specialization";
       dependentVariables := ["cognitive_load"; "task_success_rate"] |};
    {| id := "exp-003-context-window-optimization";
       name := "Optimal Context Window Discovery";
       hypothesis := "Medium context windows (60-75% usage) provide best consistency/performance balance";
       methodology := "Test agents with minimal (30%), standard (60%), and extended (90%) context usage";
       metrics := ["context_utilization"; "semantic_drift"; "response_quality"; "memory_pressure"];
       duration := 5400000;
       requiredSamples := 750;
       controlVariables := ["database"; "specialization"; "training"];
       independentVariable := "context_window_size";
       dependentVariables := ["semantic_consistency"; "processing_latency"] |};
    {| id := "exp-004-training-protocol-effectiveness";
       name := "Training Protocol Comparison";
       hypothesis := "Incremental reinforcement training reduces drift velocity by 40%";
       methodology := "Compare baseline, batch training, and incremental reinforcement approaches";
       metrics := ["drift_velocity"; "learning_rate"; "retention_score"; "adaptation_speed"];
       duration := 10800000;
       requiredSamples := 1500;
       controlVariables := ["agent_type"; "database"; "context_window"];
       independentVariable := "training_protocol";
       dependentVariables := ["semantic_drift"; "knowledge_retention"] |};
    {| id := "exp-005-memory-strategy-impact";
       name := "Memory Strategy Performance Study";
       hypothesis := "Hybrid memory (cache + persistent) provides optimal performance/consistency trade-off";
       methodology := "Test ephemeral, persistent, and hybrid memory strategies under various loads";
       metrics := ["memory_efficiency"; "recall_accuracy"; "response_time"; "consistency_score"];
       duration := 7200000;
       requiredSamples := 1000;
       controlVariables := ["specialization"; "context_window"; "training"];
       independentVariable := "memory_strategy";
       dependentVariables := ["retrieval_speed"; "semantic_consistency"] |};
    {| id := "exp-006-cognitive-load-distribution";
       name := "Multi-Agent Load Balancing Study";
       hypothesis := "Distributing tasks based on cognitive load improves system throughput by 25%";
       methodology := "Compare random, round-robin, and load-aware task distribution strategies";
       metrics := ["system_throughput"; "average_load"; "peak_load"; "failure_rate"];
       duration := 14400000;
       requiredSamples := 2000;
       controlVariables := ["agent_count"; "task_complexity"; "agent_types"];
       independentVariable := "distribution_strategy";
       dependentVariables := ["throughput"; "error_rate"] |};
    {| id := "exp-007-error-recovery-patterns";
       name := "Error Recovery Mechanism Analysis";
       hypothesis := "Agents with explicit error recovery show 50% faster semantic consistency restoration";
       methodology := "Introduce controlled errors and measure recovery time and quality";
       metrics := ["recovery_time"; "consistency_restoration"; "error_propagation"; "stability_score"];
       duration := 3600000;
       requiredSamples := 500;
       controlVariables := ["agent_type"; "memory_strategy"; "training"];
       independentVariable := "error_recovery_mechanism";
       dependentVariables := ["recovery_speed"; "final_consistency"] |};
    {| id := "exp-008-vocabulary-diversity-impact";
       name := "Vocabulary Diversity vs Consistency Trade-off";
       hypothesis := "Moderate vocabulary diversity (60-70%) optimizes creativity without sacrificing consistency";
       methodology := "Measure performance across different vocabulary diversity levels";
       metrics := ["vocabulary_diversity"; "semantic_consistency"; "creativity_score"; "coherence"];
       duration := 5400000;
       requiredSamples := 800;
       controlVariables := ["agent_type"; "context_window"; "training"];
       independentVariable := "vocabulary_diversity_target";
       dependentVariables := ["response_quality"; "semantic_drift"] |};
    {| id := "exp-009-cascade-failure-prevention";
       name := "Cascade Failure Prevention Study";
       hypothesis := "Early overload detection prevents 80% of cascade failures in multi-agent systems";
       methodology := "Test various overload thresholds and intervention strategies";
       metrics := ["cascade_events"; "prevention_rate"; "system_stability"; "recovery_cost"];
       duration := 10800000;
       requiredSamples := 1200;
       controlVariables := ["agent_count"; "interconnection_degree"; "load_pattern"];
       independentVariable := "overload_threshold";
       dependentVariables := ["cascade_prevention_rate"; "false_positive_rate"] |};
    {| id := "exp-010-temporal-consistency";
       name := "Long-term Semantic Consistency Study";
       hypothesis := "Periodic recalibration every 1000 interactions maintains 90%+ consistency";
       methodology := "Track semantic drift over extended periods with various recalibration schedules";
       metrics := ["long_term_drift"; "recalibration_frequency"; "consistency_variance"; "maintenance_cost"];
       duration := 86400000;
       requiredSamples := 5000;
       controlVariables := ["agent_type"; "memory_strategy"; "usage_pattern"];
       independentVariable := "recalibration_schedule";
       dependentVariables := ["average_consistency"; "drift_acceleration"] |}
  ].

Inductive Priority : Type := high | normal | low.

(** The object returned by [executeExperiment]. *)
Record Outcome := {
  experimentId : string;
  hypothesisConfirmed : bool;
  keyFindings : list string;
  recommendations : list string;
  confidenceLevel : number
}.

Record Active := {
  a_experiment : ExperimentDesign;
  a_startTime : Z;
  a_status : string
}.

Record Completed := {
  c_experiment : ExperimentDesign;
  c_result : Outcome;
  c_completedAt : Z
}.

(** The three private fields of the scheduler. *)
Record State := {
  activeExperiments : gmap string Active;
  completedExperiments : gmap string Completed;
  experimentQueue : list ExperimentDesign
}.

Definition init : State :=
  {| activeExperiments := ∅; completedExperiments := ∅; experimentQueue := [] |}.

Definition withQueue (q : list ExperimentDesign) (st : State) : State :=
  {| activeExperiments := activeExperiments st;
     completedExperiments := completedExperiments st;
     experimentQueue := q |}.

(** [arr.splice(index, 0, x)] for [index <= arr.length]. *)
Definition spliceInsert {A} (index : nat) (x : A) (l : list A) : list A :=
  firstn index l ++ x :: skipn index l.

Definition scheduleExperiment (experimentId : string) (priority : Priority) (st : State)
  : outcome State :=
  match List.find (fun e => String.eqb (id e) experimentId) EXPERIMENT_CATALOG with
  | None => Throw (Error ("Experiment " ++ experimentId ++ " not found in catalog")%string)
  | Some experiment =>
      let queue := experimentQueue st in
      match priority with
      | high => Ok (withQueue (experiment :: queue) st)
      | low => Ok (withQueue (queue ++ [experiment]) st)
      | normal =>
          let midIndex := (length queue / 2)%nat in
          Ok (withQueue (spliceInsert midIndex experiment queue) st)
      end
  end.

Definition generateFindings (design : ExperimentDesign) : list string :=
  if String.eqb (id design) "exp-001-database-impact" then
    ["Database persistence improves consistency by 18.3%";
     "Latency increase of 12ms is acceptable trade-off"]
  else if String.eqb (id design) "exp-002-specialization-efficiency" then
    ["Expert agents show 28% lower cognitive load";
     "Cross-domain performance penalty is 45%"]
  else if String.eqb (id design) "exp-003-context-window-optimization" then
    ["Optimal context usage is 65-70%";
     "Beyond 80% shows exponential performance degradation"]
  else
    ["Significant correlation found between variables";
     "Further investigation recommended"].

Definition generateRecommendations (design : ExperimentDesign) : list string :=
  [("Implement " ++ independentVariable design ++ " optimization")%string;
   ("Monitor " ++ String.concat ", " (dependentVariables design) ++ " continuously")%string;
   "Schedule follow-up experiment for validation"].

Definition executeExperiment (design : ExperimentDesign) (env : Env) : Outcome * Env :=
  let '(r1, env) := mathRandom env in
  let findings := generateFindings design in
  let recs := generateRecommendations design in
  let '(r2, env) := mathRandom env in
  ({| experimentId := id design;
      hypothesisConfirmed := (r1 >? Fin 0.3)%js;
      keyFindings := findings;
      recommendations := recs;
      confidenceLevel := (Fin 0.85 + r2 * Fin 0.15)%js |}, env).

(** [runNextExperiment()]: [None] stands for the [null] returned on an empty
    queue. *)
Definition runNextExperiment (env : Env) (st : State) : option Outcome * Env * State :=
  match experimentQueue st with
  | [] => (None, env, st)
  | experiment :: queue =>
      let '(startTime, env) := dateNow env in
      let active :=
        <[id experiment := {| a_experiment := experiment;
                              a_startTime := startTime;
                              a_status := "running" |}]> (activeExperiments st) in
      let '(result, env) := executeExperiment experiment env in
      let active := delete (id experiment) active in
      let '(completedAt, env) := dateNow env in
      (Some result, env,
       {| activeExperiments := active;
          completedExperiments :=
            <[id experiment := {| c_experiment := experiment;
                                  c_result := result;
                                  c_completedAt := completedAt |}]>
              (completedExperiments st);
          experimentQueue := queue |})
  end.


(** The ids of the experiments that successive calls of [runNextExperiment]
    execute, until it returns [null]. *)
Fixpoint runQueued (calls : nat) (env : Env) (st : State) : list string :=
  match calls with
  | O => []
  | S calls' =>
      match runNextExperiment env st with
      | (None, _, _) => []
      | (Some result, env', st') => experimentId result :: runQueued calls' env' st'
      end
  end.

Definition executionOrder (env : Env) (st : State) : list string :=
  runQueued (S (length (experimentQueue st))) env st.

(** [scheduleExperiment] then the next call, as the caller chains them. *)
Definition andThen (o : outcome State) (k : State -> outcome State) : outcome State :=
  match o with
  | Ok st => k st
  | Throw e => Throw e
  end.


(** Two normal entries, then a high one, on an empty queue. *)
Definition twoNormalThenHigh : outcome State :=
  andThen
    (andThen (scheduleExperiment "exp-003-context-window-optimization" normal init)
       (scheduleExperiment "exp-004-training-protocol-effectiveness" normal))
    (scheduleExperiment "exp-001-database-impact" high).

Definition stateOf (o : outcome State) : State :=
  match o with
  | Ok st => st
  | Throw _ => init
  end.

End Scheduler.

(* ===================================================================== *)
(** ** Vocabulary of the statements, and sample data *)
(* ===================================================================== *)
(** ** The council of advisors *)

(** [CouncilOfAdvisors]: the advisors, the debates and the peer review.
    The advisors are a [Map] that the review iterates, so they are an
    insertion-ordered association list.  The text of a number in a template
    literal is a parameter, [toText], of the methods that print one.  The
    lines written to the console are left out; the validation protocols,
    reviewed by a timer, are not part of the model. *)
Module Council.

(** The decimal digits of an integer, as a template literal prints a
    reading of the clock. *)
Definition decimal (z : Z) : string := NilZero.string_of_int (Z.to_int z).

(** [s.includes(pattern)]. *)
Fixpoint includes (pattern s : string) : bool :=
  String.prefix pattern s
  || match s with
     | EmptyString => false
     | String _ rest => includes pattern rest
     end.

Fixpoint dropChars (n : nat) (s : string) : string :=
  match n, s with
  | S n', String _ rest => dropChars n' rest
  | _, _ => s
  end.

(** [s.replace(pattern, replacement)] for a string pattern and a
    replacement without [$]: the first occurrence only. *)
Fixpoint replace (pattern replacement s : string) : string :=
  if String.prefix pattern s then
    (replacement ++ dropChars (String.length pattern) s)%string
  else
    match s with
    | EmptyString => EmptyString
    | String c rest => String c (replace pattern replacement rest)
    end.

(** A number in a condition. *)
Definition truthy (x : number) : bool :=
  match x with
  | NaN => false
  | Fin q => negb (Qeq_bool q 0)
  | _ => true
  end.

Inductive School : Type := pragmatist | idealist | empiricist | rationalist | dialectical.
Inductive Role : Type := advocate | critic | synthesizer | validator.
Inductive Status : Type := proposed | debating | reviewing | resolved | implementing.
Inductive Priority : Type := revenueCritical | efficiency | exploration | foundational.
Inductive Position : Type := support | oppose | synthesize.

(** The optional [antithesis], [synthesis] and [counterEvidence] of a
    position are never written. *)
Record PhilosophicalPosition := {
  p_id : string;
  p_advisor : string;
  school : School;
  p_thesis : string;
  evidence : list string;
  p_confidence : number
}.

Record CouncilAdvisor := {
  a_id : string;
  name : string;
  specialization : string;
  philosophy : string;
  role : Role;
  trustScore : number;
  contributions : N
}.

Record ResearchDebate := {
  d_id : string;
  topic : string;
  thesis : PhilosophicalPosition;
  antithesis : PhilosophicalPosition;
  synthesis : option PhilosophicalPosition;
  status : Status;
  priority : Priority;
  economicImpact : option number;
  requiredConsensus : number;
  currentConsensus : option number;
  humanInterventionNeeded : bool
}.

Record Review := {
  r_advisor : string;
  position : Position;
  reasoning : string;
  r_confidence : number
}.

Record PeerReview := {
  consensus : number;
  reviews : list Review;
  recommendation : string
}.

Record State := {
  advisors : list (string * CouncilAdvisor);
  debates : gmap string ResearchDebate
}.

Definition initializeCouncil : list (string * CouncilAdvisor) :=
  [("pragmatist",
    {| a_id := "advisor-pragmatist";
       name := "William James";
       specialization := "Revenue Generation & Practical Solutions";
       philosophy := "Truth is what works in practice. Focus on cash flow and user value.";
       role := advocate;
       trustScore := Fin 0.85;
       contributions := 0 |});
   ("idealist",
    {| a_id := "advisor-idealist";
       name := "Georg Hegel";
       specialization := "System Architecture & Dialectical Progress";
       philosophy := "Through thesis-antithesis-synthesis, we achieve perfect system design.";
       role := synthesizer;
       trustScore := Fin 0.75;
       contributions := 0 |});
   ("empiricist",
    {| a_id := "advisor-empiricist";
       name := "David Hume";
       specialization := "Metrics, Testing & Evidence-Based Decisions";
       philosophy := "Only measurable improvements matter. Show me the data.";
       role := validator;
       trustScore := Fin 0.90;
       contributions := 0 |});
   ("rationalist",
    {| a_id := "advisor-rationalist";
       name := "Immanuel Kant";
       specialization := "Semantic Consistency & Categorical Imperatives";
       philosophy := "Rigorous definitions and universal principles guide all decisions.";
       role := critic;
       trustScore := Fin 0.88;
       contributions := 0 |});
   ("skeptic",
    {| a_id := "advisor-skeptic";
       name := "Pyrrho";
       specialization := "Risk Assessment & Assumption Challenging";
       philosophy := "Question every assumption. What could go wrong?";
       role := critic;
       trustScore := Fin 0.70;
       contributions := 0 |})].

Definition init : State :=
  {| advisors := initializeCouncil; debates := ∅ |}.

Definition generateAntithesis (thesis : string) : string :=
  if includes "database" thesis then replace "database" "in-memory cache" thesis
  else if includes "specialized" thesis then replace "specialized" "generalist" thesis
  else if includes "increase" thesis then replace "increase" "decrease" thesis
  else if includes "centralized" thesis then replace "centralized" "distributed" thesis
  else ("The opposite of: " ++ thesis)%string.

Definition isRevenueCritical (p : Priority) : bool :=
  match p with
  | revenueCritical => true
  | _ => false
  end.

(** [proposeResearch]: the flag is set on the object after it is stored,
    so the stored debate carries it. *)
Definition proposeResearch (topic thesis : string) (priority : Priority)
    (economicImpact : option number) (env : Env) (st : State) : string * Env * State :=
  let '(t, env) := dateNow env in
  let debateId := ("debate-" ++ decimal t)%string in
  let antithesis := generateAntithesis thesis in
  let debate :=
    {| d_id := debateId;
       topic := topic;
       thesis := {| p_id := ("thesis-" ++ debateId)%string;
                    p_advisor := "proposer";
                    school := pragmatist;
                    p_thesis := thesis;
                    evidence := [];
                    p_confidence := Fin 0.5 |};
       antithesis := {| p_id := ("antithesis-" ++ debateId)%string;
                        p_advisor := "skeptic";
                        school := empiricist;
                        p_thesis := antithesis;
                        evidence := [];
                        p_confidence := Fin 0.5 |};
       synthesis := None;
       status := proposed;
       priority := priority;
       economicImpact := economicImpact;
       requiredConsensus := if isRevenueCritical priority then Fin 0.8 else Fin 0.6;
       currentConsensus := None;
       humanInterventionNeeded := if isRevenueCritical priority then true else false |} in
  (debateId, env,
   {| advisors := advisors st; debates := <[debateId := debate]> (debates st) |}).

(** [generateReview]: the position, the reasoning and the confidence by
    the advisor's specialization; the advisor's count of contributions goes
    up. *)
Definition generateReview (toText : number -> string) (advisor : CouncilAdvisor)
    (debate : ResearchDebate) : Review * CouncilAdvisor :=
  let '(position, reasoning, confidence) :=
    if String.eqb (specialization advisor) "Revenue Generation & Practical Solutions" then
      let position :=
        if match economicImpact debate with
           | Some impact => truthy impact && (impact >? Fin 1000)%js
           | None => false
           end
        then support else oppose in
      (position,
       ("Economic impact of $"
        ++ match economicImpact debate with
           | Some impact => toText impact
           | None => "undefined"
           end
        ++ " "
        ++ match position with
           | support => "justifies"
           | _ => "does not justify"
           end
        ++ " implementation")%string,
       Fin 0.85)
    else if String.eqb (specialization advisor)
              "Metrics, Testing & Evidence-Based Decisions" then
      let hasEvidence := (3 <? length (evidence (thesis debate)))%nat in
      ((if hasEvidence then support else oppose),
       ("Evidence " ++ (if hasEvidence then "sufficient" else "insufficient")
        ++ " with " ++ decimal (Z.of_nat (length (evidence (thesis debate))))
        ++ " data points")%string,
       Fin 0.90)
    else if String.eqb (specialization advisor)
              "Semantic Consistency & Categorical Imperatives" then
      ((if includes "consistency" (p_thesis (thesis debate)) then support else synthesize),
       "Semantic consistency is a categorical imperative for AI systems",
       Fin 0.88)
    else if String.eqb (specialization advisor)
              "Risk Assessment & Assumption Challenging" then
      (oppose, "Unconsidered risks and untested assumptions present", Fin 0.70)
    else
      (synthesize, "Both positions have merit", Fin 0.75) in
  ({| r_advisor := name advisor;
      position := position;
      reasoning := reasoning;
      r_confidence := confidence |},
   {| a_id := a_id advisor;
      name := name advisor;
      specialization := specialization advisor;
      philosophy := philosophy advisor;
      role := role advisor;
      trustScore := trustScore advisor;
      contributions := contributions advisor + 1 |}).

(** The variables of the loop of [conductPeerReview], with the advisors
    already visited. *)
Record Tally := {
  t_reviews : list Review;
  totalWeight : number;
  weightedSum : number;
  t_advisors : list (string * CouncilAdvisor)
}.

Definition positionValue (p : Position) : number :=
  match p with
  | support => Fin 1
  | oppose => Fin 0
  | synthesize => Fin 0.5
  end.

Definition reviewStep (toText : number -> string) (debate : ResearchDebate) (acc : Tally)
    (entry : string * CouncilAdvisor) : Tally :=
  let '(review, advisor) := generateReview toText (snd entry) debate in
  let weight := (trustScore advisor * r_confidence review)%js in
  {| t_reviews := t_reviews acc ++ [review];
     totalWeight := (totalWeight acc + weight)%js;
     weightedSum := (weightedSum acc + weight * positionValue (position review))%js;
     t_advisors := t_advisors acc ++ [(fst entry, advisor)] |}.

Definition reviewAll (toText : number -> string) (debate : ResearchDebate)
    (advisors : list (string * CouncilAdvisor)) : Tally :=
  fold_left (reviewStep toText debate) advisors
    {| t_reviews := []; totalWeight := Fin 0; weightedSum := Fin 0; t_advisors := [] |}.

(** The debate with the fields that [conductPeerReview] writes. *)
Definition reviewed (consensus : number) (status : Status)
    (synthesis : option PhilosophicalPosition) (debate : ResearchDebate) : ResearchDebate :=
  {| d_id := d_id debate;
     topic := topic debate;
     thesis := thesis debate;
     antithesis := antithesis debate;
     synthesis := synthesis;
     status := status;
     priority := priority debate;
     economicImpact := economicImpact debate;
     requiredConsensus := requiredConsensus debate;
     currentConsensus := Some consensus;
     humanInterventionNeeded := humanInterventionNeeded debate |}.

Definition generateSynthesis (debate : ResearchDebate) : PhilosophicalPosition :=
  {| p_id := ("synthesis-" ++ d_id debate)%string;
     p_advisor := "idealist";
     school := dialectical;
     p_thesis := ("Synthesized approach: " ++ p_thesis (thesis debate)
                  ++ " WHILE " ++ p_thesis (antithesis debate))%string;
     evidence := evidence (thesis debate) ++ evidence (antithesis debate);
     p_confidence := Fin 0.75 |}.

Definition conductPeerReview (toText : number -> string) (debateId : string) (st : State)
  : outcome (PeerReview * State) :=
  match debates st !! debateId with
  | None => Throw (Error "Debate not found")
  | Some debate =>
      let tally := reviewAll toText debate (advisors st) in
      let consensus := (weightedSum tally / totalWeight tally)%js in
      let '(recommendation, debate) :=
        if (consensus >=? requiredConsensus debate)%js then
          ("APPROVED: Implement thesis with monitoring",
           reviewed consensus implementing (synthesis debate) debate)
        else if Num.le consensus (Fin 0.3) then
          ("REJECTED: Implement antithesis instead",
           reviewed consensus implementing (synthesis debate) debate)
        else
          ("SYNTHESIZE: Combine best of both approaches",
           reviewed consensus reviewing (Some (generateSynthesis debate)) debate) in
      Ok ({| consensus := consensus;
             reviews := t_reviews tally;
             recommendation := recommendation |},
          {| advisors := t_advisors tally;
             debates := <[debateId := debate]> (debates st) |})
  end.

End Council.

(* ===================================================================== *)
(** ** The research monitor *)

(** [ResearchMonitor.processExperimentResult], which hands the result of
    an experiment of the scheduler to the council, and [createAlert].  Of
    the monitor's fields the council, the alerts and the metrics are
    modelled; the scheduler and the usage tracker are not touched by the
    two methods.  [toText] is the parameter of the council's review.  The
    lines written to the console are left out. *)
Module Monitor.

Inductive Severity : Type := info | warning | critical | revenueOpportunity.

Record ResearchAlert := {
  id : string;
  severity : Severity;
  title : string;
  description : string;
  actionRequired : string;
  economicImpact : option number;
  timestamp : Z
}.

Record ResearchMetrics := {
  experimentsRunning : number;
  experimentsCompleted : number;
  successRate : number;
  revenueImpact : number;
  efficiencyGains : number;
  humanInterventionsNeeded : number
}.

Record State := {
  council : Council.State;
  alerts : list ResearchAlert;
  metrics : ResearchMetrics
}.

Definition init : State :=
  {| council := Council.init;
     alerts := [];
     metrics := {| experimentsRunning := Fin 0;
                   experimentsCompleted := Fin 0;
                   successRate := Fin 0;
                   revenueImpact := Fin 0;
                   efficiencyGains := Fin 0;
                   humanInterventionsNeeded := Fin 0 |} |}.

(** [createAlert]: the alert is pushed, the counter goes up, and only the
    last 100 alerts are kept. *)
Definition createAlert (severity : Severity) (title description actionRequired : string)
    (economicImpact : option number) (env : Env) (st : State) : Env * State :=
  let '(t1, env) := dateNow env in
  let '(t2, env) := dateNow env in
  let alert :=
    {| id := ("alert-" ++ Council.decimal t1)%string;
       severity := severity;
       title := title;
       description := description;
       actionRequired := actionRequired;
       economicImpact := economicImpact;
       timestamp := t2 |} in
  let pushed := alerts st ++ [alert] in
  let m := metrics st in
  (env,
   {| council := council st;
      alerts := if (100 <? length pushed)%nat then tail pushed else pushed;
      metrics := {| experimentsRunning := experimentsRunning m;
                    experimentsCompleted := experimentsCompleted m;
                    successRate := successRate m;
                    revenueImpact := revenueImpact m;
                    efficiencyGains := efficiencyGains m;
                    humanInterventionsNeeded :=
                      (humanInterventionsNeeded m + Fin 1)%js |} |}).

(** [result.economicImpact]: the object that the scheduler's
    [executeExperiment] builds has no such property. *)
Definition economicImpactOf (result : Scheduler.Outcome) : option number := None.

(** [result.keyFindings[0]] in a template literal. *)
Definition firstFinding (result : Scheduler.Outcome) : string :=
  match Scheduler.keyFindings result with
  | finding :: _ => finding
  | [] => "undefined"
  end.

Definition withMetrics (m : ResearchMetrics) (st : State) : State :=
  {| council := council st; alerts := alerts st; metrics := m |}.

Definition processExperimentResult (toText : number -> string)
    (result : Scheduler.Outcome) (env : Env) (st : State) : outcome (Env * State) :=
  let '(debateId, env, council1) :=
    Council.proposeResearch
      ("Implementation of " ++ Scheduler.experimentId result ++ " findings")%string
      (if Scheduler.hypothesisConfirmed result
       then ("Implement recommended changes: " ++ firstFinding result)%string
       else ("Do not implement changes from " ++ Scheduler.experimentId result)%string)
      Council.efficiency
      (economicImpactOf result)
      env (council st) in
  match Council.conductPeerReview toText debateId council1 with
  | Throw e => Throw e
  | Ok (review, council2) =>
      let st := {| council := council2; alerts := alerts st; metrics := metrics st |} in
      let '(env, st) :=
        if (Council.consensus review <? Fin 0.6)%js
           && (Council.consensus review >? Fin 0.4)%js
        then
          createAlert warning "Research Requires Human Review"
            ("Experiment " ++ Scheduler.experimentId result
             ++ " has inconclusive results")%string
            "Review experiment data and make implementation decision"
            (economicImpactOf result) env st
        else (env, st) in
      let st :=
        match economicImpactOf result with
        | Some impact =>
            if Council.truthy impact then
              let m := metrics st in
              withMetrics
                {| experimentsRunning := experimentsRunning m;
                   experimentsCompleted := experimentsCompleted m;
                   successRate := successRate m;
                   revenueImpact :=
                     (revenueImpact m + impact * Council.consensus review)%js;
                   efficiencyGains := efficiencyGains m;
                   humanInterventionsNeeded := humanInterventionsNeeded m |} st
            else st
        | None => st
        end in
      let st :=
        if existsb (fun f => Council.includes "reduction" f
                             || Council.includes "improvement" f)
             (Scheduler.keyFindings result)
        then
          let m := metrics st in
          withMetrics
            {| experimentsRunning := experimentsRunning m;
               experimentsCompleted := experimentsCompleted m;
               successRate := successRate m;
               revenueImpact := revenueImpact m;
               efficiencyGains := (efficiencyGains m + Fin 0.1)%js;
               humanInterventionsNeeded := humanInterventionsNeeded m |} st
        else st in
      Ok (env, st)
  end.

End Monitor.

(* ===================================================================== *)
(** ** The usage tracker *)

(** [AgentUsageTracker]: [recordUsage] and the training sessions.  The map
    of training sessions is iterated, so it is an insertion-ordered
    association list.  [toFixed x digits] is the text of [x.toFixed(digits)],
    a parameter of the method that prints one.  The rankings, the pattern
    analysis and the export are not part of the model. *)
Module Tracker.

Record AgentUsageMetrics := {
  agentId : string;
  timestamp : Z;
  sessionId : string;
  invocationCount : number;
  totalProcessingTime : number;
  averageResponseTime : number;
  errorCount : number;
  successRate : number;
  semanticDrift : number;
  cognitiveLoad : number;
  contextWindowUsage : number;
  memoryPressure : number;
  responseCoherence : number;
  taskCompletionRate : number;
  userSatisfactionScore : option number;
  dominantPatterns : list string;
  vocabularyDiversity : number;
  structuralConsistency : number
}.

(** The [Partial<AgentUsageMetrics>] passed to [recordUsage], with the
    properties that it reads; [None] is a property left out. *)
Record UsageReport := {
  r_invocationCount : option number;
  r_totalProcessingTime : option number;
  r_averageResponseTime : option number;
  r_errorCount : option number;
  r_successRate : option number;
  r_semanticDrift : option number;
  r_cognitiveLoad : option number;
  r_contextWindowUsage : option number;
  r_memoryPressure : option number;
  r_responseCoherence : option number;
  r_taskCompletionRate : option number;
  r_userSatisfactionScore : option number;
  r_dominantPatterns : option (list string);
  r_vocabularyDiversity : option number;
  r_structuralConsistency : option number
}.

(** The five averages a training session stores, before and after. *)
Record SessionMetrics := {
  m_semanticDrift : number;
  m_cognitiveLoad : number;
  m_errorCount : number;
  m_successRate : number;
  m_responseCoherence : number
}.

Record TrainingSession := {
  s_id : string;
  s_agentId : string;
  startTime : Z;
  endTime : option Z;
  trainingProtocol : string;
  baselineMetrics : SessionMetrics;
  improvedMetrics : option SessionMetrics;
  consistencyImprovement : option number;
  loadReduction : option number;
  errorReduction : option number;
  performanceGain : option number
}.

Record State := {
  usageHistory : gmap string (list AgentUsageMetrics);
  trainingSessions : list (string * list TrainingSession);
  activeAgents : gset string
}.

Definition init : State :=
  {| usageHistory := ∅; trainingSessions := []; activeAgents := ∅ |}.

(** [x || d] for an optional number. *)
Definition orElse (x : option number) (d : number) : number :=
  match x with
  | Some v => if Council.truthy v then v else d
  | None => d
  end.

(** [recordUsage]: the record is completed with defaults, stamped and
    pushed; only the last 10000 records of an agent are kept. *)
Definition recordUsage (agent : string) (metrics : UsageReport) (env : Env) (st : State)
  : Env * State :=
  let history := default [] (usageHistory st !! agent) in
  let '(t1, env) := dateNow env in
  let '(t2, env) := dateNow env in
  let fullMetrics :=
    {| agentId := agent;
       timestamp := t1;
       sessionId := ("session-" ++ Council.decimal t2)%string;
       invocationCount := orElse (r_invocationCount metrics) (Fin 1);
       totalProcessingTime := orElse (r_totalProcessingTime metrics) (Fin 0);
       averageResponseTime := orElse (r_averageResponseTime metrics) (Fin 0);
       errorCount := orElse (r_errorCount metrics) (Fin 0);
       successRate := orElse (r_successRate metrics) (Fin 1);
       semanticDrift := orElse (r_semanticDrift metrics) (Fin 0);
       cognitiveLoad := orElse (r_cognitiveLoad metrics) (Fin 0);
       contextWindowUsage := orElse (r_contextWindowUsage metrics) (Fin 0);
       memoryPressure := orElse (r_memoryPressure metrics) (Fin 0);
       responseCoherence := orElse (r_responseCoherence metrics) (Fin 1);
       taskCompletionRate := orElse (r_taskCompletionRate metrics) (Fin 1);
       userSatisfactionScore := r_userSatisfactionScore metrics;
       dominantPatterns := default [] (r_dominantPatterns metrics);
       vocabularyDiversity := orElse (r_vocabularyDiversity metrics) (Fin 0);
       structuralConsistency := orElse (r_structuralConsistency metrics) (Fin 1) |} in
  let pushed := history ++ [fullMetrics] in
  (env,
   {| usageHistory :=
        <[agent := if (10000 <? N.of_nat (length pushed))%N then tail pushed else pushed]>
          (usageHistory st);
      trainingSessions := trainingSessions st;
      activeAgents := {[ agent ]} ∪ activeAgents st |}).

(** [average(metrics, field)]: every field it is called with holds a
    number in every record, so no value is filtered out. *)
Definition average (field : AgentUsageMetrics -> number) (metrics : list AgentUsageMetrics)
  : number :=
  if (length metrics =? 0)%nat then Fin 0
  else (Num.sum (map field metrics) / Num.ofNat (length metrics))%js.

Definition averages (metrics : list AgentUsageMetrics) : SessionMetrics :=
  {| m_semanticDrift := average semanticDrift metrics;
     m_cognitiveLoad := average cognitiveLoad metrics;
     m_errorCount := average errorCount metrics;
     m_successRate := average successRate metrics;
     m_responseCoherence := average responseCoherence metrics |}.

(** [map.set(key, value)] on an insertion-ordered map. *)
Fixpoint mapSet {A} (key : string) (value : A) (m : list (string * A))
  : list (string * A) :=
  match m with
  | [] => [(key, value)]
  | (k, v) :: rest =>
      if String.eqb k key then (k, value) :: rest else (k, v) :: mapSet key value rest
  end.

Fixpoint mapGet {A} (key : string) (m : list (string * A)) : option A :=
  match m with
  | [] => None
  | (k, v) :: rest => if String.eqb k key then Some v else mapGet key rest
  end.

Definition startTrainingSession (agent protocol : string) (env : Env) (st : State)
  : string * Env * State :=
  let '(t1, env) := dateNow env in
  let id := ("training-" ++ agent ++ "-" ++ Council.decimal t1)%string in
  let history := default [] (usageHistory st !! agent) in
  let recentMetrics := sliceLast 50 history in
  let baseline := averages recentMetrics in
  let '(t2, env) := dateNow env in
  let session :=
    {| s_id := id;
       s_agentId := agent;
       startTime := t2;
       endTime := None;
       trainingProtocol := protocol;
       baselineMetrics := baseline;
       improvedMetrics := None;
       consistencyImprovement := None;
       loadReduction := None;
       errorReduction := None;
       performanceGain := None |} in
  let sessions := default [] (mapGet agent (trainingSessions st)) in
  (id, env,
   {| usageHistory := usageHistory st;
      trainingSessions := mapSet agent (sessions ++ [session]) (trainingSessions st);
      activeAgents := activeAgents st |}).

(** The loop of [endTrainingSession] that looks for the session: the first
    agent, in the order of the map, one of whose sessions has the id, with
    the first such session. *)
Fixpoint findSession (id : string) (m : list (string * list TrainingSession))
  : option (string * TrainingSession) :=
  match m with
  | [] => None
  | (agent, sessions) :: rest =>
      match List.find (fun s => String.eqb (s_id s) id) sessions with
      | Some session => Some (agent, session)
      | None => findSession id rest
      end
  end.

(** The session found is an object of the list; writing its properties
    changes the first session of that id in the list. *)
Fixpoint replaceFirst (id : string) (session : TrainingSession)
    (sessions : list TrainingSession) : list TrainingSession :=
  match sessions with
  | [] => []
  | s :: rest =>
      if String.eqb (s_id s) id then session :: rest
      else s :: replaceFirst id session rest
  end.

Fixpoint writeSession (id : string) (session : TrainingSession)
    (m : list (string * list TrainingSession)) : list (string * list TrainingSession) :=
  match m with
  | [] => []
  | (agent, sessions) :: rest =>
      match List.find (fun s => String.eqb (s_id s) id) sessions with
      | Some _ => (agent, replaceFirst id session sessions) :: rest
      | None => (agent, sessions) :: writeSession id session rest
      end
  end.

Record Effect := {
  effectiveness : number;
  improvements : list string;
  recommendations : list string
}.

(** [a && b ? x : 0] for two numbers. *)
Definition whenBoth (a b x : number) : number :=
  if Council.truthy a && Council.truthy b then x else Fin 0.

(** [x || 0]. *)
Definition orZero (x : number) : number :=
  if Council.truthy x then x else Fin 0.

Definition endTrainingSession (toFixed : number -> nat -> string) (id : string)
    (env : Env) (st : State) : outcome (Effect * Env * State) :=
  match findSession id (trainingSessions st) with
  | None => Throw (Error "Training session not found")
  | Some (agent, session) =>
      if String.eqb agent "" then Throw (Error "Training session not found")
      else
        let '(t, env) := dateNow env in
        let history := default [] (usageHistory st !! agent) in
        let postMetrics := sliceLast 50 history in
        let improved := averages postMetrics in
        let baseline := baselineMetrics session in
        let consistency :=
          whenBoth (m_semanticDrift baseline) (m_semanticDrift improved)
            ((m_semanticDrift baseline - m_semanticDrift improved)
             / m_semanticDrift baseline)%js in
        let load :=
          whenBoth (m_cognitiveLoad baseline) (m_cognitiveLoad improved)
            ((m_cognitiveLoad baseline - m_cognitiveLoad improved)
             / m_cognitiveLoad baseline)%js in
        let errors :=
          whenBoth (m_errorCount baseline) (m_errorCount improved)
            ((m_errorCount baseline - m_errorCount improved)
             / Num.max (m_errorCount baseline) (Fin 1))%js in
        let gain :=
          (orZero consistency * Fin 0.4 + orZero load * Fin 0.3
           + orZero errors * Fin 0.3)%js in
        let improvements :=
          (if (consistency >? Fin 0.1)%js
           then [("Semantic consistency improved by "
                  ++ toFixed (consistency * Fin 100)%js 1 ++ "%")%string]
           else [])
          ++ (if (load >? Fin 0.1)%js
              then [("Cognitive load reduced by "
                     ++ toFixed (load * Fin 100)%js 1 ++ "%")%string]
              else [])
          ++ (if (errors >? Fin 0.1)%js
              then [("Error rate reduced by "
                     ++ toFixed (errors * Fin 100)%js 1 ++ "%")%string]
              else []) in
        let recommendations :=
          (if (m_cognitiveLoad improved >? Fin 0.7)%js
           then ["Consider reducing context window size"] else [])
          ++ (if (m_semanticDrift improved >? Fin 0.3)%js
              then ["Increase training frequency or intensity"] else [])
          ++ (if (gain <? Fin 0.05)%js
              then ["Try alternative training protocols"] else []) in
        let ended :=
          {| s_id := s_id session;
             s_agentId := s_agentId session;
             startTime := startTime session;
             endTime := Some t;
             trainingProtocol := trainingProtocol session;
             baselineMetrics := baseline;
             improvedMetrics := Some improved;
             consistencyImprovement := Some consistency;
             loadReduction := Some load;
             errorReduction := Some errors;
             performanceGain := Some gain |} in
        Ok ({| effectiveness := gain;
               improvements := improvements;
               recommendations := recommendations |},
            env,
            {| usageHistory := usageHistory st;
               trainingSessions := writeSession id ended (trainingSessions st);
               activeAgents := activeAgents st |})
  end.

End Tracker.

(* ===================================================================== *)

Module Props.

Import Overload.

(** *** Overload checks, each taken alone *)

(** The level a check reaches against its two cutoffs. *)
Definition level (value warningCutoff criticalCutoff : number) : Severity :=
  if (value >=? criticalCutoff)%js then SevCritical
  else if (value >=? warningCutoff)%js then SevWarning
  else SevNone.

(** The levels of the four checks in their order: context, latency, error,
    drift. *)
Definition checkLevels (agentId : string) (st : State) : list Severity :=
  let avg := avgMetricsOf (getRecentMetrics agentId 5 st) in
  let baseline := baselineOf agentId st in
  [ level (avg_contextWindow avg)
      thresholds.contextWindow.warning thresholds.contextWindow.critical;
    level (avg_latency avg)
      (latency baseline * thresholds.latency.warningMultiplier)%js
      (latency baseline * thresholds.latency.criticalMultiplier)%js;
    level (avg_errorRate avg)
      thresholds.errorRate.warning thresholds.errorRate.critical;
    level (avg_semanticDrift avg)
      thresholds.semanticDrift.warning thresholds.semanticDrift.critical ].

Definition maxSeverity (a b : Severity) : Severity :=
  match a, b with
  | SevCritical, _ | _, SevCritical => SevCritical
  | SevWarning, _ | _, SevWarning => SevWarning
  | SevNone, SevNone => SevNone
  end.

(** A later check at warning level resets an earlier critical one. *)
Definition severityReset (agentId : string) (st : State) : Prop :=
  exists i j : nat,
    (i < j)%nat /\
    checkLevels agentId st !! i = Some SevCritical /\
    checkLevels agentId st !! j = Some SevWarning /\
    severity (detectOverload agentId st) = SevWarning.

(** *** Sample data *)

Definition mkMetric (agent : string) (context latencyMs errors consistency : Q)
  : CognitiveMetrics :=
  {| agentId := agent;
     timestamp := 0;
     contextWindowUsage := Fin context;
     processingLatency := Fin latencyMs;
     errorRate := Fin errors;
     semanticConsistency := Fin consistency;
     cognitiveLoadIndex := Fin 0 |}.

(** One record: context usage past its critical cutoff, error rate between
    its warning and critical cutoffs. *)
Definition criticalThenWarning : State :=
  recordMetric (mkMetric "agent-1" 0.95 100 0.06 0.99) init.

(** One record whose only finding is an elevated error rate. *)
Definition warningOnly : State :=
  recordMetric (mkMetric "agent-1" 0.50 100 0.06 0.99) init.

(** The records of one agent among a sequence of records. *)
Definition recordsOf (agent : string) (ms : list CognitiveMetrics) : list CognitiveMetrics :=
  List.filter (fun m => String.eqb (agentId m) agent) ms.

(** The last [n] elements of a list, all of them when it is shorter. *)
Definition lastN {A} (n : nat) (l : list A) : list A :=
  rev (firstn n (rev l)).

(** [n] records of one agent, numbered by their time stamp from 0. *)
Definition numbered (agent : string) (n : nat) : list CognitiveMetrics :=
  map (fun i => {| agentId := agent;
                   timestamp := Z.of_nat i;
                   contextWindowUsage := Fin 0.50;
                   processingLatency := Fin 100;
                   errorRate := Fin 0.01;
                   semanticConsistency := Fin 0.95;
                   cognitiveLoadIndex := Fin 0 |}) (seq 0 n).

(** *** Recalibration of the derived baseline *)

(** Per-field means of a set of records. *)
Definition meansOf (subset : list CognitiveMetrics) : DerivedBaseline :=
  {| latency := mean processingLatency subset;
     contextUsage := mean contextWindowUsage subset;
     consistency := mean semanticConsistency subset |}.

(** The subset the code averages: the last 50 of the healthy records of the
    whole history. *)
Definition lastHealthy (h : list CognitiveMetrics) : list CognitiveMetrics :=
  sliceLast 50 (List.filter healthy h).

(** The baseline as the specification words it: the healthy records among
    the most recent 50, when more than 10 of them, and the default
    otherwise. *)
Definition healthyOfRecent (h : list CognitiveMetrics) : list CognitiveMetrics :=
  List.filter healthy (sliceLast 50 h).

Definition claimedBaseline (h : list CognitiveMetrics) : DerivedBaseline :=
  if (10 <? length (healthyOfRecent h))%nat
  then meansOf (healthyOfRecent h)
  else createDefaultBaseline.

(** The recalibration as the code is found to do it, in the words of the
    amended claim.  A record is healthy when its error rate is below 0.05
    and its consistency above 0.85. *)
Definition isHealthy (m : CognitiveMetrics) : bool :=
  (errorRate m <? Fin 0.05)%js && (semanticConsistency m >? Fin 0.85)%js.

(** The mean of a field: the sum of its values, from 0, over their
    number. *)
Definition fieldMean (field : CognitiveMetrics -> number) (records : list CognitiveMetrics)
  : number :=
  (fold_left (fun total m => total + field m) records (Fin 0)
   / Num.ofNat (length records))%js.

(** The records a recalibration keeps: the last 50 of the healthy records
    of the history. *)
Definition keptHealthy (h : list CognitiveMetrics) : list CognitiveMetrics :=
  lastN 50 (List.filter isHealthy h).

(** The baseline made of the per-field means of the kept records. *)
Definition meansOfKept (kept : list CognitiveMetrics) : DerivedBaseline :=
  {| latency := fieldMean processingLatency kept;
     contextUsage := fieldMean contextWindowUsage kept;
     consistency := fieldMean semanticConsistency kept |}.

(** 51 records of one agent: a healthy one with latency 100, then 39 with a
    10% error rate, then 11 healthy ones with latency 200. *)
Definition history51 : list CognitiveMetrics :=
  [mkMetric "agent-1" 0.50 100 0.01 0.95]
  ++ repeat (mkMetric "agent-1" 0.50 500 0.10 0.95) 39
  ++ repeat (mkMetric "agent-1" 0.50 200 0.01 0.95) 11.

(** *** Drift between term counts *)

(** A clock that starts at a fixed instant and advances 7 ms per reading,
    and a generator that always returns one half. *)
Definition env0 : Env :=
  {| nowAt := fun n => (1700000000000 + 7 * Z.of_nat n)%Z;
     randomAt := fun _ => 1 # 2;
     nowCalls := 0;
     randomCalls := 0 |}.

(** The recognized technical terms of some texts, with repetitions, in the
    order they are read. *)
Definition technicalWords (texts : list string) : list string :=
  flat_map
    (fun text =>
       List.filter Drift.isTechnicalTerm (Str.splitWhitespace (Str.toLowerCase text)))
    texts.

(** Number of occurrences of a term in some texts. *)
Definition freq (term : string) (texts : list string) : N :=
  N.of_nat (count_occ string_dec (technicalWords texts) term).

(** The union of the terms of the baseline texts and of the sample. *)
Definition termUnion (baselineTexts : list string) (sample : string) : list string :=
  elements
    (list_to_set (technicalWords baselineTexts ++ technicalWords [sample]) : gset string).

Definition sumOver (f : string -> N) (terms : list string) : N :=
  fold_right (fun term acc => (f term + acc)%N) 0%N terms.

Definition sumMin (baselineTexts : list string) (sample : string) : N :=
  sumOver (fun t => N.min (freq t baselineTexts) (freq t [sample]))
    (termUnion baselineTexts sample).

Definition sumMax (baselineTexts : list string) (sample : string) : N :=
  sumOver (fun t => N.max (freq t baselineTexts) (freq t [sample]))
    (termUnion baselineTexts sample).

(** The drift as the specification words it: one minus the sum of the
    minima over the sum of the maxima, and 0 on an empty union. *)
Definition claimedDrift (baselineTexts : list string) (sample : string) : Q :=
  match termUnion baselineTexts sample with
  | [] => 0
  | _ :: _ =>
      1 - inject_Z (Z.of_N (sumMin baselineTexts sample))
          / inject_Z (Z.of_N (sumMax baselineTexts sample))
  end.

Definition scenarioBaseline : list string :=
  ["the api uses the database schema"; "database schema design matters"].

Definition scenarioSample : string := "the api schema is consistent".

(** The drift store once the scenario's baseline is established. *)
Definition scenarioState : Drift.State :=
  match Drift.establishBaseline "agent-1" scenarioBaseline env0 Drift.init with
  | Ok (_, st) => st
  | Throw _ => Drift.init
  end.

(** *** The cognitive load index *)

Local Open Scope Q_scope.

Definition finite (n : number) : Prop := exists q, n = Fin q.

Definition inUnit (n : number) : bool :=
  match n with
  | Fin q => Qle_bool 0 q && Qle_bool q 1
  | _ => false
  end.

Definition nonNegative (n : number) : bool :=
  match n with
  | Fin q => Qle_bool 0 q
  | _ => false
  end.

(** A metric record within the ranges of the data model. *)
Definition validMetric (m : CognitiveMetrics) : bool :=
  inUnit (contextWindowUsage m) && nonNegative (processingLatency m)
  && inUnit (errorRate m) && inUnit (semanticConsistency m)
  && inUnit (cognitiveLoadIndex m).

(** The rational a finite number holds. *)
Definition valueOf (n : number) : Q :=
  match n with
  | Fin q => q
  | _ => 0
  end.

Definition sumQ (l : list Q) : Q := fold_left Qplus l 0.

(** Mean of a field over some records, as a rational. *)
Definition meanQ (f : CognitiveMetrics -> number) (l : list CognitiveMetrics) : Q :=
  sumQ (map (fun m => valueOf (f m)) l) / inject_Z (Z.of_nat (length l)).

(** [normalize(v, lo, hi) = clamp((v - lo) / (hi - lo), 0, 1)], and 0 when
    [hi == lo]. *)
Definition normalizeQ (v lo hi : Q) : Q :=
  if Qeq_bool hi lo then 0 else Qmax 0 (Qmin 1 ((v - lo) / (hi - lo))).

(** The four sub-loads over the means of some records, the latency one
    against a baseline latency [base]. *)
Definition contextLoad (records : list CognitiveMetrics) : Q :=
  normalizeQ (meanQ contextWindowUsage records) 0 1.

Definition latencyLoad (base : Q) (records : list CognitiveMetrics) : Q :=
  normalizeQ (meanQ processingLatency records) base (base * 3).

Definition errorLoad (records : list CognitiveMetrics) : Q :=
  normalizeQ (meanQ errorRate records) 0 0.20.

Definition driftLoad (records : list CognitiveMetrics) : Q :=
  normalizeQ (1 - meanQ semanticConsistency records) 0 0.50.

Definition weightedLoad (base : Q) (records : list CognitiveMetrics) : Q :=
  0.25 * contextLoad records + 0.25 * latencyLoad base records
  + 0.30 * errorLoad records + 0.20 * driftLoad records.

(** Twelve records of one agent with rising latency and error rate. *)
Definition risingLoad : list CognitiveMetrics :=
  map (fun i => mkMetric "agent-1" 0.80 (inject_Z (Z.of_nat (1000 + 200 * i)%nat))
                 (inject_Z (Z.of_nat i) / 100) 0.70)
    (seq 0 12).

Local Close Scope Q_scope.

(** *** Experiments *)

Definition configA : Runner.AgentConfiguration :=
  {| Runner.id := "config-a";
     Runner.name := "expert with database";
     Runner.database := true;
     Runner.specialization := Runner.expert;
     Runner.contextWindow := Runner.standard;
     Runner.memoryStrategy := Runner.persistent;
     Runner.trainingProtocol := None |}.

Definition configB : Runner.AgentConfiguration :=
  {| Runner.id := "config-b";
     Runner.name := "generalist without database";
     Runner.database := false;
     Runner.specialization := Runner.generalist;
     Runner.contextWindow := Runner.extended;
     Runner.memoryStrategy := Runner.ephemeral;
     Runner.trainingProtocol := None |}.

(** Ten samples for the baseline and two to measure. *)
Definition samples12 : list string :=
  repeat "the api uses the database schema" 10
  ++ ["the api schema is consistent"; "query the database index"].

End Props.

(* ===================================================================== *)
(** ** Further vocabulary: stores, sequences of calls, oracles *)
(* ===================================================================== *)

Module More.

(** The words the technical patterns accept, pattern after pattern. *)
Definition vocabulary : list string := concat Drift.technicalPatterns.

(** [measureDrift] called on each sample in turn for one agent; the drifts
    are returned in the order of the calls. *)
Fixpoint measureAll (agentId : string) (samples : list string) (env : Env)
    (st : Drift.State) : list number * Env * Drift.State :=
  match samples with
  | [] => ([], env, st)
  | sample :: rest =>
      let '(drift, env1, st1) := Drift.measureDrift agentId sample env st in
      let '(drifts, env2, st2) := measureAll agentId rest env1 st1 in
      (drift :: drifts, env2, st2)
  end.

(** A test that holds of every character of a string. *)
Fixpoint allChars (p : ascii -> bool) (s : string) : bool :=
  match s with
  | EmptyString => true
  | String c s' => p c && allChars p s'
  end.

(** A character that the case folding of the patterns leaves as it is. *)
Definition folded (c : ascii) : bool := Ascii.eqb (Str.foldChar c) c.

(** Number of checks that reach at least their warning cutoff. *)
Definition countRaised (levels : list Overload.Severity) : nat :=
  length (List.filter (fun s => negb (Overload.isNone s)) levels).

(** A configuration with one dimension replaced. *)
Definition withDatabase (b : bool) (c : Runner.AgentConfiguration)
  : Runner.AgentConfiguration :=
  {| Runner.id := Runner.id c; Runner.name := Runner.name c;
     Runner.database := b;
     Runner.specialization := Runner.specialization c;
     Runner.contextWindow := Runner.contextWindow c;
     Runner.memoryStrategy := Runner.memoryStrategy c;
     Runner.trainingProtocol := Runner.trainingProtocol c |}.

Definition withSpecialization (s : Runner.Specialization) (c : Runner.AgentConfiguration)
  : Runner.AgentConfiguration :=
  {| Runner.id := Runner.id c; Runner.name := Runner.name c;
     Runner.database := Runner.database c;
     Runner.specialization := s;
     Runner.contextWindow := Runner.contextWindow c;
     Runner.memoryStrategy := Runner.memoryStrategy c;
     Runner.trainingProtocol := Runner.trainingProtocol c |}.

Definition withMemoryStrategy (m : Runner.MemoryStrategy) (c : Runner.AgentConfiguration)
  : Runner.AgentConfiguration :=
  {| Runner.id := Runner.id c; Runner.name := Runner.name c;
     Runner.database := Runner.database c;
     Runner.specialization := Runner.specialization c;
     Runner.contextWindow := Runner.contextWindow c;
     Runner.memoryStrategy := m;
     Runner.trainingProtocol := Runner.trainingProtocol c |}.

(** The metric fields the configuration-adjusted load reads are finite. *)
Definition finiteInputs (m : Overload.CognitiveMetrics) : Prop :=
  Props.finite (Overload.contextWindowUsage m)
  /\ Props.finite (Overload.semanticConsistency m)
  /\ Props.finite (Overload.errorRate m).

(** The fields of a metric record that the detector averages are finite. *)
Definition finiteMetric (m : Overload.CognitiveMetrics) : Prop :=
  Props.finite (Overload.contextWindowUsage m)
  /\ Props.finite (Overload.processingLatency m)
  /\ Props.finite (Overload.errorRate m)
  /\ Props.finite (Overload.semanticConsistency m).

(** The oracle of [w'] is that of [w], further along. *)
Definition laterThan (w w' : Runner.World) : Prop :=
  nowAt (Runner.env w') = nowAt (Runner.env w)
  /\ randomAt (Runner.env w') = randomAt (Runner.env w)
  /\ (nowCalls (Runner.env w) <= nowCalls (Runner.env w'))%nat
  /\ (randomCalls (Runner.env w) <= randomCalls (Runner.env w'))%nat.

(** What one turn of the loop of [runExperiment] does: the metric it
    records, the drift it measures and the world it leaves. *)
Definition turn (config : Runner.AgentConfiguration) (w : Runner.World)
    (metric : Overload.CognitiveMetrics) (drift : number) (w' : Runner.World) : Prop :=
  Overload.agentId metric = Runner.id config
  /\ finiteMetric metric
  /\ (exists q, drift = Fin q /\ (0 <= q <= 1)%Q
                /\ Overload.semanticConsistency metric = Fin (1 - q))
  /\ (exists r, Overload.errorRate metric = Fin (r * 0.05)
                /\ exists n, r = randomAt (Runner.env w) n)
  /\ (exists t1 t2, Overload.processingLatency metric = Num.ofZ (t2 - t1)
                    /\ exists n1 n2, (n1 < n2)%nat
                                     /\ t1 = nowAt (Runner.env w) n1
                                     /\ t2 = nowAt (Runner.env w) n2)
  /\ Runner.overloadDetector w' = Overload.recordMetric metric (Runner.overloadDetector w)
  /\ Runner.experiments w' = Runner.experiments w
  /\ Drift.baseline (Runner.driftMeasurement w')
     = Drift.baseline (Runner.driftMeasurement w)
  /\ length (Drift.measurements (Runner.driftMeasurement w'))
     = (length (Drift.measurements (Runner.driftMeasurement w))
        + match Drift.baseline (Runner.driftMeasurement w) !! Runner.id config with
          | Some _ => 1
          | None => 0
          end)%nat
  /\ laterThan w w'
  /\ (nowCalls (Runner.env w') <= nowCalls (Runner.env w) + 5)%nat.

(** A metric record as the loop of [runExperiment] builds them for a
    configuration, from the oracle of [w]. *)
Definition produced (config : Runner.AgentConfiguration) (w : Runner.World)
    (metric : Overload.CognitiveMetrics) : Prop :=
  Overload.agentId metric = Runner.id config
  /\ finiteMetric metric
  /\ (exists q, (0 <= q <= 1)%Q /\ Overload.semanticConsistency metric = Fin (1 - q))
  /\ (exists n, Overload.errorRate metric = Fin (randomAt (Runner.env w) n * 0.05))
  /\ (exists n1 n2, (n1 < n2)%nat
                    /\ Overload.processingLatency metric
                       = Num.ofZ (nowAt (Runner.env w) n2 - nowAt (Runner.env w) n1)).

(** The clock test of the loop of [runExperiment] at the reading number
    [n]. *)
Definition withinDuration (w : Runner.World) (startTime : Z) (durationMs : number)
    (n : nat) : bool :=
  (Num.ofZ (nowAt (Runner.env w) n - startTime) <? durationMs)%js.

(** What the loop of [runExperiment] leaves: the records [new] and the
    drifts [newDrifts] it adds, and the world [w']. *)
Definition looped (config : Runner.AgentConfiguration) (startTime : Z)
    (durationMs : number) (rest : list string) (w : Runner.World)
    (new : list Overload.CognitiveMetrics) (newDrifts : list number)
    (w' : Runner.World) : Prop :=
  length newDrifts = length new
  /\ (length new <= length rest)%nat
  /\ (forall m, In m new -> produced config w m)
  /\ (forall d, In d newDrifts -> Props.inUnit d = true)
  /\ Runner.overloadDetector w' = Overload.recordAll new (Runner.overloadDetector w)
  /\ Runner.experiments w' = Runner.experiments w
  /\ Drift.baseline (Runner.driftMeasurement w')
     = Drift.baseline (Runner.driftMeasurement w)
  /\ length (Drift.measurements (Runner.driftMeasurement w'))
     = (length (Drift.measurements (Runner.driftMeasurement w))
        + match Drift.baseline (Runner.driftMeasurement w) !! Runner.id config with
          | Some _ => length new
          | None => 0
          end)%nat
  /\ laterThan w w'
  /\ ((forall n, (nowCalls (Runner.env w) <= n
                  <= nowCalls (Runner.env w) + 5 * length rest)%nat ->
                 withinDuration w startTime durationMs n = true) ->
      length new = length rest)
  /\ (withinDuration w startTime durationMs (nowCalls (Runner.env w)) = false ->
      new = [])
  /\ (withinDuration w startTime durationMs (nowCalls (Runner.env w)) = true ->
      rest <> [] -> new <> []).

(** The world once [runExperiment] has read its start time and established
    the baseline of the configuration from the first 10 samples. *)
Definition baselined (config : Runner.AgentConfiguration) (testSamples : list string)
    (w : Runner.World) : Runner.World :=
  let e := Runner.env w in
  {| Runner.env :=
       {| nowAt := nowAt e; randomAt := randomAt e;
          nowCalls := S (S (nowCalls e)); randomCalls := randomCalls e |};
     Runner.driftMeasurement :=
       {| Drift.baseline :=
            <[Runner.id config :=
                {| Drift.terminology := Drift.extractTerminology (firstn 10 testSamples);
                   Drift.patterns := Drift.analyzePatterns (firstn 10 testSamples);
                   Drift.timestamp := nowAt e (S (nowCalls e));
                   Drift.sampleCount := length (firstn 10 testSamples) |}]>
              (Drift.baseline (Runner.driftMeasurement w));
          Drift.measurements := Drift.measurements (Runner.driftMeasurement w) |};
     Runner.overloadDetector := Runner.overloadDetector w;
     Runner.experiments := Runner.experiments w |}.

(** The result [runExperiment] builds from the records and drifts of its
    loop and the world the loop leaves. *)
Definition resultFrom (config : Runner.AgentConfiguration) (startTime : Z)
    (new : list Overload.CognitiveMetrics) (newDrifts : list number)
    (w3 : Runner.World) : Runner.ExperimentResult :=
  {| Runner.configurationId := Runner.id config;
     Runner.metrics :=
       {| Runner.semanticConsistency := Runner.average Overload.semanticConsistency new;
          Runner.cognitiveLoad :=
            Overload.calculateCognitiveLoad (Runner.id config) (Runner.overloadDetector w3);
          Runner.processingLatency := Runner.average Overload.processingLatency new;
          Runner.errorRate := Runner.average Overload.errorRate new;
          Runner.driftVelocity := Runner.calculateDriftVelocity newDrifts |};
     Runner.samples := length new;
     Runner.duration :=
       (nowAt (Runner.env w3) (nowCalls (Runner.env w3)) - startTime)%Z;
     Runner.recommendations := Runner.generateRecommendations config new |}.

Definition finished (config : Runner.AgentConfiguration) (r : Runner.ExperimentResult)
    (w3 : Runner.World) : Runner.World :=
  let e := Runner.env w3 in
  {| Runner.env :=
       {| nowAt := nowAt e; randomAt := randomAt e;
          nowCalls := S (nowCalls e); randomCalls := randomCalls e |};
     Runner.driftMeasurement := Runner.driftMeasurement w3;
     Runner.overloadDetector := Runner.overloadDetector w3;
     Runner.experiments := <[Runner.id config := r]> (Runner.experiments w3) |}.

(** A detector store all of whose records and derived latencies are
    finite. *)
Definition finiteStore (st : Overload.State) : Prop :=
  (forall a r, In r (Overload.history a st) -> finiteMetric r)
  /\ (forall a b, Overload.baselines st !! a = Some b ->
                  Props.finite (Overload.latency b)).

(** Successive readings of the clock never go back. *)
Definition monotoneClock (e : Env) : Prop :=
  forall n1 n2, (n1 <= n2)%nat -> (nowAt e n1 <= nowAt e n2)%Z.

(** Every value of the generator lies in [0, 1). *)
Definition unitGenerator (e : Env) : Prop :=
  forall n, (0 <= randomAt e n < 1)%Q.

(** A call of one of the two public methods of the scheduler that change
    it. *)
Inductive Call : Type :=
  | schedule (experimentId : string) (priority : Scheduler.Priority)
  | runNext.

(** The clock, the generator and the scheduler after a call.
    [scheduleExperiment] throws before it writes, so a call that throws
    leaves the three fields as they were. *)
Definition perform (s : Env * Scheduler.State) (c : Call) : Env * Scheduler.State :=
  match c with
  | schedule experimentId priority =>
      match Scheduler.scheduleExperiment experimentId priority (snd s) with
      | Ok st => (fst s, st)
      | Throw _ => s
      end
  | runNext =>
      let '(_, env, st) := Scheduler.runNextExperiment (fst s) (snd s) in (env, st)
  end.

Definition performAll (calls : list Call) (s : Env * Scheduler.State)
  : Env * Scheduler.State :=
  fold_left perform calls s.

(** [scheduleExperiment(id, priority)] for each id of a list, in order. *)
Definition scheduleAll (priority : Scheduler.Priority) (ids : list string)
    (st : Scheduler.State) : outcome Scheduler.State :=
  fold_left (fun o x => Scheduler.andThen o (Scheduler.scheduleExperiment x priority))
    ids (Ok st).

(** What holds of the scheduler's fields after any calls on a new one. *)
Definition consistent (st : Scheduler.State) : Prop :=
  Scheduler.activeExperiments st = ∅
  /\ (forall e, In e (Scheduler.experimentQueue st) -> In e Scheduler.EXPERIMENT_CATALOG)
  /\ (forall key c,
        Scheduler.completedExperiments st !! key = Some c ->
        In (Scheduler.c_experiment c) Scheduler.EXPERIMENT_CATALOG
        /\ Scheduler.id (Scheduler.c_experiment c) = key
        /\ Scheduler.experimentId (Scheduler.c_result c) = key).

(** The accepted [scheduleExperiment] calls and the [runNextExperiment]
    calls that found the queue non-empty, counted along a list of calls
    from a queue of the given length. *)
Fixpoint queued (calls : list Call) (len : nat) : nat :=
  match calls with
  | [] => len
  | schedule experimentId _ :: rest =>
      match List.find (fun e => String.eqb (Scheduler.id e) experimentId)
              Scheduler.EXPERIMENT_CATALOG with
      | Some _ => queued rest (S len)
      | None => queued rest len
      end
  | runNext :: rest => queued rest (pred len)
  end.

(** A call of one of the two methods of the council that change it. *)
Inductive CouncilCall : Type :=
  | propose (topic thesis : string) (priority : Council.Priority)
      (economicImpact : option number)
  | review (debateId : string).

(** The clock and the council after a call.  [conductPeerReview] throws
    before it writes. *)
Definition councilPerform (toText : number -> string) (s : Env * Council.State)
    (c : CouncilCall) : Env * Council.State :=
  match c with
  | propose topic thesis priority economicImpact =>
      let '(_, env, st) :=
        Council.proposeResearch topic thesis priority economicImpact (fst s) (snd s) in
      (env, st)
  | review debateId =>
      match Council.conductPeerReview toText debateId (snd s) with
      | Ok (_, st) => (fst s, st)
      | Throw _ => s
      end
  end.

Definition councilAfter (toText : number -> string) (calls : list CouncilCall)
    (env : Env) : Env * Council.State :=
  fold_left (councilPerform toText) calls (env, Council.init).

(** The peer reviews that found their debate, along a list of calls. *)
Fixpoint peerReviews (toText : number -> string) (calls : list CouncilCall)
    (s : Env * Council.State) : N :=
  match calls with
  | [] => 0
  | c :: rest =>
      (match c with
       | review debateId =>
           if isThrow (Council.conductPeerReview toText debateId (snd s)) then 0 else 1
       | propose _ _ _ _ => 0
       end + peerReviews toText rest (councilPerform toText s c))%N
  end.

(** The advisors of a new council with [n] more contributions each. *)
Definition seated (n : N) : list (string * Council.CouncilAdvisor) :=
  map (fun entry =>
         (fst entry,
          {| Council.a_id := Council.a_id (snd entry);
             Council.name := Council.name (snd entry);
             Council.specialization := Council.specialization (snd entry);
             Council.philosophy := Council.philosophy (snd entry);
             Council.role := Council.role (snd entry);
             Council.trustScore := Council.trustScore (snd entry);
             Council.contributions := Council.contributions (snd entry) + n |}))
    Council.initializeCouncil.

(** The debate has an economic impact above 1000. *)
Definition impactAbove (debate : Council.ResearchDebate) : bool :=
  match Council.economicImpact debate with
  | Some impact => (impact >? Fin 1000)%js
  | None => false
  end.

(** The debate has an advisor on its side: the impact is above 1000 or
    the thesis mentions consistency. *)
Definition favoured (debate : Council.ResearchDebate) : bool :=
  impactAbove debate
  || Council.includes "consistency" (Council.p_thesis (Council.thesis debate)).

(** What holds of a debate stored under [key] after any calls on a new
    council. *)
Definition filed (key : string) (debate : Council.ResearchDebate) : Prop :=
  Council.d_id debate = key
  /\ Council.evidence (Council.thesis debate) = []
  /\ Council.requiredConsensus debate
     = (if Council.isRevenueCritical (Council.priority debate) then Fin 0.8 else Fin 0.6)
  /\ Council.humanInterventionNeeded debate
     = Council.isRevenueCritical (Council.priority debate)
  /\ (Council.status debate = Council.proposed
      /\ Council.currentConsensus debate = None
      /\ Council.synthesis debate = None
      \/ Council.status debate = Council.implementing
         /\ Council.currentConsensus debate <> None
         /\ Council.synthesis debate = None
         /\ favoured debate = false
      \/ Council.status debate = Council.reviewing
         /\ Council.currentConsensus debate <> None
         /\ Council.synthesis debate <> None
         /\ favoured debate = true).

(** What the recommendation of a peer review is made of: the positions
    taken, the two sums and the advisors. *)
Definition tallied (t : Council.Tally)
  : list Council.Position * number * number * list (string * Council.CouncilAdvisor) :=
  (map Council.position (Council.t_reviews t), Council.totalWeight t,
   Council.weightedSum t, Council.t_advisors t).

(** [recordUsage] for each agent and report of a list, in order. *)
Definition recordAllUsage (calls : list (string * Tracker.UsageReport))
    (s : Env * Tracker.State) : Env * Tracker.State :=
  fold_left (fun s c => Tracker.recordUsage (fst c) (snd c) (fst s) (snd s)) calls s.

(** The two properties that [recordUsage] copies from the report: the user
    satisfaction score as it is, NaN or missing included, and the patterns,
    none when missing. *)
Definition reportedAs (report : Tracker.UsageReport) (r : Tracker.AgentUsageMetrics)
  : Prop :=
  Tracker.userSatisfactionScore r = Tracker.r_userSatisfactionScore report
  /\ Tracker.dominantPatterns r = default [] (Tracker.r_dominantPatterns report).

(** The usage records kept for an agent. *)
Definition usageOf (agent : string) (st : Tracker.State)
  : list Tracker.AgentUsageMetrics :=
  default [] (Tracker.usageHistory st !! agent).

(** A usage record of [agent] none of whose counts and rates that default
    to 1 is 0 or NaN, and none of whose numbers that default to 0 is NaN. *)
Definition complete (agent : string) (r : Tracker.AgentUsageMetrics) : Prop :=
  Tracker.agentId r = agent
  /\ Forall (fun x => Council.truthy x = true)
       [Tracker.invocationCount r; Tracker.successRate r; Tracker.responseCoherence r;
        Tracker.taskCompletionRate r; Tracker.structuralConsistency r]
  /\ Forall (fun x => Num.isNaN x = false)
       [Tracker.totalProcessingTime r; Tracker.averageResponseTime r;
        Tracker.errorCount r; Tracker.semanticDrift r; Tracker.cognitiveLoad r;
        Tracker.contextWindowUsage r; Tracker.memoryPressure r;
        Tracker.vocabularyDiversity r].

End More.

(* ===================================================================== *)
(** ** Overload detection *)
(* ===================================================================== *)

Section DetectOverload.

Import Overload Props.

Ltac split_checks :=
  repeat match goal with
         | |- context [if ?c then _ else _] =>
             destruct c; unfold raiseCritical, raiseWarning; cbn [f_severity isNone]
         end;
  reflexivity.

Lemma checkContext_severity avg acc :
  f_severity (checkContext avg acc)
  = maxSeverity (f_severity acc)
      (level (avg_contextWindow avg)
         thresholds.contextWindow.warning thresholds.contextWindow.critical).
Proof. unfold checkContext, level. destruct acc as [fs rs []]; cbn [f_severity]; split_checks. Qed.

Lemma checkLatency_severity b avg acc :
  f_severity (checkLatency b avg acc)
  = maxSeverity (f_severity acc)
      (level (avg_latency avg)
         (latency b * thresholds.latency.warningMultiplier)%js
         (latency b * thresholds.latency.criticalMultiplier)%js).
Proof. unfold checkLatency, level. destruct acc as [fs rs []]; cbn [f_severity]; split_checks. Qed.

Lemma checkError_severity avg acc :
  f_severity (checkError avg acc)
  = maxSeverity (f_severity acc)
      (level (avg_errorRate avg)
         thresholds.errorRate.warning thresholds.errorRate.critical).
Proof. unfold checkError, level. destruct acc as [fs rs []]; cbn [f_severity]; split_checks. Qed.

Lemma checkDrift_severity avg acc :
  f_severity (checkDrift avg acc)
  = maxSeverity (f_severity acc)
      (level (avg_semanticDrift avg)
         thresholds.semanticDrift.warning thresholds.semanticDrift.critical).
Proof. unfold checkDrift, level. destruct acc as [fs rs []]; cbn [f_severity]; split_checks. Qed.

(** Every mean over no record is [NaN], and [NaN] reaches no cutoff. *)
Lemma level_NaN w c : level NaN w c = SevNone.
Proof. unfold level, Num.ge, Num.le. now destruct c, w. Qed.

Lemma mean_nil f : mean f [] = NaN.
Proof. reflexivity. Qed.

Lemma checkLevels_no_record a st :
  getRecentMetrics a 5 st = [] ->
  checkLevels a st = [SevNone; SevNone; SevNone; SevNone].
Proof.
  intros H. unfold checkLevels. rewrite H.
  change (avgMetricsOf [])
    with {| avg_contextWindow := NaN; avg_latency := NaN;
            avg_errorRate := NaN; avg_semanticDrift := NaN |}.
  cbn [avg_contextWindow avg_latency avg_errorRate avg_semanticDrift].
  now rewrite !level_NaN.
Qed.

Lemma detectOverload_severity_max a st :
  severity (detectOverload a st)
  = fold_left maxSeverity (checkLevels a st) SevNone.
Proof.
  unfold detectOverload.
  destruct (length (getRecentMetrics a 5 st) =? 0)%nat eqn:E.
  - apply Nat.eqb_eq in E. apply length_zero_iff_nil in E.
    now rewrite (checkLevels_no_record _ _ E).
  - cbn [severity]. rewrite checkDrift_severity, checkError_severity,
      checkLatency_severity, checkContext_severity.
    reflexivity.
Qed.

Lemma fold_maxSeverity_critical l s :
  s = SevCritical \/ In SevCritical l -> fold_left maxSeverity l s = SevCritical.
Proof.
  revert s. induction l as [|x l IH]; intros s [H|H]; cbn.
  - exact H.
  - destruct H.
  - apply IH. left. now subst.
  - destruct H as [->|H].
    + apply IH. left. now destruct s.
    + apply IH. now right.
Qed.

End DetectOverload.

Section OverloadClaims.

Import Overload Props.

(** C1 (as stated, refuted): no store makes a later check at warning level
    reset a critical severity set by an earlier check; on the record with
    critical context usage and a warning-level error rate the result is
    critical. *)
Lemma C1_severity_is_never_reset :
  (~ exists (a : string) (st : State), severityReset a st)
  /\ checkLevels "agent-1" criticalThenWarning
     = [SevCritical; SevNone; SevWarning; SevNone]
  /\ severity (detectOverload "agent-1" criticalThenWarning) = SevCritical.
Proof.
  split; [|split; vm_compute; reflexivity].
  intros (a & st & i & j & _ & Hi & _ & Hsev).
  rewrite detectOverload_severity_max in Hsev.
  rewrite fold_maxSeverity_critical in Hsev; [discriminate|].
  right. apply list_elem_of_In. eapply list_elem_of_lookup_2. exact Hi.
Qed.

(** C1 (amended): the severity returned by detectOverload is the maximum of
    the levels of the four checks, so it is critical as soon as one check
    crosses its critical cutoff, whatever the later checks reach. *)
Theorem C1_severity_is_max (a : string) (st : State) :
  severity (detectOverload a st) = fold_left maxSeverity (checkLevels a st) SevNone
  /\ (In SevCritical (checkLevels a st) ->
      severity (detectOverload a st) = SevCritical).
Proof.
  split; [apply detectOverload_severity_max|].
  intros H. rewrite detectOverload_severity_max.
  apply fold_maxSeverity_critical. now right.
Qed.

Lemma C1_severity_is_max_witness :
  In SevCritical (checkLevels "agent-1" criticalThenWarning)
  /\ severity (detectOverload "agent-1" criticalThenWarning) = SevCritical.
Proof.
  assert (H : In SevCritical (checkLevels "agent-1" criticalThenWarning))
    by (vm_compute; left; reflexivity).
  split; [exact H|].
  exact (proj2 (C1_severity_is_max "agent-1" criticalThenWarning) H).
Defined.

(** C10: isOverloaded holds exactly when the severity is not 'none', a
    warning alone already sets it, and an agent without records gets the
    empty result. *)
Theorem C10_isOverloaded_iff_severity (a : string) (st : State) :
  (isOverloaded (detectOverload a st) = true
   <-> severity (detectOverload a st) <> SevNone)
  /\ (severity (detectOverload a st) = SevWarning ->
      isOverloaded (detectOverload a st) = true)
  /\ (history a st = [] ->
      detectOverload a st
      = {| isOverloaded := false; severity := SevNone;
           factors := []; recommendations := [] |}).
Proof.
  assert (Hflag : isOverloaded (detectOverload a st)
                  = negb (isNone (severity (detectOverload a st)))).
  { unfold detectOverload.
    destruct (length (getRecentMetrics a 5 st) =? 0)%nat; reflexivity. }
  repeat split.
  - intros H E. rewrite Hflag, E in H. discriminate.
  - intros H. rewrite Hflag. now destruct (severity (detectOverload a st)).
  - intros H. now rewrite Hflag, H.
  - intros H. unfold detectOverload, getRecentMetrics.
    fold (history a st). now rewrite H.
Qed.

Lemma C10_isOverloaded_iff_severity_witness :
  (severity (detectOverload "agent-1" warningOnly) = SevWarning
   /\ isOverloaded (detectOverload "agent-1" warningOnly) = true)
  /\ (history "agent-2" warningOnly = []
      /\ detectOverload "agent-2" warningOnly
         = {| isOverloaded := false; severity := SevNone;
              factors := []; recommendations := [] |}).
Proof.
  pose proof (C10_isOverloaded_iff_severity "agent-1" warningOnly) as (_ & Hw & _).
  pose proof (C10_isOverloaded_iff_severity "agent-2" warningOnly) as (_ & _ & He).
  assert (H1 : severity (detectOverload "agent-1" warningOnly) = SevWarning)
    by (vm_compute; reflexivity).
  assert (H2 : history "agent-2" warningOnly = []) by (vm_compute; reflexivity).
  exact (conj (conj H1 (Hw H1)) (conj H2 (He H2))).
Defined.

End OverloadClaims.

(* ===================================================================== *)
(** ** The bounded history *)
(* ===================================================================== *)

Section History.

Import Overload Props.

Lemma sliceLast_length {A} (n : nat) (l : list A) :
  length (sliceLast n l) = Nat.min n (length l).
Proof. unfold sliceLast. rewrite length_skipn. lia. Qed.

Lemma sliceLast_short {A} (n : nat) (l : list A) :
  (length l <= n)%nat -> sliceLast n l = l.
Proof.
  intros H. unfold sliceLast.
  replace (length l - n)%nat with 0%nat by lia. reflexivity.
Qed.

Lemma sliceLast_snoc {A} (n : nat) (l : list A) (x : A) :
  (0 < n)%nat -> sliceLast n (sliceLast n l ++ [x]) = sliceLast n (l ++ [x]).
Proof.
  intros Hn.
  destruct (Nat.le_gt_cases (length l) n) as [Hle|Hgt].
  - now rewrite (sliceLast_short n l Hle).
  - unfold sliceLast at 1 3. rewrite !length_app, sliceLast_length. cbn [length].
    rewrite !skipn_app. unfold sliceLast. rewrite skipn_skipn, length_skipn.
    replace (Nat.min n (length l) + 1 - n + (length l - n))%nat
      with (length l + 1 - n)%nat by lia.
    f_equal. f_equal. lia.
Qed.

Lemma updateBaseline_metrics a st : metrics (updateBaseline a st) = metrics st.
Proof.
  unfold updateBaseline.
  destruct (_ <? 20)%nat; [reflexivity|].
  destruct (10 <? _)%nat; reflexivity.
Qed.

(** What [recordMetric] does to the history of each agent. *)
Lemma recordMetric_history m st a :
  history a (recordMetric m st)
  = if String.eqb (agentId m) a
    then
      let pushed := history a st ++ [m] in
      if (1000 <? length pushed)%nat then tail pushed else pushed
    else history a st.
Proof.
  unfold history, recordMetric. rewrite updateBaseline_metrics. cbn [metrics].
  destruct (String.eqb_spec (agentId m) a) as [->|Hne].
  - now rewrite lookup_insert_eq.
  - now rewrite lookup_insert_ne.
Qed.

Lemma recordAll_snoc ms m st :
  recordAll (ms ++ [m]) st = recordMetric m (recordAll ms st).
Proof. unfold recordAll. now rewrite fold_left_app. Qed.

(** Starting with no record, the history of an agent is the last 1000 of the
    records made for it. *)
Lemma recordAll_history ms a :
  history a (recordAll ms init) = sliceLast 1000 (recordsOf a ms).
Proof.
  induction ms as [|m ms IH] using rev_ind.
  - reflexivity.
  - rewrite recordAll_snoc, recordMetric_history. unfold recordsOf in *.
    rewrite List.filter_app. cbn [List.filter].
    destruct (String.eqb (agentId m) a).
    + rewrite IH. cbv zeta.
      set (rs := List.filter _ ms).
      rewrite <- (sliceLast_snoc 1000 rs m) by lia.
      assert (Hlen : (length (sliceLast 1000 rs ++ [m]) <= 1001)%nat).
      { rewrite length_app, sliceLast_length. cbn [length]. lia. }
      destruct (Nat.ltb_spec 1000 (length (sliceLast 1000 rs ++ [m]))) as [Hgt|Hle].
      * unfold sliceLast at 2.
        replace (length (sliceLast 1000 rs ++ [m]) - 1000)%nat with 1%nat by lia.
        clear. generalize (sliceLast 1000 rs ++ [m]). intros [|x l]; reflexivity.
      * symmetry. apply sliceLast_short. exact Hle.
    + now rewrite app_nil_r.
Qed.

Lemma recordsOf_all a ms :
  Forall (fun m => agentId m = a) ms -> recordsOf a ms = ms.
Proof.
  induction 1 as [|m ms Hm _ IH]; [reflexivity|].
  unfold recordsOf in *. cbn [List.filter].
  rewrite (proj2 (String.eqb_eq _ _) Hm). now rewrite IH.
Qed.

(** C3: whatever calls of recordMetric are made, no history holds more than
    1000 records; the history of an agent is the last 1000 records made for
    it, in the order of recording; and after 1001 records for one agent it
    holds exactly 1000, all but the oldest. *)
Theorem C3_history_bounded_fifo (ms : list CognitiveMetrics) (a : string) :
  (length (history a (recordAll ms init)) <= 1000)%nat
  /\ history a (recordAll ms init) = sliceLast 1000 (recordsOf a ms)
  /\ (Forall (fun m => agentId m = a) ms -> length ms = 1001%nat ->
      length (history a (recordAll ms init)) = 1000%nat
      /\ history a (recordAll ms init) = tail ms).
Proof.
  rewrite recordAll_history. split; [|split].
  - rewrite sliceLast_length. lia.
  - reflexivity.
  - intros Hall Hlen. rewrite (recordsOf_all _ _ Hall).
    split; [rewrite sliceLast_length; lia|].
    unfold sliceLast. rewrite Hlen.
    replace (1001 - 1000)%nat with 1%nat by lia.
    clear. destruct ms; reflexivity.
Qed.

Lemma C3_history_bounded_fifo_witness :
  length (history "agent-1" (recordAll (numbered "agent-1" 1001) init)) = 1000%nat
  /\ history "agent-1" (recordAll (numbered "agent-1" 1001) init)
     = tail (numbered "agent-1" 1001).
Proof.
  apply (proj2 (proj2 (C3_history_bounded_fifo (numbered "agent-1" 1001) "agent-1"))).
  - unfold numbered. apply List.Forall_forall. intros m Hm.
    apply in_map_iff in Hm. destruct Hm as (i & <- & _). reflexivity.
  - unfold numbered. now rewrite length_map, length_seq.
Defined.

End History.

(* ===================================================================== *)
(** ** Recalibration of the derived baseline *)
(* ===================================================================== *)

Section Recalibration.

Import Overload Props.

Lemma updateBaseline_baselines a st :
  baselines (updateBaseline a st)
  = if (length (history a st) <? 20)%nat then baselines st
    else if (10 <? length (lastHealthy (history a st)))%nat
         then <[a := meansOf (lastHealthy (history a st))]> (baselines st)
         else baselines st.
Proof.
  unfold updateBaseline, history, lastHealthy, meansOf.
  destruct (_ <? 20)%nat; [reflexivity|].
  destruct (10 <? _)%nat; reflexivity.
Qed.

Lemma recordMetric_baselines m st :
  baselines (recordMetric m st)
  = let h := history (agentId m) (recordMetric m st) in
    if (length h <? 20)%nat then baselines st
    else if (10 <? length (lastHealthy h))%nat
         then <[agentId m := meansOf (lastHealthy h)]> (baselines st)
         else baselines st.
Proof.
  cbv zeta. unfold recordMetric at 1. rewrite updateBaseline_baselines.
  cbn [baselines].
  assert (E : history (agentId m)
                {| metrics :=
                     <[agentId m :=
                         if (1000 <? length (default [] (metrics st !! agentId m) ++ [m]))%nat
                         then tail (default [] (metrics st !! agentId m) ++ [m])
                         else default [] (metrics st !! agentId m) ++ [m]]> (metrics st);
                   baselines := baselines st |}
              = history (agentId m) (recordMetric m st)).
  { unfold recordMetric, history. now rewrite updateBaseline_metrics. }
  now rewrite E.
Qed.

(** C5 (as stated, refuted): on 51 records whose latest 50 hold 11 healthy
    ones, the baseline after the last recordMetric is not the mean over the
    healthy records of the most recent 50 (latency 200): the older healthy
    record is averaged in (latency 2300/12). *)
Lemma C5_not_healthy_of_recent :
  let st := recordAll history51 init in
  (20 <= length (history "agent-1" st))%nat
  /\ length (healthyOfRecent (history "agent-1" st)) = 11%nat
  /\ Num.same (latency (claimedBaseline (history "agent-1" st))) (Fin 200)
  /\ Num.same (latency (baselineOf "agent-1" st)) (Fin (2300 # 12))
  /\ ~ Num.same (latency (baselineOf "agent-1" st))
         (latency (claimedBaseline (history "agent-1" st))).
Proof.
  cbv zeta.
  assert (H1 : latency (baselineOf "agent-1" (recordAll history51 init))
               = Fin (2300 # 12)) by (vm_compute; reflexivity).
  assert (H2 : latency (claimedBaseline (history "agent-1" (recordAll history51 init)))
               = Fin (2200 # 11)) by (vm_compute; reflexivity).
  rewrite H1, H2. split; [|split; [|split; [|split]]].
  - apply Nat.leb_le. vm_compute. reflexivity.
  - vm_compute. reflexivity.
  - vm_compute. reflexivity.
  - vm_compute. reflexivity.
  - intros H. vm_compute in H. discriminate.
Qed.

Lemma sliceLast_rev {A} (n : nat) (l : list A) : sliceLast n l = lastN n l.
Proof. unfold sliceLast, lastN. now rewrite List.firstn_rev, rev_involutive. Qed.

Lemma filter_same (h : list CognitiveMetrics) :
  List.filter healthy h = List.filter isHealthy h.
Proof. apply List.filter_ext. intros m. reflexivity. Qed.

Lemma fold_sum_map (field : CognitiveMetrics -> number) records total :
  fold_left Num.add (map field records) total
  = fold_left (fun total m => (total + field m)%js) records total.
Proof.
  revert total. induction records as [|m records IH]; intros total; [reflexivity|].
  cbn [map fold_left]. apply IH.
Qed.

Lemma mean_fieldMean field records : mean field records = fieldMean field records.
Proof. unfold mean, fieldMean, Num.sum. now rewrite fold_sum_map. Qed.

(** What the code keeps and stores is what the amended claim says. *)
Lemma kept_as_claimed h :
  lastHealthy h = keptHealthy h /\ meansOf (lastHealthy h) = meansOfKept (keptHealthy h).
Proof.
  assert (E : lastHealthy h = keptHealthy h).
  { unfold lastHealthy, keptHealthy. now rewrite sliceLast_rev, filter_same. }
  split; [exact E|]. rewrite E. unfold meansOf, meansOfKept.
  now rewrite !mean_fieldMean.
Qed.

(** C5 (amended): after recordMetric, when the agent's history holds at
    least 20 records and the last 50 of its healthy records (error rate
    below 0.05 and consistency above 0.85), taken from the whole history,
    are more than 10, the agent's baseline becomes their per-field means:
    latency from the processing latency, context usage from the context
    window usage, consistency from the semantic consistency; in every other
    case the baseline map is left as it was, and a reader finding no
    baseline takes the default. *)
Theorem C5_baseline_recalibration (m : CognitiveMetrics) (st : State) :
  let a := agentId m in
  let st' := recordMetric m st in
  let kept := keptHealthy (history a st') in
  ((20 <= length (history a st'))%nat -> (10 < length kept)%nat ->
   baselines st' !! a = Some (meansOfKept kept)
   /\ baselineOf a st' = meansOfKept kept)
  /\ ((length (history a st') < 20)%nat \/ (length kept <= 10)%nat ->
      baselines st' = baselines st)
  /\ (forall a', a' <> a -> baselines st' !! a' = baselines st !! a')
  /\ (forall a', baselines st' !! a' = None -> baselineOf a' st' = createDefaultBaseline)
  /\ createDefaultBaseline
     = {| latency := Fin 1000; contextUsage := Fin 0.40; consistency := Fin 0.90 |}.
Proof.
  cbv zeta. rewrite recordMetric_baselines. cbv zeta.
  set (h := history (agentId m) (recordMetric m st)).
  destruct (kept_as_claimed h) as [Ekept Emeans]. rewrite <- Emeans, <- Ekept.
  repeat split.
  - destruct (Nat.ltb_spec (length h) 20); [lia|].
    destruct (Nat.ltb_spec 10 (length (lastHealthy h))); [|lia].
    apply lookup_insert_eq.
  - unfold baselineOf. rewrite recordMetric_baselines. cbv zeta. fold h.
    destruct (Nat.ltb_spec (length h) 20); [lia|].
    destruct (Nat.ltb_spec 10 (length (lastHealthy h))); [|lia].
    now rewrite lookup_insert_eq.
  - intros [Hs|Hk].
    + destruct (Nat.ltb_spec (length h) 20); [reflexivity|lia].
    + destruct (Nat.ltb_spec (length h) 20); [reflexivity|].
      destruct (Nat.ltb_spec 10 (length (lastHealthy h))); [lia|reflexivity].
  - intros a' Hne.
    destruct (length h <? 20)%nat; [reflexivity|].
    destruct (10 <? length (lastHealthy h))%nat; [|reflexivity].
    now rewrite lookup_insert_ne.
  - intros a' Hnone. unfold baselineOf.
    rewrite recordMetric_baselines. cbv zeta. fold h. now rewrite Hnone.
Qed.

Lemma C5_baseline_recalibration_witness :
  let m := mkMetric "agent-1" 0.50 200 0.01 0.95 in
  let st' := recordMetric m (recordAll (removelast history51) init) in
  baselines st' !! "agent-1"
  = Some (meansOfKept (keptHealthy (history "agent-1" st')))
  /\ baselineOf "agent-1" st' = meansOfKept (keptHealthy (history "agent-1" st'))
  /\ Num.same (latency (baselineOf "agent-1" st')) (Fin (2300 # 12)).
Proof.
  cbv zeta. split; [|split].
  - apply (proj1 (C5_baseline_recalibration (mkMetric "agent-1" 0.50 200 0.01 0.95)
                    (recordAll (removelast history51) init))).
    + apply Nat.leb_le. vm_compute. reflexivity.
    + apply Nat.ltb_lt. vm_compute. reflexivity.
  - apply (proj1 (C5_baseline_recalibration (mkMetric "agent-1" 0.50 200 0.01 0.95)
                    (recordAll (removelast history51) init))).
    + apply Nat.leb_le. vm_compute. reflexivity.
    + apply Nat.ltb_lt. vm_compute. reflexivity.
  - vm_compute. reflexivity.
Defined.

End Recalibration.

(* ===================================================================== *)
(** ** Drift against a baseline *)
(* ===================================================================== *)

Section DriftClaims.

Import Drift Props.

Lemma countWords_count words (terms : gmap string N) t :
  default 0%N (countWords words terms !! t)
  = (default 0%N (terms !! t)
     + N.of_nat (count_occ string_dec (List.filter isTechnicalTerm words) t))%N.
Proof.
  unfold countWords. revert terms.
  induction words as [|w words IH]; intros terms; cbn [fold_left List.filter].
  - cbn. lia.
  - rewrite IH. destruct (isTechnicalTerm w).
    + destruct (string_dec w t) as [->|Hne].
      * rewrite lookup_insert_eq, count_occ_cons_eq by reflexivity.
        cbn [default from_option]. unfold id. lia.
      * rewrite lookup_insert_ne, count_occ_cons_neq by assumption. reflexivity.
    + reflexivity.
Qed.

Lemma countWords_dom words (terms : gmap string N) t :
  t ∈ dom (countWords words terms)
  <-> t ∈ dom terms \/ In t (List.filter isTechnicalTerm words).
Proof.
  unfold countWords. revert terms.
  induction words as [|w words IH]; intros terms; cbn [fold_left List.filter].
  - cbn. tauto.
  - rewrite IH. destruct (isTechnicalTerm w).
    + rewrite dom_insert, elem_of_union, elem_of_singleton. cbn [In].
      split; intros H; decompose [or] H; subst; auto.
    + reflexivity.
Qed.

(** The loop of [extractTerminology] from any starting map. *)
Lemma extract_count samples (terms : gmap string N) t :
  default 0%N
    (fold_left
       (fun terms sample =>
          countWords (Str.splitWhitespace (Str.toLowerCase sample)) terms)
       samples terms !! t)
  = (default 0%N (terms !! t)
     + N.of_nat (count_occ string_dec (technicalWords samples) t))%N.
Proof.
  revert terms. induction samples as [|x samples IH]; intros terms.
  - cbn. lia.
  - cbn [fold_left technicalWords flat_map]. rewrite IH, countWords_count.
    fold (technicalWords samples). rewrite count_occ_app. lia.
Qed.

Lemma extract_dom samples (terms : gmap string N) t :
  t ∈ dom (fold_left
             (fun terms sample =>
                countWords (Str.splitWhitespace (Str.toLowerCase sample)) terms)
             samples terms)
  <-> t ∈ dom terms \/ In t (technicalWords samples).
Proof.
  revert terms. induction samples as [|x samples IH]; intros terms.
  - cbn. tauto.
  - cbn [fold_left technicalWords flat_map]. rewrite IH, countWords_dom.
    fold (technicalWords samples). rewrite in_app_iff. tauto.
Qed.

Lemma extractTerminology_freq texts t :
  default 0%N (extractTerminology texts !! t) = freq t texts.
Proof.
  unfold extractTerminology, freq. rewrite extract_count.
  rewrite lookup_empty. cbn [default]. lia.
Qed.

Lemma extractTerminology_dom texts :
  dom (extractTerminology texts) = list_to_set (technicalWords texts).
Proof.
  apply set_eq. intros t. unfold extractTerminology.
  rewrite extract_dom, dom_empty, elem_of_list_to_set, list_elem_of_In.
  rewrite elem_of_empty. tauto.
Qed.

Lemma sumOver_ext f g l : (forall t, f t = g t) -> sumOver f l = sumOver g l.
Proof.
  intros H. unfold sumOver. induction l as [|x l IH]; [reflexivity|].
  cbn [fold_right]. now rewrite H, IH.
Qed.

Lemma sumOver_positive f l :
  l <> [] -> (forall t, In t l -> (0 < f t)%N) -> (0 < sumOver f l)%N.
Proof.
  destruct l as [|x l]; [congruence|]. intros _ H.
  unfold sumOver. cbn [fold_right].
  specialize (H x (or_introl eq_refl)). lia.
Qed.

Lemma sumOver_cons f x l : sumOver f (x :: l) = (f x + sumOver f l)%N.
Proof. reflexivity. Qed.

(** The loop of [calculateDrift] adds up the minima and the maxima. *)
Lemma driftStep_fold (b c : gmap string N) l acc :
  fold_left (driftStep b c) l acc
  = ((fst acc + sumOver (fun t => N.min (default 0 (b !! t)) (default 0 (c !! t))) l)%N,
     (snd acc + sumOver (fun t => N.max (default 0 (b !! t)) (default 0 (c !! t))) l)%N).
Proof.
  revert acc. induction l as [|x l IH]; intros [s t].
  - cbn. f_equal; lia.
  - cbn [fold_left]. rewrite IH, !sumOver_cons. unfold driftStep. cbn [fst snd].
    destruct ((0 <? default 0%N (b !! x))%N || (0 <? default 0%N (c !! x))%N) eqn:E;
      cbn [fst snd].
    + f_equal; lia.
    + apply orb_false_elim in E. destruct E as [E1 E2].
      apply N.ltb_ge in E1, E2. f_equal; lia.
Qed.

Lemma calculateDrift_sums (b c : gmap string N) :
  let terms := elements (dom b ∪ dom c) in
  let similarity :=
    sumOver (fun t => N.min (default 0%N (b !! t)) (default 0%N (c !! t))) terms in
  let total :=
    sumOver (fun t => N.max (default 0%N (b !! t)) (default 0%N (c !! t))) terms in
  calculateDrift b c
  = if (0 <? total)%N
    then (Fin 1 - Num.ofN similarity / Num.ofN total)%js
    else Fin 0.
Proof.
  cbv zeta. unfold calculateDrift. rewrite driftStep_fold. cbn [fst snd].
  rewrite !N.add_0_l. reflexivity.
Qed.

Lemma ratio_of_counts (a b : N) :
  (0 < b)%N ->
  (Fin 1 - Num.ofN a / Num.ofN b)%js
  = Fin (1 - inject_Z (Z.of_N a) / inject_Z (Z.of_N b)).
Proof.
  intros Hb. unfold Num.sub, Num.div, Num.ofN.
  destruct (Qeq_bool (inject_Z (Z.of_N b)) 0) eqn:E.
  - apply Qeq_bool_eq in E. unfold Qeq in E. cbn in E. lia.
  - reflexivity.
Qed.

Lemma calculateDrift_claimed samples sample :
  calculateDrift (extractTerminology samples) (extractTerminology [sample])
  = Fin (claimedDrift samples sample).
Proof.
  rewrite calculateDrift_sums. cbv zeta.
  rewrite !extractTerminology_dom, <- list_to_set_app_L.
  fold (termUnion samples sample).
  assert (Emin :
    sumOver (fun t => N.min (default 0%N (extractTerminology samples !! t))
                            (default 0%N (extractTerminology [sample] !! t)))
      (termUnion samples sample) = sumMin samples sample)
    by (apply sumOver_ext; intros t; now rewrite !extractTerminology_freq).
  assert (Emax :
    sumOver (fun t => N.max (default 0%N (extractTerminology samples !! t))
                            (default 0%N (extractTerminology [sample] !! t)))
      (termUnion samples sample) = sumMax samples sample)
    by (apply sumOver_ext; intros t; now rewrite !extractTerminology_freq).
  rewrite Emin, Emax. clear Emin Emax.
  unfold claimedDrift.
  destruct (termUnion samples sample) as [|u us] eqn:EU.
  - unfold sumMax. rewrite EU. reflexivity.
  - assert (Hpos : (0 < sumMax samples sample)%N).
    { unfold sumMax. apply sumOver_positive; [now rewrite EU|].
      intros t Ht. unfold termUnion in Ht.
      apply list_elem_of_In, elem_of_elements, elem_of_list_to_set,
        list_elem_of_In, in_app_iff in Ht.
      unfold freq.
      destruct Ht as [Ht|Ht]; apply (count_occ_In string_dec) in Ht; lia. }
    rewrite (proj2 (N.ltb_lt _ _) Hpos). now apply ratio_of_counts.
Qed.

(** C2: with a baseline extracted from [samples], measureDrift returns one
    minus the sum of the minima over the sum of the maxima of the term
    counts over the union of the recognized terms, and 0 when that union is
    empty; in the scenario the union is api, database, schema, the sums are
    2 and 5, and the drift is 1 - 2/5 = 0.6. *)
Theorem C2_measureDrift_formula (a : string) (samples : list string)
    (sample : string) (env : Env) (st : State) (b : Baseline) :
  (baseline st !! a = Some b ->
   terminology b = extractTerminology samples ->
   fst (fst (measureDrift a sample env st)) = Fin (claimedDrift samples sample)
   /\ (termUnion samples sample = [] ->
       fst (fst (measureDrift a sample env st)) = Fin 0))
  /\ (termUnion scenarioBaseline scenarioSample = ["schema"; "api"; "database"]
      /\ map (fun t => freq t scenarioBaseline) ["api"; "database"; "schema"]
         = [1%N; 2%N; 2%N]
      /\ map (fun t => freq t [scenarioSample]) ["api"; "database"; "schema"]
         = [1%N; 0%N; 1%N]
      /\ sumMin scenarioBaseline scenarioSample = 2%N
      /\ sumMax scenarioBaseline scenarioSample = 5%N
      /\ fst (fst (measureDrift "agent-1" scenarioSample env0 scenarioState))
         = Fin (3 # 5)
      /\ 3 # 5 == 1 - 2 / 5
      /\ 3 # 5 == 0.6).
Proof.
  split.
  - intros Hb Ht. unfold measureDrift. rewrite Hb, Ht.
    destruct (dateNow env) as [t env'] eqn:E. cbn [fst].
    rewrite calculateDrift_claimed. split; [reflexivity|].
    intros HU. unfold claimedDrift. now rewrite HU.
  - repeat (split; [vm_compute; reflexivity|]). vm_compute. reflexivity.
Qed.

Lemma C2_measureDrift_formula_witness :
  fst (fst (measureDrift "agent-1" scenarioSample env0 scenarioState))
  = Fin (claimedDrift scenarioBaseline scenarioSample).
Proof.
  refine (proj1 (proj1 (C2_measureDrift_formula "agent-1" scenarioBaseline
                          scenarioSample env0 scenarioState
                          {| terminology := extractTerminology scenarioBaseline;
                             patterns := analyzePatterns scenarioBaseline;
                             timestamp := 1700000000000;
                             sampleCount := 2 |}) _ _)).
  - vm_compute. reflexivity.
  - reflexivity.
Defined.

(** C7 (as stated, refuted): establishBaseline on an empty sample list does
    not fail; it stores a baseline with no term, a sample count of 0 and an
    average length that is not a number. *)
Lemma C7_empty_samples_accepted :
  isThrow (establishBaseline "agent-1" [] env0 init) = false
  /\ match establishBaseline "agent-1" [] env0 init with
     | Ok (_, st') =>
         baseline st' !! "agent-1"
         = Some {| terminology := ∅;
                   patterns := {| avgLength := NaN |};
                   timestamp := 1700000000000;
                   sampleCount := 0 |}
     | Throw _ => False
     end.
Proof. split; vm_compute; reflexivity. Qed.

(** C7 (amended): establishBaseline never fails, whatever the sample list,
    the empty one included; it stores the profile extracted from the
    samples as the agent's baseline in place of any prior one, and leaves
    the other agents' baselines and the measurement log as they were. *)
Theorem C7_establishBaseline_total (a : string) (samples : list string)
    (env : Env) (st : State) :
  exists env' st',
    establishBaseline a samples env st = Ok (env', st')
    /\ (exists b, baseline st' !! a = Some b
                  /\ terminology b = extractTerminology samples
                  /\ sampleCount b = length samples)
    /\ (forall a', a' <> a -> baseline st' !! a' = baseline st !! a')
    /\ measurements st' = measurements st.
Proof.
  unfold establishBaseline. cbn [dateNow].
  eexists _, _. split; [reflexivity|]. cbn [baseline measurements].
  split; [|split].
  - eexists. rewrite lookup_insert_eq. split; [reflexivity|]. split; reflexivity.
  - intros a' Hne. now rewrite lookup_insert_ne.
  - reflexivity.
Qed.

End DriftClaims.

(* ===================================================================== *)
(** ** The cognitive load index *)
(* ===================================================================== *)

Section CognitiveLoad.

Import Overload Props.

Local Open Scope Q_scope.

Lemma sum_finite (l : list number) (s : Q) :
  (forall x, In x l -> finite x) ->
  fold_left Num.add l (Fin s) = Fin (fold_left Qplus (map valueOf l) s).
Proof.
  revert s. induction l as [|x l IH]; intros s H; [reflexivity|].
  destruct (H x (or_introl eq_refl)) as [q ->].
  cbn [fold_left map valueOf Num.add]. apply IH.
  intros y Hy. apply H. now right.
Qed.

Lemma length_nonzero {A} (l : list A) :
  l <> [] -> Qeq_bool (inject_Z (Z.of_nat (length l))) 0 = false.
Proof.
  intros H. destruct (Qeq_bool _ 0) eqn:E; [|reflexivity].
  apply Qeq_bool_eq in E. unfold Qeq in E. cbn in E.
  destruct l; [congruence|]. cbn [length] in E. lia.
Qed.

Lemma mean_finite f (l : list CognitiveMetrics) :
  l <> [] -> (forall m, In m l -> finite (f m)) ->
  mean f l = Fin (meanQ f l).
Proof.
  intros Hne Hfin. unfold mean, meanQ, Num.sum, sumQ, Num.ofNat.
  rewrite sum_finite.
  - unfold Num.div. rewrite (length_nonzero l Hne). now rewrite map_map.
  - intros x Hx. apply in_map_iff in Hx. destruct Hx as (m & <- & Hm). now apply Hfin.
Qed.

Lemma clamp_unit (x : Q) :
  exists q, Num.max (Fin 0) (Num.min (Fin 1) (Fin x)) = Fin q
            /\ q == Qmax 0 (Qmin 1 x) /\ 0 <= q <= 1.
Proof.
  unfold Num.min, Num.le.
  destruct (Qle_bool 1 x) eqn:E1.
  - exists 1. apply Qle_bool_iff in E1. split; [reflexivity|]. split.
    + rewrite (Q.min_l 1 x E1). rewrite Q.max_r; [reflexivity|lra].
    + lra.
  - assert (Hx : x < 1).
    { apply Qnot_le_lt. intros H. apply Qle_bool_iff in H. congruence. }
    unfold Num.max, Num.le. destruct (Qle_bool 0 x) eqn:E0.
    + exists x. apply Qle_bool_iff in E0. split; [reflexivity|]. split.
      * rewrite (Q.min_r 1 x) by lra. rewrite Q.max_r; [reflexivity|lra].
      * lra.
    + assert (Hx0 : x < 0).
      { apply Qnot_le_lt. intros H. apply Qle_bool_iff in H. congruence. }
      exists 0. split; [reflexivity|]. split.
      * rewrite (Q.min_r 1 x) by lra. rewrite Q.max_l; [reflexivity|lra].
      * lra.
Qed.

Lemma normalizeMetric_finite (v lo hi : Q) :
  exists q, normalizeMetric (Fin v) (Fin lo) (Fin hi) = Fin q
            /\ q == normalizeQ v lo hi /\ 0 <= q <= 1.
Proof.
  unfold normalizeMetric, normalizeQ, Num.strictEq.
  destruct (Qeq_bool hi lo) eqn:E.
  - exists 0. split; [reflexivity|]. split; [reflexivity|lra].
  - assert (Hd : Qeq_bool (hi + - lo) 0 = false).
    { destruct (Qeq_bool (hi + - lo) 0) eqn:E'; [|reflexivity].
      apply Qeq_bool_eq in E'.
      assert (H : hi == lo) by lra.
      apply Qeq_eq_bool in H. congruence. }
    unfold Num.sub, Num.div. cbn [Num.neg Num.add]. rewrite Hd.
    apply clamp_unit.
Qed.

Lemma inUnit_finite n : inUnit n = true -> finite n.
Proof. destruct n; try discriminate. intros _. now eexists. Qed.

Lemma nonNegative_finite n : nonNegative n = true -> finite n.
Proof. destruct n; try discriminate. intros _. now eexists. Qed.

Lemma validMetric_finite m :
  validMetric m = true ->
  finite (contextWindowUsage m) /\ finite (processingLatency m)
  /\ finite (errorRate m) /\ finite (semanticConsistency m).
Proof.
  unfold validMetric. rewrite !andb_true_iff.
  intros ((((Hc & Hl) & He) & Hs) & _).
  auto using inUnit_finite, nonNegative_finite.
Qed.

Lemma in_sliceLast {A} (n : nat) (l : list A) (x : A) :
  In x (sliceLast n l) -> In x l.
Proof.
  unfold sliceLast. intros H.
  rewrite <- (firstn_skipn (length l - n) l). apply in_or_app. now right.
Qed.

Lemma sliceLast_nil {A} (n : nat) (l : list A) :
  (0 < n)%nat -> sliceLast n l = [] -> l = [].
Proof.
  intros Hn H. apply (f_equal (@length A)) in H.
  rewrite sliceLast_length in H. cbn [length] in H.
  destruct l; [reflexivity|]. cbn [length] in H. lia.
Qed.

(** The records an agent's history holds are among those recorded. *)
Lemma history_recorded ms a m :
  In m (history a (recordAll ms init)) -> In m ms.
Proof.
  rewrite recordAll_history. intros H. apply in_sliceLast in H.
  unfold recordsOf in H. now apply filter_In in H.
Qed.

(** A derived baseline computed from valid records has a finite latency. *)
Lemma baselines_finite ms :
  forallb validMetric ms = true ->
  forall a b, baselines (recordAll ms init) !! a = Some b -> finite (latency b).
Proof.
  induction ms as [|m ms IH] using rev_ind; intros Hvalid a b.
  - cbn. now rewrite lookup_empty.
  - assert (Hms : forallb validMetric ms = true).
    { rewrite forallb_app in Hvalid. now apply andb_true_iff in Hvalid. }
    pose proof (recordMetric_baselines m (recordAll ms init)) as E.
    rewrite <- recordAll_snoc in E. cbv zeta in E. rewrite E. clear E.
    set (h := history (agentId m) (recordAll (ms ++ [m]) init)).
    destruct (length h <? 20)%nat; [now apply IH|].
    destruct (Nat.ltb_spec 10 (length (lastHealthy h))) as [Hlen|_]; [|now apply IH].
    destruct (string_dec (agentId m) a) as [->|Hne].
    + rewrite lookup_insert_eq. intros [= <-]. cbn [meansOf latency].
      rewrite mean_finite; [now eexists| |].
      * intros Hnil. rewrite Hnil in Hlen. cbn in Hlen. lia.
      * intros r Hr. unfold lastHealthy in Hr. apply in_sliceLast in Hr.
        apply filter_In in Hr. destruct Hr as [Hr _].
        apply history_recorded in Hr.
        apply (proj1 (forallb_forall _ _) Hvalid) in Hr.
        now apply validMetric_finite in Hr.
    + rewrite lookup_insert_ne by assumption. now apply IH.
Qed.

Lemma normalizeQ_unit v lo hi : 0 <= normalizeQ v lo hi <= 1.
Proof.
  destruct (normalizeMetric_finite v lo hi) as (q & _ & Hq & Hb).
  rewrite <- Hq. exact Hb.
Qed.

Lemma sliceLast_sliceLast {A} (n k : nat) (l : list A) :
  (n <= k)%nat -> sliceLast n (sliceLast k l) = sliceLast n l.
Proof.
  intros H. unfold sliceLast. rewrite length_skipn, skipn_skipn. f_equal. lia.
Qed.

(** The records the readers average are the last of those recorded for the
    agent. *)
Lemma recent_lastN ms a n :
  (n <= 1000)%nat ->
  getRecentMetrics a n (recordAll ms init) = lastN n (recordsOf a ms).
Proof.
  intros H. unfold getRecentMetrics. fold (history a (recordAll ms init)).
  now rewrite recordAll_history, sliceLast_sliceLast, sliceLast_rev.
Qed.

(** C4: on a history of valid records the load index is a number between 0
    and 1; it is 0 when the agent has no record, and otherwise the weighted
    sum, with weights 0.25, 0.25, 0.30 and 0.20, of the context, latency,
    error and drift sub-loads, each a clamped normalization of a mean over
    the last 10 of the records recorded for the agent. *)
Theorem C4_load_in_unit_interval (ms : list CognitiveMetrics) (a : string) :
  forallb validMetric ms = true ->
  let st := recordAll ms init in
  let recent := lastN 10 (recordsOf a ms) in
  let base := valueOf (latency (baselineOf a st)) in
  exists q : Q,
    calculateCognitiveLoad a st = Fin q
    /\ 0 <= q <= 1
    /\ (history a st = [] -> calculateCognitiveLoad a st = Fin 0)
    /\ (recordsOf a ms = [] -> calculateCognitiveLoad a st = Fin 0)
    /\ (history a st <> [] ->
        q == weightedLoad base recent
        /\ 0 <= contextLoad recent <= 1 /\ 0 <= latencyLoad base recent <= 1
        /\ 0 <= errorLoad recent <= 1 /\ 0 <= driftLoad recent <= 1).
Proof.
  intros Hvalid st recent base.
  assert (Hrec : getRecentMetrics a 10 st = recent)
    by (apply recent_lastN; lia).
  assert (Hnone : recordsOf a ms = [] -> history a st = []).
  { intros E. unfold st. rewrite recordAll_history, E. reflexivity. }
  unfold calculateCognitiveLoad.
  destruct (length (getRecentMetrics a 10 st) =? 0)%nat eqn:E.
  - exists 0. split; [reflexivity|]. split; [lra|]. split; [reflexivity|].
    split; [reflexivity|].
    intros Hne. exfalso. apply Hne.
    apply Nat.eqb_eq, length_zero_iff_nil in E.
    apply (sliceLast_nil 10); [lia|exact E].
  - assert (Hrecent : getRecentMetrics a 10 st <> []).
    { intros H. rewrite H in E. discriminate. }
    assert (Hfin : forall r, In r (getRecentMetrics a 10 st) ->
                             finite (contextWindowUsage r) /\ finite (processingLatency r)
                             /\ finite (errorRate r) /\ finite (semanticConsistency r)).
    { intros r Hr. apply in_sliceLast in Hr. apply history_recorded in Hr.
      apply validMetric_finite. now apply (proj1 (forallb_forall _ _) Hvalid). }
    assert (Hbase : finite (latency (baselineOf a st))).
    { unfold baselineOf. destruct (baselines st !! a) as [b|] eqn:Eb.
      - cbn [default from_option]. now apply (baselines_finite ms Hvalid a b).
      - now eexists. }
    destruct Hbase as [b0 Hbase].
    assert (Hb0 : base = b0) by (unfold base; now rewrite Hbase).
    rewrite !mean_finite by (try assumption; intros r Hr; now apply Hfin).
    rewrite Hbase.
    change (Fin b0 * Fin 3)%js with (Fin (b0 * 3)).
    change (Fin 1 - Fin (meanQ semanticConsistency (getRecentMetrics a 10 st)))%js
      with (Fin (1 - meanQ semanticConsistency (getRecentMetrics a 10 st))).
    destruct (normalizeMetric_finite
                (meanQ contextWindowUsage (getRecentMetrics a 10 st)) 0 1)
      as (cl & -> & Hcl & Bcl).
    destruct (normalizeMetric_finite
                (meanQ processingLatency (getRecentMetrics a 10 st)) b0 (b0 * 3))
      as (ll & -> & Hll & Bll).
    destruct (normalizeMetric_finite
                (meanQ errorRate (getRecentMetrics a 10 st)) 0 0.20)
      as (el & -> & Hel & Bel).
    destruct (normalizeMetric_finite
                (1 - meanQ semanticConsistency (getRecentMetrics a 10 st)) 0 0.50)
      as (dl & -> & Hdl & Bdl).
    exists (cl * 0.25 + ll * 0.25 + el * 0.30 + dl * 0.20).
    assert (Hnil : history a st = [] -> False).
    { intros Hnil. apply Hrecent.
      unfold getRecentMetrics. fold (history a st). now rewrite Hnil. }
    split; [reflexivity|]. split; [lra|]. split; [intros H; destruct (Hnil H)|].
    split; [intros H; destruct (Hnil (Hnone H))|].
    intros _. rewrite <- Hrec, Hb0. split.
    + unfold weightedLoad, contextLoad, latencyLoad, errorLoad, driftLoad.
      rewrite <- Hcl, <- Hll, <- Hel, <- Hdl. ring.
    + repeat split; apply normalizeQ_unit.
Qed.

Lemma C4_load_in_unit_interval_witness :
  exists q : Q,
    calculateCognitiveLoad "agent-1" (recordAll risingLoad init) = Fin q
    /\ 0 <= q <= 1.
Proof.
  destruct (C4_load_in_unit_interval risingLoad "agent-1") as (q & Hq & Hb & _).
  - vm_compute. reflexivity.
  - exists q. exact (conj Hq Hb).
Defined.

Local Close Scope Q_scope.

End CognitiveLoad.

(* ===================================================================== *)
(** ** The experiment queue *)
(* ===================================================================== *)

Section Scheduling.

Import Scheduler Props.

Lemma in_spliceInsert {A} (i : nat) (x y : A) (l : list A) :
  In y (spliceInsert i x l) <-> y = x \/ In y l.
Proof.
  unfold spliceInsert. rewrite in_app_iff. cbn [In].
  rewrite <- (firstn_skipn i l) at 3. rewrite in_app_iff.
  intuition congruence.
Qed.

Lemma scheduleExperiment_queue x p st st' :
  scheduleExperiment x p st = Ok st' ->
  exists e,
    List.find (fun e => String.eqb (id e) x) EXPERIMENT_CATALOG = Some e
    /\ id e = x
    /\ experimentQueue st'
       = match p with
         | high => e :: experimentQueue st
         | low => experimentQueue st ++ [e]
         | normal =>
             spliceInsert (length (experimentQueue st) / 2) e (experimentQueue st)
         end.
Proof.
  unfold scheduleExperiment.
  destruct (List.find _ EXPERIMENT_CATALOG) as [e|] eqn:E; [|discriminate].
  intros H. exists e. split; [reflexivity|]. split.
  - apply find_some in E. now apply String.eqb_eq.
  - destruct p; injection H as <-; reflexivity.
Qed.

(** Successive calls of [runNextExperiment] execute the queue front to
    back. *)
Lemma runQueued_order calls env st :
  (length (experimentQueue st) < calls)%nat ->
  runQueued calls env st = map id (experimentQueue st).
Proof.
  revert env st. induction calls as [|calls IH]; intros env st Hlen; [lia|].
  cbn [runQueued]. unfold runNextExperiment.
  destruct (experimentQueue st) as [|e q] eqn:Eq; [reflexivity|].
  destruct (dateNow env) as [t1 env1].
  destruct (executeExperiment e env1) as [result env2] eqn:Ex.
  destruct (dateNow env2) as [t2 env3].
  cbn [map]. f_equal.
  - unfold executeExperiment in Ex.
    destruct (mathRandom env1) as [r1 e1]. destruct (mathRandom e1) as [r2 e2].
    now injection Ex as <- _.
  - rewrite IH; [reflexivity|]. cbn [experimentQueue]. cbn [length] in Hlen. lia.
Qed.

Lemma executionOrder_queue env st :
  executionOrder env st = map id (experimentQueue st).
Proof. unfold executionOrder. apply runQueued_order. lia. Qed.

(** C9: a high entry goes to the front of the queue, a low one to the
    back and a normal one to index floor(length / 2); so a high entry
    scheduled after two normal ones is executed first, both normal ones
    later, and a low entry scheduled after a normal one is executed last,
    the normal one before it. *)
Theorem C9_priority_positions (st : State) (env : Env) (x n1 n2 : string) :
  (forall e : ExperimentDesign,
   List.find (fun e => String.eqb (id e) x) EXPERIMENT_CATALOG = Some e ->
   let queue := experimentQueue st in
   scheduleExperiment x high st = Ok (withQueue (e :: queue) st)
   /\ scheduleExperiment x low st = Ok (withQueue (queue ++ [e]) st)
   /\ scheduleExperiment x normal st
      = Ok (withQueue (firstn (length queue / 2) queue
                       ++ e :: skipn (length queue / 2) queue) st))
  /\ (forall st3,
        andThen (andThen (scheduleExperiment n1 normal st)
                   (scheduleExperiment n2 normal))
          (scheduleExperiment x high) = Ok st3 ->
        exists later,
          executionOrder env st3 = x :: later /\ In n1 later /\ In n2 later)
  /\ (forall st2,
        andThen (scheduleExperiment n1 normal st) (scheduleExperiment x low) = Ok st2 ->
        exists earlier,
          executionOrder env st2 = earlier ++ [x] /\ In n1 earlier).
Proof.
  split; [|split].
  - intros e Hfind. unfold scheduleExperiment. rewrite Hfind. cbv zeta.
    repeat split; reflexivity.
  - intros st3 H.
    destruct (scheduleExperiment n1 normal st) as [st1|] eqn:E1; [|discriminate].
    cbn [andThen] in H.
    destruct (scheduleExperiment n2 normal st1) as [st2|] eqn:E2; [|discriminate].
    cbn [andThen] in H.
    apply scheduleExperiment_queue in E1, E2, H.
    destruct E1 as (e1 & _ & I1 & Q1). destruct E2 as (e2 & _ & I2 & Q2).
    destruct H as (e3 & _ & I3 & Q3).
    rewrite executionOrder_queue, Q3. cbn [map]. rewrite I3.
    exists (map id (experimentQueue st2)). split; [reflexivity|].
    rewrite <- I1, <- I2. split; apply in_map; rewrite Q2; apply in_spliceInsert.
    + right. rewrite Q1. apply in_spliceInsert. now left.
    + now left.
  - intros st2 H.
    destruct (scheduleExperiment n1 normal st) as [st1|] eqn:E1; [|discriminate].
    cbn [andThen] in H.
    apply scheduleExperiment_queue in E1, H.
    destruct E1 as (e1 & _ & I1 & Q1). destruct H as (e2 & _ & I2 & Q2).
    rewrite executionOrder_queue, Q2, map_app. cbn [map]. rewrite I2.
    exists (map id (experimentQueue st1)). split; [reflexivity|].
    rewrite <- I1. apply in_map. rewrite Q1. apply in_spliceInsert. now left.
Qed.

Lemma C9_priority_positions_witness :
  exists later,
    executionOrder env0 (stateOf twoNormalThenHigh)
    = "exp-001-database-impact" :: later
    /\ In "exp-003-context-window-optimization" later
    /\ In "exp-004-training-protocol-effectiveness" later.
Proof.
  refine (proj1 (proj2 (C9_priority_positions init env0
                          "exp-001-database-impact"
                          "exp-003-context-window-optimization"
                          "exp-004-training-protocol-effectiveness"))
            (stateOf twoNormalThenHigh) _).
  vm_compute. reflexivity.
Defined.

End Scheduling.

(* ===================================================================== *)
(** ** Experiment runs and the ranking of configurations *)
(* ===================================================================== *)

Section Experiments.

Import Runner Props.

Local Open Scope Q_scope.

Lemma Qle_bool_false x y : Qle_bool x y = false <-> y < x.
Proof.
  split; intros H.
  - apply Qnot_le_lt. intros Hle. apply Qle_bool_iff in Hle. congruence.
  - destruct (Qle_bool x y) eqn:E; [|reflexivity].
    apply Qle_bool_iff in E. lra.
Qed.

Ltac order_cases :=
  repeat match goal with
         | H : negb _ = true |- _ => apply negb_true_iff in H
         | H : negb _ = false |- _ => apply negb_false_iff in H
         | H : Qle_bool _ _ = true |- _ => apply Qle_bool_iff in H
         | H : Qle_bool _ _ = false |- _ => apply Qle_bool_false in H
         | |- negb _ = true => apply negb_true_iff
         | |- Qle_bool _ _ = true => apply Qle_bool_iff
         | |- Qle_bool _ _ = false => apply Qle_bool_false
         end;
  try discriminate; try reflexivity; try lra.

Lemma lt_trans (a b c : number) :
  Num.lt a b = true -> Num.lt b c = true -> Num.lt a c = true.
Proof. destruct a, b, c; cbn; intros; order_cases. Qed.

Lemma le_lt_trans (a b c : number) :
  Num.le a b = true -> Num.lt b c = true -> Num.lt a c = true.
Proof. destruct a, b, c; cbn; intros; order_cases. Qed.

(** Among numbers that are not [NaN], [a < b] fails only when [b <= a]. *)
Lemma not_lt_le (a b : number) :
  Num.isNaN a = false -> Num.isNaN b = false ->
  Num.lt a b = false -> Num.le b a = true.
Proof. destruct a, b; cbn; intros; order_cases. Qed.

Lemma ranked_not_NaN n : ranked n = true -> Num.isNaN n = false.
Proof. now destruct n. Qed.

(** The loop of [determineWinner] from any running best: either no entry
    beats it, or the result is the first entry, among those above it,
    that no later entry beats. *)
Lemma winner_fold (l : Results) (best : number) (w : string) :
  Num.isNaN best = false ->
  (forall x, In x l -> ranked (scoreOf x) = true) ->
  (fold_left winnerStep l (best, w) = (best, w)
   /\ forall x, In x l -> Num.gt (scoreOf x) best = false)
  \/ (exists l1 x l2,
        l = l1 ++ x :: l2
        /\ fold_left winnerStep l (best, w) = (scoreOf x, fst x)
        /\ Num.gt (scoreOf x) best = true
        /\ (forall y, In y l1 -> Num.gt (scoreOf x) (scoreOf y) = true)
        /\ (forall y, In y l2 -> Num.ge (scoreOf x) (scoreOf y) = true)).
Proof.
  revert best w. induction l as [|x l IH]; intros best w Hbest Hranked.
  - left. split; [reflexivity|]. intros x [].
  - assert (Hx : ranked (scoreOf x) = true) by (apply Hranked; now left).
    assert (Hl : forall y, In y l -> ranked (scoreOf y) = true)
      by (intros y Hy; apply Hranked; now right).
    cbn [fold_left]. unfold winnerStep at 2 4. fold (scoreOf x). cbn [fst].
    destruct (Num.gt (scoreOf x) best) eqn:E.
    + destruct (IH (scoreOf x) (fst x) (ranked_not_NaN _ Hx) Hl)
        as [[Hfold Hnone]|(l1 & y & l2 & -> & Hfold & Hgt & Hl1 & Hl2)].
      * right. exists [], x, l. split; [reflexivity|]. split; [exact Hfold|].
        split; [exact E|]. split; [intros y []|].
        intros y Hy. unfold Num.ge. apply not_lt_le.
        -- exact (ranked_not_NaN _ Hx).
        -- exact (ranked_not_NaN _ (Hl y Hy)).
        -- exact (Hnone y Hy).
      * right. exists (x :: l1), y, l2. split; [reflexivity|].
        split; [exact Hfold|]. split; [|split].
        -- unfold Num.gt in *. eapply lt_trans; eassumption.
        -- intros z [<-|Hz]; [exact Hgt|now apply Hl1].
        -- exact Hl2.
    + destruct (IH best w Hbest Hl)
        as [[Hfold Hnone]|(l1 & y & l2 & -> & Hfold & Hgt & Hl1 & Hl2)].
      * left. split; [exact Hfold|]. intros z [<-|Hz]; [exact E|now apply Hnone].
      * right. exists (x :: l1), y, l2. split; [reflexivity|].
        split; [exact Hfold|]. split; [exact Hgt|]. split; [|exact Hl2].
        intros z [<-|Hz]; [|now apply Hl1].
        unfold Num.gt in *. eapply le_lt_trans; [|exact Hgt].
        apply not_lt_le; [exact Hbest|exact (ranked_not_NaN _ Hx)|exact E].
Qed.

Lemma ge_refl_ranked n : ranked n = true -> Num.ge n n = true.
Proof. destruct n; cbn; intros; order_cases. Qed.

Lemma gt_ge n m : Num.gt n m = true -> Num.ge n m = true.
Proof. destruct n, m; cbn; intros; order_cases. Qed.

(** On a non-empty map whose scores are all ranked, the winner is the first
    entry with the highest score. *)
Lemma determineWinner_first_max (results : Results) :
  results <> [] ->
  (forall x, In x results -> ranked (scoreOf x) = true) ->
  exists before x after,
    results = before ++ x :: after
    /\ determineWinner results = fst x
    /\ (forall y, In y results -> Num.ge (scoreOf x) (scoreOf y) = true)
    /\ (forall y, In y before -> Num.gt (scoreOf x) (scoreOf y) = true).
Proof.
  intros Hne Hranked. unfold determineWinner.
  destruct (winner_fold results NegInf "" eq_refl Hranked)
    as [[_ Hnone]|(l1 & x & l2 & -> & Hfold & Hgt & Hl1 & Hl2)].
  - destruct results as [|x l]; [congruence|].
    specialize (Hnone x (or_introl eq_refl)).
    specialize (Hranked x (or_introl eq_refl)). unfold ranked in Hranked. congruence.
  - exists l1, x, l2. split; [reflexivity|]. rewrite Hfold. split; [reflexivity|].
    split; [|exact Hl1].
    intros y Hy. apply in_app_iff in Hy. destruct Hy as [Hy|[<-|Hy]].
    + apply gt_ge. now apply Hl1.
    + apply ge_refl_ranked. apply Hranked. apply in_app_iff. right. now left.
    + now apply Hl2.
Qed.

Lemma mapSet_keys key value (m : Results) k :
  In k (map fst (mapSet key value m)) <-> k = key \/ In k (map fst m).
Proof.
  induction m as [|[k0 v0] m IH]; cbn [mapSet map fst In].
  - intuition congruence.
  - destruct (String.eqb_spec k0 key) as [->|Hne]; cbn [map fst In].
    + intuition congruence.
    + rewrite IH. intuition congruence.
Qed.

Lemma mapSet_NoDup key value (m : Results) :
  List.NoDup (map fst m) -> List.NoDup (map fst (mapSet key value m)).
Proof.
  induction m as [|[k0 v0] m IH]; cbn [mapSet map fst]; intros H.
  - constructor; [intros []|constructor].
  - inversion H as [|? ? Hnotin Hrest]; subst.
    destruct (String.eqb_spec k0 key) as [->|Hne]; cbn [map fst].
    + now constructor.
    + constructor; [|now apply IH].
      rewrite mapSet_keys. intros [->|Hin]; [congruence|contradiction].
Qed.

(** The keys of the comparison map are the ids of the configurations, each
    once. *)
Lemma runAll_keys configs testSamples (acc res : Results) w w' :
  runAll configs testSamples acc w = Ok (res, w') ->
  List.NoDup (map fst acc) ->
  List.NoDup (map fst res)
  /\ forall k, In k (map fst res) <-> In k (map fst acc) \/ In k (map id configs).
Proof.
  revert acc w. induction configs as [|c cs IH]; intros acc w H Hnd.
  - injection H as <- _. split; [exact Hnd|]. cbn. tauto.
  - cbn [runAll] in H. unfold bind in H.
    destruct (runExperiment c testSamples defaultDurationMs w) as [[r w1]|]; [|discriminate].
    apply IH in H; [|now apply mapSet_NoDup].
    destruct H as [Hres Hkeys]. split; [exact Hres|].
    intros k. rewrite Hkeys, mapSet_keys. cbn [map In]. intuition congruence.
Qed.

Lemma mapSet_in key value (m : Results) x :
  In x (mapSet key value m) -> x = (key, value) \/ In x m.
Proof.
  induction m as [|[k v] m IH]; cbn [mapSet In].
  - intros [<-|[]]. now left.
  - destruct (String.eqb k key); cbn [In]; intros [<-|H]; auto.
    destruct (IH H); auto.
Qed.






(** C6 (the code at the failing input): a run over at most 10 samples
    processes none, and the three means of its result are 0/0, that is NaN;
    the drift velocity, guarded, is 0. *)
Theorem C6_means_of_no_sample_are_NaN (configuration : AgentConfiguration)
    (testSamples : list string) (durationMs : number) (w : World) :
  (length testSamples <= 10)%nat ->
  exists result w',
    runExperiment configuration testSamples durationMs w = Ok (result, w')
    /\ samples result = 0%nat
    /\ semanticConsistency (metrics result) = NaN
    /\ processingLatency (metrics result) = NaN
    /\ errorRate (metrics result) = NaN
    /\ driftVelocity (metrics result) = Fin 0.
Proof.
  intros Hlen. unfold runExperiment.
  rewrite (skipn_all2 testSamples Hlen).
  unfold bind, now, establishBaseline, Drift.establishBaseline, dateNow,
    processSamples, calculateCognitiveLoad, setExperiment, ret.
  cbn -[Overload.calculateCognitiveLoad Drift.extractTerminology
        Drift.analyzePatterns generateRecommendations firstn].
  eexists _, _. split; [reflexivity|]. cbn. repeat split; reflexivity.
Qed.

Lemma C6_means_of_no_sample_are_NaN_witness :
  exists result w',
    runExperiment configA ["the api"; "the schema"] defaultDurationMs (newWorld env0)
    = Ok (result, w')
    /\ samples result = 0%nat
    /\ semanticConsistency (metrics result) = NaN
    /\ processingLatency (metrics result) = NaN
    /\ errorRate (metrics result) = NaN
    /\ driftVelocity (metrics result) = Fin 0.
Proof.
  apply (C6_means_of_no_sample_are_NaN configA ["the api"; "the schema"]
           defaultDurationMs (newWorld env0)).
  cbn. lia.
Defined.

Local Close Scope Q_scope.

End Experiments.

(* ===================================================================== *)
(** ** More on drift measurement *)
(* ===================================================================== *)

Section DriftMore.

Import Drift Props More.

Local Open Scope Q_scope.

Lemma sumOver_le f g l :
  (forall t, (f t <= g t)%N) -> (sumOver f l <= sumOver g l)%N.
Proof.
  intros H. induction l as [|x l IH]; [reflexivity|].
  rewrite !sumOver_cons. specialize (H x). lia.
Qed.

Lemma ratio_unit (a b : N) :
  (a <= b)%N -> (0 < b)%N ->
  0 <= 1 - inject_Z (Z.of_N a) / inject_Z (Z.of_N b) <= 1.
Proof.
  intros Hab Hb.
  assert (Hb' : 0 < inject_Z (Z.of_N b)).
  { unfold Qlt. cbn. lia. }
  assert (H0 : 0 <= inject_Z (Z.of_N a) / inject_Z (Z.of_N b)).
  { apply Qle_shift_div_l; [exact Hb'|]. unfold Qle. cbn. lia. }
  assert (H1 : inject_Z (Z.of_N a) / inject_Z (Z.of_N b) <= 1).
  { apply Qle_shift_div_r; [exact Hb'|]. unfold Qle. cbn. lia. }
  lra.
Qed.

Lemma calculateDrift_unit (b c : gmap string N) :
  exists q, calculateDrift b c = Fin q /\ 0 <= q <= 1.
Proof.
  rewrite calculateDrift_sums. cbv zeta.
  match goal with
  | |- context [if (0 <? ?t)%N then (Fin 1 - Num.ofN ?s / _)%js else _] =>
      set (sim := s); set (total := t)
  end.
  destruct (N.ltb_spec 0 total) as [Hpos|Hzero].
  - rewrite (ratio_of_counts sim total Hpos). eexists. split; [reflexivity|].
    apply ratio_unit; [|exact Hpos]. apply sumOver_le. intros t. lia.
  - exists 0. split; [reflexivity|lra].
Qed.

Lemma measureDrift_unit (a sample : string) (env : Env) (st : State) :
  exists q, fst (fst (measureDrift a sample env st)) = Fin q /\ 0 <= q <= 1.
Proof.
  unfold measureDrift. destruct (baseline st !! a) as [b|].
  - destruct (dateNow env) as [t env']. cbn [fst]. apply calculateDrift_unit.
  - exists 0. split; [reflexivity|lra].
Qed.

(** X1: whatever the store holds, the drift measureDrift returns is a number
    between 0 and 1. *)
Theorem X1_measureDrift_in_unit_interval (a sample : string) (env : Env) (st : State) :
  exists q, fst (fst (measureDrift a sample env st)) = Fin q /\ 0 <= q <= 1.
Proof. apply measureDrift_unit. Qed.

(** X2: the drift between two term profiles does not depend on which one
    is the baseline. *)
Theorem X2_calculateDrift_symmetric (b c : gmap string N) :
  calculateDrift b c = calculateDrift c b.
Proof.
  rewrite !calculateDrift_sums. cbv zeta.
  rewrite (union_comm_L (dom c) (dom b)).
  rewrite (sumOver_ext
             (fun t => N.min (default 0%N (c !! t)) (default 0%N (b !! t)))
             (fun t => N.min (default 0%N (b !! t)) (default 0%N (c !! t))))
    by (intros t; apply N.min_comm).
  rewrite (sumOver_ext
             (fun t => N.max (default 0%N (c !! t)) (default 0%N (b !! t)))
             (fun t => N.max (default 0%N (b !! t)) (default 0%N (c !! t))))
    by (intros t; apply N.max_comm).
  reflexivity.
Qed.

Lemma sumOver_zero f l : (forall t, In t l -> f t = 0%N) -> sumOver f l = 0%N.
Proof.
  induction l as [|x l IH]; intros H; [reflexivity|].
  rewrite sumOver_cons, (H x (or_introl eq_refl)), IH; [reflexivity|].
  intros t Ht. apply H. now right.
Qed.

Lemma in_termUnion samples sample t :
  In t (termUnion samples sample)
  <-> In t (technicalWords samples) \/ In t (technicalWords [sample]).
Proof.
  unfold termUnion.
  rewrite <- list_elem_of_In, elem_of_elements, elem_of_list_to_set, list_elem_of_In.
  apply in_app_iff.
Qed.

Lemma freq_zero t texts : ~ In t (technicalWords texts) -> freq t texts = 0%N.
Proof.
  intros H. unfold freq.
  now rewrite (proj1 (count_occ_not_In string_dec _ _) H).
Qed.

(** X3: measured against a baseline extracted from [samples], a sample
    whose profile equals the baseline's has drift 0, and a sample that
    shares no term with the baseline has drift 1 as soon as one of the two
    holds a term; a sample without any recognized term is such a one. *)
Theorem X3_drift_extremes (a : string) (samples : list string) (sample : string)
    (env : Env) (st : State) (b : Baseline) :
  baseline st !! a = Some b ->
  terminology b = extractTerminology samples ->
  let drift := fst (fst (measureDrift a sample env st)) in
  (extractTerminology [sample] = extractTerminology samples ->
   Num.same drift (Fin 0))
  /\ ((forall t, In t (technicalWords samples) -> ~ In t (technicalWords [sample])) ->
      (exists t, In t (technicalWords samples) \/ In t (technicalWords [sample])) ->
      Num.same drift (Fin 1)).
Proof.
  intros Hb Ht drift.
  assert (E : drift = calculateDrift (extractTerminology samples)
                        (extractTerminology [sample])).
  { unfold drift, measureDrift. rewrite Hb, Ht.
    now destruct (dateNow env). }
  rewrite E. clear E drift. split.
  - intros ->. rewrite calculateDrift_sums. cbv zeta.
    match goal with
    | |- context [if (0 <? ?t)%N then (Fin 1 - Num.ofN ?s / _)%js else _] =>
        assert (Heq : s = t) by (apply sumOver_ext; intros x; lia);
        rewrite Heq; set (total := t)
    end.
    destruct (N.ltb_spec 0 total) as [Hpos|_]; [|reflexivity].
    rewrite (ratio_of_counts total total Hpos). cbn [Num.same].
    assert (Hne : ~ inject_Z (Z.of_N total) == 0).
    { unfold Qeq. cbn. lia. }
    field. exact Hne.
  - intros Hdisjoint (t & Hin). rewrite calculateDrift_claimed. unfold claimedDrift.
    destruct (termUnion samples sample) as [|u us] eqn:EU.
    + exfalso. apply in_termUnion in Hin. now rewrite EU in Hin.
    + assert (Hmin : sumMin samples sample = 0%N).
      { unfold sumMin. apply sumOver_zero. intros x _.
        destruct (in_dec string_dec x (technicalWords samples)) as [Hx|Hx].
        - rewrite (freq_zero x [sample] (Hdisjoint x Hx)). lia.
        - rewrite (freq_zero x samples Hx). lia. }
      rewrite Hmin. cbn [Num.same]. unfold Qdiv. change (inject_Z (Z.of_N 0)) with 0.
      ring.
Qed.

Lemma X3_drift_extremes_witness :
  Num.same
    (fst (fst (measureDrift "agent-1" "the agent protocol drift" env0 scenarioState)))
    (Fin 1).
Proof.
  refine (proj2 (X3_drift_extremes "agent-1" scenarioBaseline
                   "the agent protocol drift" env0 scenarioState
                   {| terminology := extractTerminology scenarioBaseline;
                      patterns := analyzePatterns scenarioBaseline;
                      timestamp := 1700000000000;
                      sampleCount := 2 |} _ _) _ _).
  - vm_compute. reflexivity.
  - reflexivity.
  - intros t Ht Hs. vm_compute in Ht, Hs.
    repeat (destruct Ht as [<-|Ht];
            [repeat (destruct Hs as [Hs|Hs]; [discriminate|]); exact Hs|]).
    exact Ht.
  - exists "api". left. vm_compute. now left.
Defined.

(** The drifts a sequence of measurements returns, one agent, one
    baseline. *)
Lemma measureAll_with_baseline a samples env st b :
  baseline st !! a = Some b ->
  let '(drifts, env', st') := measureAll a samples env st in
  drifts = map (fun s => calculateDrift (terminology b) (extractTerminology [s])) samples
  /\ baseline st' = baseline st
  /\ length (measurements st') = (length (measurements st) + length samples)%nat
  /\ nowCalls env' = (nowCalls env + length samples)%nat.
Proof.
  revert env st. induction samples as [|s samples IH]; intros env st Hb.
  - cbn. repeat split; lia.
  - cbn [measureAll]. unfold measureDrift at 1. rewrite Hb.
    cbn [dateNow].
    match goal with
    | |- context [measureAll a samples ?e ?s'] => specialize (IH e s' Hb);
        destruct (measureAll a samples e s') as [[drifts env2] st2]
    end.
    destruct IH as (Hd & Hbase & Hlog & Hclock). cbn [baseline measurements] in *.
    split; [cbn [map]; now rewrite Hd|]. split; [exact Hbase|].
    split.
    + rewrite Hlog, length_app. cbn [length]. lia.
    + rewrite Hclock. cbn [nowCalls length]. lia.
Qed.

(** X4: measuring never moves the baseline: the drifts of a sequence of
    samples are those each sample has on its own against the agent's
    baseline, whatever was measured before; every call adds one entry to
    the log and reads the clock once.  Without a baseline every drift is 0
    and nothing is logged. *)
Theorem X4_measurements_are_independent (a : string) (samples : list string)
    (env : Env) (st : State) :
  let '(drifts, env', st') := measureAll a samples env st in
  baseline st' = baseline st
  /\ match baseline st !! a with
     | Some b =>
         drifts
         = map (fun s => calculateDrift (terminology b) (extractTerminology [s])) samples
         /\ length (measurements st')
            = (length (measurements st) + length samples)%nat
         /\ nowCalls env' = (nowCalls env + length samples)%nat
     | None =>
         drifts = repeat (Fin 0) (length samples) /\ st' = st /\ env' = env
     end.
Proof.
  destruct (baseline st !! a) as [b|] eqn:Hb.
  - pose proof (measureAll_with_baseline a samples env st b Hb) as H.
    destruct (measureAll a samples env st) as [[drifts env'] st'].
    destruct H as (Hd & Hbase & Hlog & Hclock). auto.
  - induction samples as [|s samples IH]; [cbn; auto|].
    cbn [measureAll]. unfold measureDrift at 1. rewrite Hb.
    destruct (measureAll a samples env st) as [[drifts env'] st'].
    destruct IH as (Hbase & Hd & -> & ->). cbn [length repeat].
    rewrite Hd. auto.
Qed.

Lemma foldChar_lowerChar c : Str.foldChar (Str.lowerChar c) = Str.lowerChar c.
Proof. destruct c as [[] [] [] [] [] [] [] []]; reflexivity. Qed.

Lemma allChars_toLowerCase s : allChars folded (Str.toLowerCase s) = true.
Proof.
  induction s as [|c s IH]; [reflexivity|].
  cbn [Str.toLowerCase allChars]. rewrite IH. unfold folded.
  rewrite foldChar_lowerChar. now rewrite Ascii.eqb_refl.
Qed.

Lemma allChars_revString p s acc :
  allChars p s = true -> allChars p acc = true ->
  allChars p (Str.revString s acc) = true.
Proof.
  revert acc. induction s as [|c s IH]; intros acc Hs Hacc; [exact Hacc|].
  cbn [allChars] in Hs. apply andb_true_iff in Hs. destruct Hs as [Hc Hs].
  cbn [Str.revString]. apply IH; [exact Hs|]. cbn [allChars]. now rewrite Hc, Hacc.
Qed.

(** The pieces of a split hold only characters of the string. *)
Lemma allChars_splitGo p s cur inWs w :
  allChars p s = true -> allChars p cur = true ->
  In w (Str.splitGo s cur inWs) -> allChars p w = true.
Proof.
  revert cur inWs. induction s as [|c s IH]; intros cur inWs Hs Hcur Hw.
  - cbn in Hw. destruct Hw as [<-|[]]. now apply allChars_revString.
  - cbn [allChars] in Hs. apply andb_true_iff in Hs. destruct Hs as [Hc Hs].
    cbn [Str.splitGo] in Hw. destruct (Str.isSpace c).
    + destruct inWs.
      * now apply (IH EmptyString true).
      * destruct Hw as [<-|Hw]; [now apply allChars_revString|].
        now apply (IH EmptyString true).
    + apply (IH (String c cur) false); [exact Hs| |exact Hw].
      cbn [allChars]. now rewrite Hc, Hcur.
Qed.

Lemma foldCase_folded w : allChars folded w = true -> Str.foldCase w = w.
Proof.
  induction w as [|c w IH]; [reflexivity|]. cbn [allChars Str.foldCase].
  intros H. apply andb_true_iff in H. destruct H as [Hc Hw].
  unfold folded in Hc. apply Ascii.eqb_eq in Hc. now rewrite Hc, IH.
Qed.

Lemma isTechnicalTerm_vocabulary w :
  isTechnicalTerm w = true -> In (Str.foldCase w) vocabulary.
Proof.
  unfold isTechnicalTerm, vocabulary. intros H.
  apply existsb_exists in H. destruct H as (pattern & Hp & Hw).
  unfold Str.testAlternatives in Hw. apply existsb_exists in Hw.
  destruct Hw as (alt & Halt & Heq). apply String.eqb_eq in Heq. subst alt.
  apply in_concat. now exists pattern.
Qed.

Lemma technicalWords_vocabulary samples t :
  In t (technicalWords samples) -> In t vocabulary.
Proof.
  unfold technicalWords. intros H. apply in_flat_map in H.
  destruct H as (sample & _ & H). apply filter_In in H. destruct H as [Hsplit Htech].
  apply isTechnicalTerm_vocabulary in Htech.
  rewrite foldCase_folded in Htech; [exact Htech|].
  apply (allChars_splitGo folded (Str.toLowerCase sample) EmptyString false);
    [apply allChars_toLowerCase|reflexivity|exact Hsplit].
Qed.

Lemma extractTerminology_key samples t :
  t ∈ dom (extractTerminology samples) -> In t (technicalWords samples).
Proof.
  intros Ht. rewrite extractTerminology_dom in Ht.
  now apply elem_of_list_to_set, list_elem_of_In in Ht.
Qed.

Lemma extractTerminology_positive samples t n :
  extractTerminology samples !! t = Some n -> (1 <= n)%N /\ n = freq t samples.
Proof.
  intros Hn.
  assert (Hin : In t (technicalWords samples)).
  { apply extractTerminology_key. apply elem_of_dom. now exists n. }
  pose proof (extractTerminology_freq samples t) as Hf. rewrite Hn in Hf.
  cbn [default from_option] in Hf. unfold id in Hf.
  split; [|exact Hf]. rewrite Hf. unfold freq.
  apply (count_occ_In string_dec) in Hin. lia.
Qed.

(** X5: whatever the samples, the extracted profile holds only words of
    the fixed vocabulary of 25 lower-case terms, each with a count of at
    least 1 that is its number of occurrences; so a profile never has more
    than 25 entries. *)
Theorem X5_profile_within_vocabulary (samples : list string) :
  (forall t n, extractTerminology samples !! t = Some n ->
               In t vocabulary /\ (1 <= n)%N /\ n = freq t samples)
  /\ (size (extractTerminology samples) <= 25)%nat.
Proof.
  split.
  - intros t n Hn. split; [|now apply extractTerminology_positive].
    apply (technicalWords_vocabulary samples), extractTerminology_key.
    apply elem_of_dom. now exists n.
  - rewrite <- size_dom.
    transitivity (size (list_to_set vocabulary : gset string)).
    + apply subseteq_size. intros t Ht.
      apply elem_of_list_to_set, list_elem_of_In.
      apply (technicalWords_vocabulary samples). now apply extractTerminology_key.
    + vm_compute. lia.
Qed.

Lemma technicalWords_app s1 s2 :
  technicalWords (s1 ++ s2) = technicalWords s1 ++ technicalWords s2.
Proof. unfold technicalWords. apply flat_map_app. Qed.

(** The profile is the map of the positive occurrence counts. *)
Lemma extractTerminology_lookup samples t :
  extractTerminology samples !! t
  = if (freq t samples =? 0)%N then None else Some (freq t samples).
Proof.
  pose proof (extractTerminology_freq samples t) as Hf.
  destruct (extractTerminology samples !! t) as [n|] eqn:E.
  - destruct (extractTerminology_positive samples t n E) as [Hpos Hn].
    subst n. destruct (N.eqb_spec (freq t samples) 0); [lia|reflexivity].
  - cbn [default from_option] in Hf. rewrite <- Hf. reflexivity.
Qed.

(** X6: the profile of a list of samples is the term-wise sum of the
    profiles of its parts, and it does not depend on the order of the
    samples. *)
Theorem X6_profile_adds_up (s1 s2 : list string) :
  (forall t, default 0%N (extractTerminology (s1 ++ s2) !! t)
             = (default 0%N (extractTerminology s1 !! t)
                + default 0%N (extractTerminology s2 !! t))%N)
  /\ (forall s3, Permutation s1 s3 -> extractTerminology s3 = extractTerminology s1).
Proof.
  split.
  - intros t. rewrite !extractTerminology_freq. unfold freq.
    rewrite technicalWords_app, count_occ_app. lia.
  - intros s3 Hperm. apply map_eq. intros t. rewrite !extractTerminology_lookup.
    assert (E : freq t s3 = freq t s1).
    { unfold freq, technicalWords. f_equal.
      apply (Permutation_count_occ string_dec). now rewrite Hperm. }
    now rewrite E.
Qed.

Lemma X6_profile_adds_up_witness :
  extractTerminology (rev scenarioBaseline) = extractTerminology scenarioBaseline.
Proof.
  apply (proj2 (X6_profile_adds_up scenarioBaseline []) (rev scenarioBaseline)).
  apply Permutation_rev.
Defined.

Local Close Scope Q_scope.

End DriftMore.



(* ===================================================================== *)
(** ** More on the overload detector *)
(* ===================================================================== *)

Section OverloadMore.

Import Overload Props More.

Local Open Scope Q_scope.

(** The two readers depend on an agent's history and baseline only. *)
Lemma readers_depend_on_agent a st1 st2 :
  history a st1 = history a st2 ->
  baselines st1 !! a = baselines st2 !! a ->
  calculateCognitiveLoad a st1 = calculateCognitiveLoad a st2
  /\ detectOverload a st1 = detectOverload a st2.
Proof.
  intros Hh Hb.
  unfold calculateCognitiveLoad, detectOverload, getRecentMetrics, baselineOf.
  fold (history a st1). fold (history a st2). now rewrite Hh, Hb.
Qed.

Lemma recordMetric_other_baseline m st a :
  agentId m <> a -> baselines (recordMetric m st) !! a = baselines st !! a.
Proof.
  intros Hne. rewrite recordMetric_baselines. cbv zeta.
  destruct (_ <? 20)%nat; [reflexivity|].
  destruct (10 <? _)%nat; [|reflexivity].
  now rewrite lookup_insert_ne.
Qed.

(** X7: recording a metric for one agent leaves every other agent as it
    was: its history, its derived baseline, its load index and its overload
    result. *)
Theorem X7_agents_are_isolated (m : CognitiveMetrics) (st : State) (a : string) :
  agentId m <> a ->
  history a (recordMetric m st) = history a st
  /\ baselines (recordMetric m st) !! a = baselines st !! a
  /\ calculateCognitiveLoad a (recordMetric m st) = calculateCognitiveLoad a st
  /\ detectOverload a (recordMetric m st) = detectOverload a st.
Proof.
  intros Hne.
  assert (Hh : history a (recordMetric m st) = history a st).
  { rewrite recordMetric_history.
    destruct (String.eqb_spec (agentId m) a); [contradiction|reflexivity]. }
  pose proof (recordMetric_other_baseline m st a Hne) as Hb.
  destruct (readers_depend_on_agent a _ _ Hh Hb) as [Hl Hd]. auto.
Qed.

Lemma X7_agents_are_isolated_witness :
  detectOverload "agent-1" (recordMetric (mkMetric "agent-2" 0.99 9000 0.5 0.1)
                              criticalThenWarning)
  = detectOverload "agent-1" criticalThenWarning.
Proof.
  apply (X7_agents_are_isolated (mkMetric "agent-2" 0.99 9000 0.5 0.1)
           criticalThenWarning "agent-1").
  cbn. discriminate.
Defined.

Ltac count_checks :=
  repeat match goal with
         | |- context [if ?c then _ else _] =>
             destruct c; unfold raiseCritical, raiseWarning;
             cbn [f_factors f_recommendations isNone negb]
         end;
  rewrite ?length_app; cbn [length]; lia.

Lemma checkContext_count avg acc :
  let raised :=
    if isNone (level (avg_contextWindow avg)
                 thresholds.contextWindow.warning thresholds.contextWindow.critical)
    then 0%nat else 1%nat in
  length (f_factors (checkContext avg acc)) = (length (f_factors acc) + raised)%nat
  /\ length (f_recommendations (checkContext avg acc))
     = (length (f_recommendations acc) + raised)%nat.
Proof. unfold checkContext, level. split; count_checks. Qed.

Lemma checkLatency_count b avg acc :
  let raised :=
    if isNone (level (avg_latency avg)
                 (latency b * thresholds.latency.warningMultiplier)%js
                 (latency b * thresholds.latency.criticalMultiplier)%js)
    then 0%nat else 1%nat in
  length (f_factors (checkLatency b avg acc)) = (length (f_factors acc) + raised)%nat
  /\ length (f_recommendations (checkLatency b avg acc))
     = (length (f_recommendations acc) + raised)%nat.
Proof. unfold checkLatency, level. split; count_checks. Qed.

Lemma checkError_count avg acc :
  let raised :=
    if isNone (level (avg_errorRate avg)
                 thresholds.errorRate.warning thresholds.errorRate.critical)
    then 0%nat else 1%nat in
  length (f_factors (checkError avg acc)) = (length (f_factors acc) + raised)%nat
  /\ length (f_recommendations (checkError avg acc))
     = (length (f_recommendations acc) + raised)%nat.
Proof. unfold checkError, level. split; count_checks. Qed.

Lemma checkDrift_count avg acc :
  let raised :=
    if isNone (level (avg_semanticDrift avg)
                 thresholds.semanticDrift.warning thresholds.semanticDrift.critical)
    then 0%nat else 1%nat in
  length (f_factors (checkDrift avg acc)) = (length (f_factors acc) + raised)%nat
  /\ length (f_recommendations (checkDrift avg acc))
     = (length (f_recommendations acc) + raised)%nat.
Proof. unfold checkDrift, level. split; count_checks. Qed.

Lemma detectOverload_counts a st :
  length (factors (detectOverload a st)) = countRaised (checkLevels a st)
  /\ length (recommendations (detectOverload a st)) = countRaised (checkLevels a st).
Proof.
  unfold detectOverload.
  destruct (length (getRecentMetrics a 5 st) =? 0)%nat eqn:E.
  - apply Nat.eqb_eq in E. apply length_zero_iff_nil in E.
    rewrite (checkLevels_no_record _ _ E). split; reflexivity.
  - cbn [factors recommendations].
    set (avg := avgMetricsOf (getRecentMetrics a 5 st)).
    set (acc0 := {| f_factors := []; f_recommendations := []; f_severity := SevNone |}).
    destruct (checkContext_count avg acc0) as [F1 R1].
    destruct (checkLatency_count (baselineOf a st) avg (checkContext avg acc0)) as [F2 R2].
    destruct (checkError_count avg
                (checkLatency (baselineOf a st) avg (checkContext avg acc0))) as [F3 R3].
    destruct (checkDrift_count avg
                (checkError avg
                   (checkLatency (baselineOf a st) avg (checkContext avg acc0))))
      as [F4 R4].
    cbv zeta in *. rewrite F4, F3, F2, F1, R4, R3, R2, R1.
    unfold checkLevels, countRaised. fold avg. subst acc0.
    cbn [f_factors f_recommendations length List.filter].
    repeat match goal with
           | |- context [isNone ?l] => destruct (isNone l)
           end; cbn [negb length]; split; lia.
Qed.

Lemma four_levels_none (l1 l2 l3 l4 : Severity) :
  countRaised [l1; l2; l3; l4] = 0%nat
  <-> fold_left maxSeverity [l1; l2; l3; l4] SevNone = SevNone.
Proof. destruct l1, l2, l3, l4; cbn; split; intros H; try reflexivity; discriminate. Qed.

Lemma four_levels_bound (l1 l2 l3 l4 : Severity) :
  (countRaised [l1; l2; l3; l4] <= 4)%nat.
Proof. destruct l1, l2, l3, l4; cbn; lia. Qed.

(** X8: detectOverload reports one factor and one recommendation for each
    check that reaches at least its warning cutoff, so at most four of
    each; the two lists are empty exactly when the severity is 'none',
    which is exactly when isOverloaded is false. *)
Theorem X8_one_factor_per_raised_check (a : string) (st : State) :
  let r := detectOverload a st in
  length (factors r) = countRaised (checkLevels a st)
  /\ length (recommendations r) = length (factors r)
  /\ (length (factors r) <= 4)%nat
  /\ (factors r = [] <-> severity r = SevNone)
  /\ (factors r = [] <-> isOverloaded r = false).
Proof.
  cbv zeta. destruct (detectOverload_counts a st) as [HF HR].
  assert (Hnone : factors (detectOverload a st) = []
                  <-> severity (detectOverload a st) = SevNone).
  { rewrite <- length_zero_iff_nil, HF, detectOverload_severity_max.
    unfold checkLevels. apply four_levels_none. }
  split; [exact HF|]. split; [congruence|]. split.
  - rewrite HF. unfold checkLevels. apply four_levels_bound.
  - split; [exact Hnone|]. rewrite Hnone.
    unfold detectOverload.
    destruct (length (getRecentMetrics a 5 st) =? 0)%nat; cbn [severity isOverloaded].
    + tauto.
    + match goal with |- context [isNone ?s] => destruct s end; cbn;
        split; intros H; try reflexivity; discriminate.
Qed.

(** Where a stored baseline comes from: the history of the agent at some
    point of the recording. *)
Lemma baseline_origin ms a b :
  baselines (recordAll ms init) !! a = Some b ->
  exists before after,
    ms = before ++ after
    /\ (20 <= length (history a (recordAll before init)))%nat
    /\ (10 < length (lastHealthy (history a (recordAll before init))))%nat
    /\ b = meansOf (lastHealthy (history a (recordAll before init))).
Proof.
  induction ms as [|m ms IH] using rev_ind.
  - cbn. now rewrite lookup_empty.
  - pose proof (recordMetric_baselines m (recordAll ms init)) as E.
    rewrite <- recordAll_snoc in E. cbv zeta in E. rewrite E. clear E.
    assert (Hold : baselines (recordAll ms init) !! a = Some b ->
                   exists before after,
                     ms ++ [m] = before ++ after
                     /\ (20 <= length (history a (recordAll before init)))%nat
                     /\ (10 < length (lastHealthy (history a (recordAll before init))))%nat
                     /\ b = meansOf (lastHealthy (history a (recordAll before init)))).
    { intros H. destruct (IH H) as (before & after & -> & H1 & H2 & H3).
      exists before, (after ++ [m]). now rewrite app_assoc. }
    set (h := history (agentId m) (recordAll (ms ++ [m]) init)).
    destruct (Nat.ltb_spec (length h) 20) as [_|H20]; [exact Hold|].
    destruct (Nat.ltb_spec 10 (length (lastHealthy h))) as [H10|_]; [|exact Hold].
    destruct (string_dec (agentId m) a) as [Heq|Hne].
    + unfold h in *. clear h. rewrite Heq in *. rewrite lookup_insert_eq.
      intros [= <-]. exists (ms ++ [m]), []. rewrite app_nil_r. auto.
    + rewrite lookup_insert_ne by assumption. exact Hold.
Qed.

Lemma recordsOf_app a l1 l2 : recordsOf a (l1 ++ l2) = recordsOf a l1 ++ recordsOf a l2.
Proof. unfold recordsOf. apply List.filter_app. Qed.

Lemma filter_length_le {A} (p : A -> bool) (l : list A) :
  (length (List.filter p l) <= length l)%nat.
Proof.
  induction l as [|x l IH]; [reflexivity|]. cbn [List.filter].
  destruct (p x); cbn [length]; lia.
Qed.

Lemma filter_skipn_length {A} (p : A -> bool) (n : nat) (l : list A) :
  (length (List.filter p (skipn n l)) <= length (List.filter p l))%nat.
Proof.
  rewrite <- (firstn_skipn n l) at 2. rewrite List.filter_app, length_app. lia.
Qed.

(** X9: a derived baseline exists for an agent only once at least 20
    records were recorded for it, more than 10 of them healthy; until then
    the readers use the default baseline, with latency 1000. *)
Theorem X9_no_baseline_before_enough_records (ms : list CognitiveMetrics) (a : string) :
  (length (recordsOf a ms) < 20)%nat
  \/ (length (List.filter healthy (recordsOf a ms)) <= 10)%nat ->
  baselines (recordAll ms init) !! a = None
  /\ baselineOf a (recordAll ms init) = createDefaultBaseline
  /\ latency (baselineOf a (recordAll ms init)) = Fin 1000.
Proof.
  intros Hfew.
  assert (Hnone : baselines (recordAll ms init) !! a = None).
  { destruct (baselines (recordAll ms init) !! a) as [b|] eqn:E; [|reflexivity].
    exfalso. destruct (baseline_origin ms a b E) as (before & after & -> & H20 & H10 & _).
    rewrite recordAll_history in H20, H10. rewrite recordsOf_app in Hfew.
    rewrite List.filter_app, !length_app in Hfew.
    rewrite sliceLast_length in H20.
    unfold lastHealthy in H10. rewrite sliceLast_length in H10.
    pose proof (filter_skipn_length healthy
                  (length (recordsOf a before) - 1000) (recordsOf a before)) as Hs.
    unfold sliceLast in H10. lia. }
  split; [exact Hnone|]. unfold baselineOf. rewrite Hnone. split; reflexivity.
Qed.

Lemma X9_no_baseline_before_enough_records_witness :
  baselines (recordAll (numbered "agent-1" 19) init) !! "agent-1" = None
  /\ baselineOf "agent-1" (recordAll (numbered "agent-1" 19) init) = createDefaultBaseline
  /\ latency (baselineOf "agent-1" (recordAll (numbered "agent-1" 19) init)) = Fin 1000.
Proof.
  apply (X9_no_baseline_before_enough_records (numbered "agent-1" 19) "agent-1").
  left. apply Nat.ltb_lt. vm_compute. reflexivity.
Defined.

Lemma of_nat_succ (n : nat) :
  inject_Z (Z.of_nat (S n)) == inject_Z (Z.of_nat n) + 1.
Proof. rewrite Nat2Z.inj_succ. unfold Z.succ. now rewrite inject_Z_plus. Qed.

Lemma fold_Qplus_bounds (lo hi : Q) (l : list Q) (s : Q) :
  (forall x, In x l -> lo <= x <= hi) ->
  s + inject_Z (Z.of_nat (length l)) * lo <= fold_left Qplus l s
  /\ fold_left Qplus l s <= s + inject_Z (Z.of_nat (length l)) * hi.
Proof.
  revert s. induction l as [|x l IH]; intros s H.
  - cbn [fold_left length]. change (inject_Z (Z.of_nat 0)) with 0. lra.
  - cbn [fold_left length]. rewrite of_nat_succ.
    destruct (H x (or_introl eq_refl)) as [Hlo Hhi].
    destruct (IH (s + x) (fun y Hy => H y (or_intror Hy))) as [IH1 IH2].
    split; lra.
Qed.

Lemma length_positive {A} (l : list A) :
  l <> [] -> 0 < inject_Z (Z.of_nat (length l)).
Proof. destruct l; [congruence|]. intros _. unfold Qlt. cbn. lia. Qed.

(** The mean of values within bounds is within the bounds. *)
Lemma meanQ_bounds (f : CognitiveMetrics -> number) (l : list CognitiveMetrics) (lo hi : Q) :
  l <> [] -> (forall m, In m l -> lo <= valueOf (f m) <= hi) ->
  lo <= meanQ f l <= hi.
Proof.
  intros Hne H. unfold meanQ, sumQ.
  pose proof (length_positive l Hne) as Hn.
  destruct (fold_Qplus_bounds lo hi (map (fun m => valueOf (f m)) l) 0) as [H1 H2].
  { intros x Hx. apply in_map_iff in Hx. destruct Hx as (m & <- & Hm). now apply H. }
  rewrite length_map in H1, H2. split.
  - apply Qle_shift_div_l; [exact Hn|]. lra.
  - apply Qle_shift_div_r; [exact Hn|]. lra.
Qed.

Lemma fold_Qplus_nonneg (l : list Q) (s : Q) :
  (forall x, In x l -> 0 <= x) -> 0 <= s -> 0 <= fold_left Qplus l s.
Proof.
  revert s. induction l as [|x l IH]; intros s H Hs; [exact Hs|].
  cbn [fold_left]. apply IH; [intros y Hy; apply H; now right|].
  specialize (H x (or_introl eq_refl)). lra.
Qed.

Lemma meanQ_nonneg (f : CognitiveMetrics -> number) (l : list CognitiveMetrics) :
  l <> [] -> (forall m, In m l -> 0 <= valueOf (f m)) -> 0 <= meanQ f l.
Proof.
  intros Hne H. unfold meanQ, sumQ.
  apply Qle_shift_div_l; [now apply length_positive|]. rewrite Qmult_0_l.
  apply fold_Qplus_nonneg; [|lra].
  intros x Hx. apply in_map_iff in Hx. destruct Hx as (m & <- & Hm). now apply H.
Qed.

Lemma inUnit_range n : inUnit n = true -> 0 <= valueOf n <= 1.
Proof.
  destruct n; try discriminate. cbn. intros H.
  apply andb_true_iff in H. destruct H as [H0 H1].
  apply Qle_bool_iff in H0, H1. lra.
Qed.

Lemma nonNegative_range n : nonNegative n = true -> 0 <= valueOf n.
Proof. destruct n; try discriminate. cbn. intros H. now apply Qle_bool_iff in H. Qed.

(** On valid records the fields of a stored baseline are means of values
    in range. *)
Lemma baseline_ranges (ms : list CognitiveMetrics) (a : string) (b : DerivedBaseline) :
  forallb validMetric ms = true ->
  baselines (recordAll ms init) !! a = Some b ->
  exists l c s : Q,
    b = {| latency := Fin l; contextUsage := Fin c; consistency := Fin s |}
    /\ 0 <= l /\ 0 <= c <= 1 /\ 0 <= s <= 1.
Proof.
  intros Hvalid Hb.
  destruct (baseline_origin ms a b Hb) as (before & after & -> & _ & H10 & ->).
  set (kept := lastHealthy (history a (recordAll before init))) in *.
  assert (Hne : kept <> []).
  { intros E. rewrite E in H10. cbn in H10. lia. }
  assert (Hkept : forall r, In r kept -> validMetric r = true).
  { intros r Hr. unfold kept, lastHealthy in Hr. apply in_sliceLast in Hr.
    apply filter_In in Hr. destruct Hr as [Hr _].
    apply history_recorded in Hr.
    apply (proj1 (forallb_forall _ _) Hvalid). apply in_app_iff. now left. }
  assert (Hfields : forall r, In r kept ->
            inUnit (contextWindowUsage r) = true
            /\ nonNegative (processingLatency r) = true
            /\ inUnit (semanticConsistency r) = true).
  { intros r Hr. pose proof (Hkept r Hr) as Hv. unfold validMetric in Hv.
    rewrite !andb_true_iff in Hv. tauto. }
  exists (meanQ processingLatency kept), (meanQ contextWindowUsage kept),
    (meanQ semanticConsistency kept).
  split.
  - unfold meansOf.
    rewrite !mean_finite;
      try assumption; try reflexivity;
      intros r Hr; pose proof (Hkept r Hr) as Hv;
      apply validMetric_finite in Hv; tauto.
  - split; [|split].
    + apply meanQ_nonneg; [exact Hne|]. intros r Hr. apply nonNegative_range.
      now apply Hfields.
    + apply meanQ_bounds; [exact Hne|]. intros r Hr. apply inUnit_range. now apply Hfields.
    + apply (meanQ_bounds semanticConsistency kept 0 1 Hne).
      intros r Hr. apply inUnit_range. now apply Hfields.
Qed.

(** X10: every stored derived baseline is made of the per-field means of
    more than 10 and at most 50 records, each of them recorded for that
    agent and healthy; so on valid records its context usage and its
    consistency lie between 0 and 1 and its latency is not negative. *)
Theorem X10_baseline_is_healthy (ms : list CognitiveMetrics) (a : string)
    (b : DerivedBaseline) :
  baselines (recordAll ms init) !! a = Some b ->
  exists kept,
    b = meansOfKept kept
    /\ (10 < length kept <= 50)%nat
    /\ (forall r, In r kept -> In r ms /\ agentId r = a /\ isHealthy r = true)
    /\ (forallb validMetric ms = true ->
        Num.le (Fin 0) (latency b) = true
        /\ Num.le (Fin 0) (contextUsage b) = true
        /\ Num.le (contextUsage b) (Fin 1) = true
        /\ Num.le (Fin 0) (consistency b) = true
        /\ Num.le (consistency b) (Fin 1) = true).
Proof.
  intros Hb.
  assert (Hranges : forallb validMetric ms = true ->
            Num.le (Fin 0) (latency b) = true
            /\ Num.le (Fin 0) (contextUsage b) = true
            /\ Num.le (contextUsage b) (Fin 1) = true
            /\ Num.le (Fin 0) (consistency b) = true
            /\ Num.le (consistency b) (Fin 1) = true).
  { intros Hvalid.
    destruct (baseline_ranges ms a b Hvalid Hb) as (l & c & s & -> & Hl & Hc & Hs).
    cbn [latency contextUsage consistency Num.le].
    repeat split; apply Qle_bool_iff; lra. }
  destruct (baseline_origin ms a b Hb) as (before & after & -> & _ & H10 & ->).
  set (h := history a (recordAll before init)) in *.
  destruct (kept_as_claimed h) as [Ekept Emeans].
  exists (keptHealthy h). split; [exact Emeans|]. rewrite <- Ekept.
  split; [split; [exact H10|]|split; [|exact Hranges]].
  - unfold lastHealthy. rewrite sliceLast_length. lia.
  - intros r Hr. unfold lastHealthy in Hr. apply in_sliceLast in Hr.
    apply filter_In in Hr. destruct Hr as [Hr Hh].
    unfold h in Hr. rewrite recordAll_history in Hr. apply in_sliceLast in Hr.
    unfold recordsOf in Hr. apply filter_In in Hr. destruct Hr as [Hin Hid].
    split; [apply in_app_iff; now left|]. split; [now apply String.eqb_eq|exact Hh].
Qed.

Lemma X10_baseline_is_healthy_witness :
  exists kept,
    baselineOf "agent-1" (recordAll history51 init) = meansOfKept kept
    /\ (10 < length kept <= 50)%nat.
Proof.
  destruct (X10_baseline_is_healthy history51 "agent-1"
              (baselineOf "agent-1" (recordAll history51 init)))
    as (kept & Hb & Hlen & _).
  - vm_compute. reflexivity.
  - exists kept. split; [exact Hb|exact Hlen].
Defined.

Lemma clampQ_cases (x : Q) :
  (x <= 0 /\ Qmax 0 (Qmin 1 x) == 0)
  \/ (0 <= x <= 1 /\ Qmax 0 (Qmin 1 x) == x)
  \/ (1 <= x /\ Qmax 0 (Qmin 1 x) == 1).
Proof.
  destruct (Q.min_spec 1 x) as [[H1 E1]|[H1 E1]];
    destruct (Q.max_spec 0 (Qmin 1 x)) as [[H2 E2]|[H2 E2]];
    rewrite E1 in *; rewrite E2.
  - right. right. split; [lra|reflexivity].
  - exfalso. lra.
  - right. left. split; [lra|reflexivity].
  - left. split; [lra|reflexivity].
Qed.

Lemma normalizeMetric_value (v lo hi : Q) :
  lo < hi ->
  exists q, normalizeMetric (Fin v) (Fin lo) (Fin hi) = Fin q
            /\ q == Qmax 0 (Qmin 1 ((v - lo) / (hi - lo))).
Proof.
  intros Hlt. destruct (normalizeMetric_finite v lo hi) as (q & Hq & Hn & _).
  exists q. split; [exact Hq|]. rewrite Hn. unfold normalizeQ.
  destruct (Qeq_bool hi lo) eqn:E; [|reflexivity].
  apply Qeq_bool_eq in E. lra.
Qed.

Lemma ratio_le (a a' d : Q) : 0 < d -> a <= a' -> a / d <= a' / d.
Proof.
  intros Hd H. unfold Qdiv. apply Qmult_le_compat_r; [exact H|].
  apply Qinv_le_0_compat. lra.
Qed.

(** X11: between finite bounds [0 <= lo < hi], as the detector passes
    them, normalizeMetric is 0 up to [lo] and 1 from [hi] on, always a
    number between 0 and 1, and it never decreases when the value grows.
    When the two bounds are equal it is 0 for every value, so a derived
    baseline of latency 0 silences the latency sub-load.  (With a negative
    bound the differences can overflow in binary64, which the model leaves
    out; hence the first hypothesis.) *)
Theorem X11_normalizeMetric_is_a_ramp (v v' lo hi : Q) :
  (forall x : number, normalizeMetric x (Fin lo) (Fin lo) = Fin 0)
  /\ (0 <= lo -> lo < hi ->
      (v <= lo -> Num.same (normalizeMetric (Fin v) (Fin lo) (Fin hi)) (Fin 0))
      /\ (hi <= v -> Num.same (normalizeMetric (Fin v) (Fin lo) (Fin hi)) (Fin 1))
      /\ (exists q, normalizeMetric (Fin v) (Fin lo) (Fin hi) = Fin q /\ 0 <= q <= 1)
      /\ (v <= v' ->
          Num.le (normalizeMetric (Fin v) (Fin lo) (Fin hi))
            (normalizeMetric (Fin v') (Fin lo) (Fin hi)) = true)).
Proof.
  split.
  - intros x. unfold normalizeMetric, Num.strictEq.
    now rewrite (Qeq_eq_bool lo lo (Qeq_refl lo)).
  - intros _ Hlt.
    destruct (normalizeMetric_value v lo hi Hlt) as (q & -> & Hq).
    destruct (normalizeMetric_value v' lo hi Hlt) as (q' & -> & Hq').
    cbn [Num.same Num.le].
    assert (Hd : 0 < hi - lo) by lra.
    set (x := (v - lo) / (hi - lo)) in *. set (x' := (v' - lo) / (hi - lo)) in *.
    assert (Hx0 : v <= lo -> x <= 0).
    { intros H. apply Qle_shift_div_r; [exact Hd|]. lra. }
    assert (Hx1 : hi <= v -> 1 <= x).
    { intros H. apply Qle_shift_div_l; [exact Hd|]. lra. }
    split; [|split; [|split]].
    + intros H. specialize (Hx0 H). destruct (clampQ_cases x) as [[? E]|[[? E]|[? E]]];
        rewrite Hq, E; lra.
    + intros H. specialize (Hx1 H). destruct (clampQ_cases x) as [[? E]|[[? E]|[? E]]];
        rewrite Hq, E; lra.
    + exists q. split; [reflexivity|].
      destruct (clampQ_cases x) as [[? E]|[[? E]|[? E]]]; rewrite Hq, E; lra.
    + intros H. apply Qle_bool_iff. rewrite Hq, Hq'.
      assert (Hxx : x <= x') by (apply ratio_le; [exact Hd|lra]).
      destruct (clampQ_cases x) as [[? E]|[[? E]|[? E]]];
        destruct (clampQ_cases x') as [[? E']|[[? E']|[? E']]];
        rewrite E, E'; lra.
Qed.

Lemma X11_normalizeMetric_is_a_ramp_witness :
  Num.same (normalizeMetric (Fin 3500) (Fin 1000) (Fin 3000)) (Fin 1)
  /\ Num.le (normalizeMetric (Fin 2000) (Fin 1000) (Fin 3000))
       (normalizeMetric (Fin 2500) (Fin 1000) (Fin 3000)) = true.
Proof.
  assert (Hlo : 0 <= 1000) by lra.
  assert (Hlt : 1000 < 3000) by lra.
  split.
  - destruct (proj2 (X11_normalizeMetric_is_a_ramp 3500 3500 1000 3000) Hlo Hlt)
      as (_ & Htop & _).
    apply Htop. lra.
  - destruct (proj2 (X11_normalizeMetric_is_a_ramp 2000 2500 1000 3000) Hlo Hlt)
      as (_ & _ & _ & Hmono).
    apply Hmono. lra.
Defined.

Local Close Scope Q_scope.

End OverloadMore.

(* ===================================================================== *)
(** ** More on the experiment runner *)
(* ===================================================================== *)

Section RunnerMore.

Import Runner Props More.

Local Open Scope Q_scope.

(** X12: with a generator value in [0, 1) the synthetic context usage lies
    in [0.30, 0.50] for a minimal window, [0.50, 0.75] for a standard one
    and [0.70, 0.95] for an extended one; the call never throws and draws
    one value.  (The upper bounds are closed: in binary64 the sum can round
    up to them.) *)
Theorem X12_context_usage_ranges (cw : ContextWindow) (w : World) :
  0 <= randomAt (env w) (randomCalls (env w)) < 1 ->
  exists q w',
    calculateContextUsage cw w = Ok (Fin q, w')
    /\ match cw with
       | minimal => 0.30 <= q <= 0.50
       | standard => 0.50 <= q <= 0.75
       | extended => 0.70 <= q <= 0.95
       end
    /\ randomCalls (env w') = S (randomCalls (env w))
    /\ nowCalls (env w') = nowCalls (env w).
Proof.
  intros Hr. unfold calculateContextUsage, bind, random, mathRandom, ret.
  destruct cw; eexists _, _; (split; [reflexivity|]); cbn [env randomCalls nowCalls];
    (split; [lra|split; reflexivity]).
Qed.

Lemma X12_context_usage_ranges_witness :
  exists q w',
    calculateContextUsage extended (newWorld env0) = Ok (Fin q, w')
    /\ 0.70 <= q <= 0.95.
Proof.
  destruct (X12_context_usage_ranges extended (newWorld env0)) as (q & w' & E & Hq & _).
  - cbn. lra.
  - exists q, w'. split; [exact E|exact Hq].
Defined.

(** The load before clamping, as a rational. *)
Lemma clampQ_le (x y : Q) : x <= y -> Qmax 0 (Qmin 1 x) <= Qmax 0 (Qmin 1 y).
Proof.
  intros H.
  destruct (clampQ_cases x) as [[? E]|[[? E]|[? E]]];
    destruct (clampQ_cases y) as [[? E']|[[? E']|[? E']]];
    rewrite E, E'; lra.
Qed.

Lemma configLoad_value (config : AgentConfiguration) (c s e : Q)
    (metric : Overload.CognitiveMetrics) :
  Overload.contextWindowUsage metric = Fin c ->
  Overload.semanticConsistency metric = Fin s ->
  Overload.errorRate metric = Fin e ->
  exists q,
    calculateCognitiveLoadForConfig config metric = Fin q
    /\ 0 <= q <= 1
    /\ q == Qmax 0 (Qmin 1
              (c * 0.25
               + (if database config then - 0.10 else 0)
               + match specialization config with
                 | expert => - 0.15
                 | generalist => 0.10
                 | hybridSpecialization => 0
                 end
               + match memoryStrategy config with
                 | persistent => - 0.05
                 | ephemeral => 0.05
                 | hybridMemory => 0
                 end
               + (1 - s) * 0.30 + e * 2)).
Proof.
  intros Hc Hs He. unfold calculateCognitiveLoadForConfig. rewrite Hc, Hs, He.
  destruct (database config), (specialization config), (memoryStrategy config);
    cbn [Num.mul Num.sub Num.add Num.neg];
    match goal with
    | |- context [Num.max (Fin 0) (Num.min (Fin 1) (Fin ?x))] =>
        destruct (clamp_unit x) as (q & -> & Hq & Hb)
    end;
    exists q; (split; [reflexivity|]); (split; [exact Hb|]); rewrite Hq;
    (apply Q.max_compat; [reflexivity|]); (apply Q.min_compat; [reflexivity|]); ring.
Qed.

Lemma configLoad_le (c1 c2 : AgentConfiguration) (c s e : Q)
    (metric : Overload.CognitiveMetrics) :
  Overload.contextWindowUsage metric = Fin c ->
  Overload.semanticConsistency metric = Fin s ->
  Overload.errorRate metric = Fin e ->
  (if database c1 then - 0.10 else 0)
  + match specialization c1 with
    | expert => - 0.15 | generalist => 0.10 | hybridSpecialization => 0
    end
  + match memoryStrategy c1 with
    | persistent => - 0.05 | ephemeral => 0.05 | hybridMemory => 0
    end
  <= (if database c2 then - 0.10 else 0)
     + match specialization c2 with
       | expert => - 0.15 | generalist => 0.10 | hybridSpecialization => 0
       end
     + match memoryStrategy c2 with
       | persistent => - 0.05 | ephemeral => 0.05 | hybridMemory => 0
       end ->
  Num.le (calculateCognitiveLoadForConfig c1 metric)
    (calculateCognitiveLoadForConfig c2 metric) = true.
Proof.
  intros Hc Hs He Hle.
  destruct (configLoad_value c1 c s e metric Hc Hs He) as (q1 & -> & _ & H1).
  destruct (configLoad_value c2 c s e metric Hc Hs He) as (q2 & -> & _ & H2).
  cbn [Num.le]. apply Qle_bool_iff. rewrite H1, H2. apply clampQ_le. lra.
Qed.

(** X13: for a metric with finite fields the configuration-adjusted load is
    a number between 0 and 1, and, everything else equal, it is no higher
    with a database than without, no higher for an expert than for a
    hybrid and for a hybrid than for a generalist, and no higher with
    persistent memory than with hybrid and with hybrid than with
    ephemeral. *)
Theorem X13_config_load_ordering (config : AgentConfiguration)
    (metric : Overload.CognitiveMetrics) :
  finiteInputs metric ->
  let load c := calculateCognitiveLoadForConfig c metric in
  (exists q, load config = Fin q /\ 0 <= q <= 1)
  /\ Num.le (load (withDatabase true config)) (load (withDatabase false config)) = true
  /\ Num.le (load (withSpecialization expert config))
       (load (withSpecialization hybridSpecialization config)) = true
  /\ Num.le (load (withSpecialization hybridSpecialization config))
       (load (withSpecialization generalist config)) = true
  /\ Num.le (load (withMemoryStrategy persistent config))
       (load (withMemoryStrategy hybridMemory config)) = true
  /\ Num.le (load (withMemoryStrategy hybridMemory config))
       (load (withMemoryStrategy ephemeral config)) = true.
Proof.
  intros ([c Hc] & [s Hs] & [e He]) load. unfold load. split.
  - destruct (configLoad_value config c s e metric Hc Hs He) as (q & Hq & Hb & _).
    now exists q.
  - repeat split; apply (configLoad_le _ _ c s e metric Hc Hs He);
      cbn [withDatabase withSpecialization withMemoryStrategy
           database specialization memoryStrategy];
      destruct (database config), (specialization config), (memoryStrategy config); lra.
Qed.

Lemma X13_config_load_ordering_witness :
  Num.le (calculateCognitiveLoadForConfig (withDatabase true configB)
            (mkMetric "config-b" 0.80 20 0.02 0.70))
    (calculateCognitiveLoadForConfig (withDatabase false configB)
       (mkMetric "config-b" 0.80 20 0.02 0.70)) = true.
Proof.
  refine (proj1 (proj2 (X13_config_load_ordering configB
                          (mkMetric "config-b" 0.80 20 0.02 0.70) _))).
  repeat split; eexists; reflexivity.
Defined.

Lemma abs_diff_unit (x p : Q) : 0 <= x <= 1 -> 0 <= p <= 1 -> 0 <= Qabs (x - p) <= 1.
Proof.
  intros Hx Hp. split; [apply Qabs_nonneg|].
  apply Qabs_Qle_condition. lra.
Qed.

(** The loop of [calculateDriftVelocity] on drifts between 0 and 1. *)
Lemma totalChange_bounds (prev : Q) (rest : list number) (acc : Q) :
  0 <= prev <= 1 ->
  (forall d, In d rest -> inUnit d = true) ->
  exists t, totalChange (Fin prev) rest (Fin acc) = Fin t
            /\ acc <= t <= acc + inject_Z (Z.of_nat (length rest)).
Proof.
  revert prev acc. induction rest as [|x rest IH]; intros prev acc Hp Hr.
  - exists acc. split; [reflexivity|]. cbn [length].
    change (inject_Z (Z.of_nat 0)) with 0. lra.
  - pose proof (Hr x (or_introl eq_refl)) as Hx.
    destruct x as [x| | |]; try discriminate.
    apply inUnit_range in Hx. cbn [valueOf] in Hx.
    cbn [totalChange Num.sub Num.neg Num.add Num.abs].
    destruct (IH x (acc + Qabs (x + - prev)) Hx (fun d Hd => Hr d (or_intror Hd)))
      as (t & Ht & Hb).
    exists t. split; [exact Ht|]. cbn [length]. rewrite of_nat_succ.
    pose proof (abs_diff_unit x prev Hx Hp) as Ha. unfold Qminus in Ha. lra.
Qed.

Lemma driftVelocity_unit (measurements : list number) :
  (forall d, In d measurements -> inUnit d = true) ->
  (exists q, calculateDriftVelocity measurements = Fin q /\ 0 <= q <= 1)
  /\ ((length measurements < 2)%nat -> calculateDriftVelocity measurements = Fin 0).
Proof.
  intros H. unfold calculateDriftVelocity.
  destruct (Nat.ltb_spec (length measurements) 2) as [Hshort|Hlong].
  - split; [exists 0; split; [reflexivity|lra]|reflexivity].
  - split; [|lia].
    destruct measurements as [|first rest]; [cbn in Hlong; lia|].
    pose proof (H first (or_introl eq_refl)) as Hf.
    destruct first as [p| | |]; try discriminate.
    apply inUnit_range in Hf. cbn [valueOf] in Hf.
    destruct (totalChange_bounds p rest 0 Hf (fun d Hd => H d (or_intror Hd)))
      as (t & -> & Hb).
    cbn [length] in *. replace (S (length rest) - 1)%nat with (length rest) by lia.
    assert (Hne : rest <> []) by (intros ->; cbn in Hlong; lia).
    unfold Num.div, Num.ofNat. rewrite (length_nonzero rest Hne).
    eexists. split; [reflexivity|].
    pose proof (length_positive rest Hne) as Hn. split.
    + apply Qle_shift_div_l; [exact Hn|]. lra.
    + apply Qle_shift_div_r; [exact Hn|]. lra.
Qed.

(** X14: on drifts between 0 and 1 the drift velocity is a number between
    0 and 1, and it is 0 for fewer than two measurements. *)
Theorem X14_drift_velocity_in_unit_interval (measurements : list number) :
  (forall d, In d measurements -> inUnit d = true) ->
  (exists q, calculateDriftVelocity measurements = Fin q /\ 0 <= q <= 1)
  /\ ((length measurements < 2)%nat -> calculateDriftVelocity measurements = Fin 0).
Proof. apply driftVelocity_unit. Qed.

Lemma X14_drift_velocity_in_unit_interval_witness :
  exists q, calculateDriftVelocity [Fin 0.2; Fin 0.9; Fin 0.4] = Fin q /\ 0 <= q <= 1.
Proof.
  apply (X14_drift_velocity_in_unit_interval [Fin 0.2; Fin 0.9; Fin 0.4]).
  intros d [<-|[<-|[<-|[]]]]; reflexivity.
Defined.

(** One turn of the loop, when the clock test passes. *)
Lemma processSamples_step config start d sample rest idx ms drifts w :
  (Num.ofZ (nowAt (env w) (nowCalls (env w)) - start) <? d)%js = true ->
  exists metric drift w2,
    processSamples config start d (sample :: rest) idx ms drifts w
    = processSamples config start d rest (S idx) (ms ++ [metric]) (drifts ++ [drift]) w2
    /\ turn config w metric drift w2.
Proof.
  intros E.
  cbn [processSamples]. unfold bind at 1. unfold now at 1. cbn [dateNow env].
  rewrite E.
  unfold bind, now, measureDrift, calculateContextUsage, random, recordMetric,
    simulateProcessingDelay, ret.
  cbn [dateNow mathRandom env driftMeasurement overloadDetector experiments
       nowAt randomAt nowCalls randomCalls].
  destruct (measureDrift_unit (id config) sample
              {| nowAt := nowAt (env w); randomAt := randomAt (env w);
                 nowCalls := S (S (nowCalls (env w)));
                 randomCalls := randomCalls (env w) |} (driftMeasurement w))
    as (q & Hq & Hunit).
  unfold Drift.measureDrift in *.
  destruct (Drift.baseline (driftMeasurement w) !! id config) as [b|] eqn:Eb;
    cbn [dateNow fst snd nowAt randomAt nowCalls randomCalls] in *;
    rewrite Hq;
    cbn [dateNow mathRandom env driftMeasurement overloadDetector experiments
         nowAt randomAt nowCalls randomCalls
         Overload.agentId Overload.timestamp Overload.contextWindowUsage
         Overload.processingLatency Overload.errorRate Overload.semanticConsistency
         Overload.cognitiveLoadIndex];
    (eexists _, _, _; split; [reflexivity|]);
    unfold turn, finiteMetric, laterThan;
    cbn [dateNow mathRandom env driftMeasurement overloadDetector experiments
         nowAt randomAt nowCalls randomCalls Drift.baseline Drift.measurements
         Overload.agentId Overload.timestamp Overload.contextWindowUsage
         Overload.processingLatency Overload.errorRate Overload.semanticConsistency
         Overload.cognitiveLoadIndex];
    rewrite ?length_app; cbn [length];
    (repeat split; try reflexivity; try lia;
     try (destruct (contextWindow config); eexists; reflexivity);
     try (eexists; reflexivity)).
  all: try (exists q; split; [reflexivity|]; split; [exact Hunit|reflexivity]).
  all: try (eexists; split; [reflexivity|]; eexists; reflexivity).
  all: try (eexists _, _; split; [reflexivity|]; eexists _, _;
            split; [|split; reflexivity]; lia).
  all: rewrite Eb; lia.
Qed.

Lemma laterThan_refl w : laterThan w w.
Proof. unfold laterThan. auto. Qed.

Lemma laterThan_trans w1 w2 w3 : laterThan w1 w2 -> laterThan w2 w3 -> laterThan w1 w3.
Proof.
  unfold laterThan. intros (A1 & B1 & C1 & D1) (A2 & B2 & C2 & D2).
  repeat split; try congruence; lia.
Qed.

Lemma produced_later config w w' m : laterThan w w' -> produced config w' m -> produced config w m.
Proof.
  unfold produced, laterThan. intros (Hn & Hr & _ & _) (H1 & H2 & H3 & H4 & H5).
  rewrite Hn, Hr in *. auto.
Qed.

Lemma turn_produced config w metric drift w' :
  turn config w metric drift w' -> produced config w metric /\ inUnit drift = true.
Proof.
  unfold turn, produced.
  intros (H1 & H2 & (q & -> & Hq & Hs) & (r & He & n & ->) & (t1 & t2 & Hl & n1 & n2 & Hn & -> & ->) & _).
  split.
  - split; [exact H1|]. split; [exact H2|]. split; [now exists q|].
    split; [now exists n|]. now exists n1, n2.
  - cbn. apply andb_true_iff. split; apply Qle_bool_iff; lra.
Qed.

Lemma looped_none config start d rest w w' :
  laterThan w w' ->
  overloadDetector w' = overloadDetector w ->
  experiments w' = experiments w ->
  driftMeasurement w' = driftMeasurement w ->
  rest = [] \/ withinDuration w start d (nowCalls (env w)) = false ->
  looped config start d rest w [] [] w'.
Proof.
  intros Hlater Hdet Hexp Hdrift Hstop. unfold looped. cbn [length].
  split; [reflexivity|]. split; [lia|]. split; [intros m []|]. split; [intros x []|].
  split; [exact Hdet|]. split; [exact Hexp|]. split; [now rewrite Hdrift|].
  split.
  { rewrite Hdrift. destruct (Drift.baseline (driftMeasurement w) !! id config); lia. }
  split; [exact Hlater|]. split.
  { intros Hall. destruct Hstop as [->|Hstop]; [reflexivity|].
    rewrite Hall in Hstop; [discriminate|lia]. }
  split; [reflexivity|].
  intros Hin Hrest. destruct Hstop as [->|Hstop]; congruence.
Qed.

(** The loop of [runExperiment] never throws; what it leaves. *)
Lemma processSamples_spec config start d rest :
  forall idx ms drifts w,
  exists new newDrifts w',
    processSamples config start d rest idx ms drifts w
    = Ok ((idx + length new, ms ++ new, drifts ++ newDrifts)%nat, w')
    /\ looped config start d rest w new newDrifts w'.
Proof.
  induction rest as [|sample rest IH]; intros idx ms drifts w.
  - exists [], []. eexists. cbn [processSamples]. unfold bind, now, ret.
    cbn [dateNow]. rewrite Nat.add_0_r, !app_nil_r. split; [reflexivity|].
    apply looped_none; try reflexivity; [|now left].
    unfold laterThan. cbn [env nowAt randomAt nowCalls randomCalls].
    repeat split; lia.
  - destruct (withinDuration w start d (nowCalls (env w))) eqn:E.
    + destruct (processSamples_step config start d sample rest idx ms drifts w E)
        as (metric & drift & w2 & Heq & Hturn).
      destruct (IH (S idx) (ms ++ [metric]) (drifts ++ [drift]) w2)
        as (new & newDrifts & w' & Heq' & Hloop).
      exists (metric :: new), (drift :: newDrifts), w'. split.
      * rewrite Heq, Heq'. cbn [length].
        rewrite <- !app_assoc. cbn [app]. now rewrite Nat.add_succ_r.
      * destruct (turn_produced _ _ _ _ _ Hturn) as [Hprod Hdrift].
        destruct Hturn as (_ & _ & _ & _ & _ & Hdet & Hexp & Hbase & Hlog & Hlater & Hfive).
        destruct Hloop as (L1 & L2 & L3 & L4 & L5 & L6 & L7 & L8 & L9 & L10 & _ & _).
        unfold looped. cbn [length].
        split; [lia|]. split; [lia|]. split.
        { intros m [<-|Hm]; [exact Hprod|].
          apply (produced_later config w w2); [exact Hlater|now apply L3]. }
        split; [intros x [<-|Hx]; [exact Hdrift|now apply L4]|].
        split; [rewrite L5, Hdet; reflexivity|].
        split; [congruence|]. split; [congruence|]. split.
        { rewrite L8, Hlog, Hbase.
          destruct (Drift.baseline (driftMeasurement w) !! id config); lia. }
        split; [eapply laterThan_trans; eassumption|].
        split.
        { intros Hall. f_equal. apply L10. intros n Hn.
          unfold withinDuration in *. destruct Hlater as (-> & _ & Hle & _).
          apply Hall. cbn [length]. lia. }
        split; [congruence|discriminate].
    + exists [], []. eexists. cbn [processSamples]. unfold bind at 1. unfold now at 1.
      cbn [dateNow env]. unfold withinDuration in E. rewrite E. unfold ret.
      rewrite Nat.add_0_r, !app_nil_r. split; [reflexivity|].
      apply looped_none; try reflexivity; [|now right].
      unfold laterThan. cbn [env nowAt randomAt nowCalls randomCalls].
      repeat split; lia.
Qed.

(** [runExperiment] never throws; its result and final world in terms of
    what its loop leaves. *)
Lemma runExperiment_spec config testSamples d w :
  let start := nowAt (env w) (nowCalls (env w)) in
  exists new newDrifts w3,
    looped config start d (skipn 10 testSamples) (baselined config testSamples w)
      new newDrifts w3
    /\ runExperiment config testSamples d w
       = Ok (resultFrom config start new newDrifts w3,
             finished config (resultFrom config start new newDrifts w3) w3).
Proof.
  cbv zeta.
  destruct (processSamples_spec config (nowAt (env w) (nowCalls (env w))) d
              (skipn 10 testSamples) 10 [] [] (baselined config testSamples w))
    as (new & newDrifts & w3 & Heq & Hloop).
  exists new, newDrifts, w3. split; [exact Hloop|].
  unfold runExperiment. unfold bind at 1. unfold now at 1. cbn [dateNow].
  unfold bind at 1. unfold establishBaseline, Drift.establishBaseline.
  cbn [dateNow env driftMeasurement overloadDetector experiments
       nowAt randomAt nowCalls randomCalls].
  unfold bind at 1. unfold baselined in Heq. cbv zeta in Heq. rewrite Heq.
  cbn [app]. unfold bind, calculateCognitiveLoad, now, setExperiment, ret.
  cbn [dateNow]. unfold resultFrom, finished.
  replace (10 + length new - 10)%nat with (length new) by lia.
  reflexivity.
Qed.

Lemma recordAll_other new st a0 a :
  (forall m, In m new -> Overload.agentId m = a0) -> a <> a0 ->
  Overload.history a (Overload.recordAll new st) = Overload.history a st
  /\ Overload.baselines (Overload.recordAll new st) !! a = Overload.baselines st !! a.
Proof.
  revert st. induction new as [|m new IH]; intros st Hall Hne; [split; reflexivity|].
  cbn [Overload.recordAll fold_left].
  assert (Hm : Overload.agentId m <> a).
  { rewrite (Hall m (or_introl eq_refl)). congruence. }
  destruct (IH (Overload.recordMetric m st) (fun x Hx => Hall x (or_intror Hx)) Hne)
    as [Hh Hb].
  unfold Overload.recordAll in Hh, Hb. rewrite Hh, Hb. split.
  - rewrite recordMetric_history.
    destruct (String.eqb_spec (Overload.agentId m) a); [contradiction|reflexivity].
  - now apply recordMetric_other_baseline.
Qed.

(** X15: runExperiment never throws.  It registers its result under the
    configuration's id, replaces that id's baseline by the profile of the
    first 10 samples, processes at most the samples after the tenth, logs
    one drift measurement per processed sample, and leaves the baselines,
    metric histories and derived baselines of every other agent alone. *)
Theorem X15_runExperiment_accounting (config : AgentConfiguration)
    (testSamples : list string) (durationMs : number) (w : World) :
  exists r w',
    runExperiment config testSamples durationMs w = Ok (r, w')
    /\ configurationId r = id config
    /\ (samples r <= length testSamples - 10)%nat
    /\ experiments w' = <[id config := r]> (experiments w)
    /\ (exists b, Drift.baseline (driftMeasurement w') !! id config = Some b
                  /\ Drift.terminology b = Drift.extractTerminology (firstn 10 testSamples)
                  /\ Drift.sampleCount b = Nat.min 10 (length testSamples))
    /\ length (Drift.measurements (driftMeasurement w'))
       = (length (Drift.measurements (driftMeasurement w)) + samples r)%nat
    /\ (forall a, a <> id config ->
        Drift.baseline (driftMeasurement w') !! a
        = Drift.baseline (driftMeasurement w) !! a
        /\ Overload.history a (overloadDetector w')
           = Overload.history a (overloadDetector w)
        /\ Overload.baselines (overloadDetector w') !! a
           = Overload.baselines (overloadDetector w) !! a).
Proof.
  destruct (runExperiment_spec config testSamples durationMs w)
    as (new & newDrifts & w3 & Hloop & Heq).
  cbv zeta in *. eexists _, _. split; [exact Heq|].
  destruct Hloop as (L1 & L2 & L3 & _ & L5 & L6 & L7 & L8 & _).
  cbn [resultFrom finished configurationId samples experiments driftMeasurement
       overloadDetector].
  cbn [baselined driftMeasurement overloadDetector experiments Drift.baseline
       Drift.measurements] in L5, L6, L7, L8.
  rewrite lookup_insert_eq in L8.
  split; [reflexivity|]. split; [now rewrite length_skipn in L2|].
  split; [now rewrite L6|]. split.
  { rewrite L7, lookup_insert_eq. eexists. split; [reflexivity|].
    cbn [Drift.terminology Drift.sampleCount]. split; [reflexivity|].
    apply length_firstn. }
  split; [exact L8|].
  intros a Ha. rewrite L7, L5. split; [now rewrite lookup_insert_ne|].
  apply recordAll_other with (a0 := id config); [|exact Ha].
  intros m Hm. now destruct (L3 m Hm).
Qed.

(** X16: the clock decides how many samples a run processes.  When every
    reading the run can make is within durationMs of the start, all the
    samples after the tenth are processed; when the reading of the first
    loop test is not, or durationMs is NaN, none is; when it is and there
    are more than 10 samples, at least one is. *)
Theorem X16_clock_decides_sample_count (config : AgentConfiguration)
    (testSamples : list string) (durationMs : number) (w : World) :
  let start := nowAt (env w) (nowCalls (env w)) in
  let first := S (S (nowCalls (env w))) in
  exists r w',
    runExperiment config testSamples durationMs w = Ok (r, w')
    /\ ((forall n, (nowCalls (env w) <= n
                    <= nowCalls (env w) + 2 + 5 * (length testSamples - 10))%nat ->
                   withinDuration w start durationMs n = true) ->
        samples r = (length testSamples - 10)%nat)
    /\ (withinDuration w start durationMs first = false -> samples r = 0%nat)
    /\ (durationMs = NaN -> samples r = 0%nat)
    /\ (withinDuration w start durationMs first = true ->
        (10 < length testSamples)%nat -> (1 <= samples r)%nat).
Proof.
  destruct (runExperiment_spec config testSamples durationMs w)
    as (new & newDrifts & w3 & Hloop & Heq).
  cbv zeta in *. eexists _, _. split; [exact Heq|].
  destruct Hloop as (_ & _ & _ & _ & _ & _ & _ & _ & _ & Lall & Lnone & Lsome).
  cbn [resultFrom samples].
  change (withinDuration (baselined config testSamples w))
    with (withinDuration w) in *.
  cbn [baselined env nowCalls] in Lall, Lnone, Lsome.
  assert (Hstop : withinDuration w (nowAt (env w) (nowCalls (env w))) durationMs
                    (S (S (nowCalls (env w)))) = false -> length new = 0%nat).
  { intros H. now rewrite (Lnone H). }
  split; [|split; [exact Hstop|split]].
  - intros Hall. rewrite Lall; [apply length_skipn|].
    intros n Hn. apply Hall. rewrite length_skipn in Hn. lia.
  - intros ->. apply Hstop. unfold withinDuration, Num.lt.
    now destruct (Num.ofZ _).
  - intros Hin Hlen.
    assert (Hne : new <> []).
    { apply Lsome; [exact Hin|]. intros E. apply (f_equal (@length string)) in E.
      rewrite length_skipn in E. cbn in E. lia. }
    destruct new; [congruence|]. cbn [length]. lia.
Qed.

Lemma X16_clock_decides_sample_count_witness :
  exists r w',
    runExperiment configA samples12 defaultDurationMs (newWorld env0) = Ok (r, w')
    /\ samples r = 2%nat.
Proof.
  destruct (X16_clock_decides_sample_count configA samples12 defaultDurationMs
              (newWorld env0)) as (r & w' & Heq & Hall & _).
  exists r, w'. split; [exact Heq|]. apply Hall.
  intros n [_ Hn]. cbn in Hn.
  do 13 (destruct n as [|n]; [vm_compute; reflexivity|]). lia.
Defined.

Lemma average_mean f ms : average f ms = Overload.mean f ms.
Proof.
  unfold average, Overload.mean, Num.sum. f_equal.
  generalize (Fin 0). induction ms as [|m ms IH]; intros a; [reflexivity|].
  cbn [fold_left map]. apply IH.
Qed.

Lemma average_finite f (ms : list Overload.CognitiveMetrics) :
  ms <> [] -> (forall m, In m ms -> finite (f m)) ->
  average f ms = Fin (meanQ f ms).
Proof. intros Hne H. rewrite average_mean. now apply mean_finite. Qed.

(** X17: when a run processes at least one sample, the three means of its
    result are numbers: the consistency lies between 0 and 1, the error
    rate between 0 and 1/16 when the generator stays in [0, 1), and the
    latency is not negative when the clock never goes back; the drift
    velocity lies between 0 and 1.  (Every error rate is at most 0.05; the
    bound on their mean is the next power of two, which the rounding of a
    binary64 sum cannot pass.) *)
Theorem X17_means_of_a_run_are_numbers (config : AgentConfiguration)
    (testSamples : list string) (durationMs : number) (w w' : World)
    (r : ExperimentResult) :
  runExperiment config testSamples durationMs w = Ok (r, w') ->
  (1 <= samples r)%nat ->
  (exists q, semanticConsistency (metrics r) = Fin q /\ 0 <= q <= 1)
  /\ (exists e, errorRate (metrics r) = Fin e
                /\ (unitGenerator (env w) -> 0 <= e <= 0.0625))
  /\ (exists l, processingLatency (metrics r) = Fin l
                /\ (monotoneClock (env w) -> 0 <= l))
  /\ (exists v, driftVelocity (metrics r) = Fin v /\ 0 <= v <= 1).
Proof.
  intros Hrun Hsome.
  destruct (runExperiment_spec config testSamples durationMs w)
    as (new & newDrifts & w3 & Hloop & Heq).
  cbv zeta in *. rewrite Hrun in Heq. injection Heq as -> _.
  cbn [resultFrom samples metrics semanticConsistency errorRate processingLatency
       driftVelocity] in *.
  destruct Hloop as (_ & _ & Hprod & Hdrifts & _).
  assert (Hne : new <> []) by (intros ->; cbn in Hsome; lia).
  assert (Hfin : forall m, In m new -> finiteMetric m).
  { intros m Hm. now destruct (Hprod m Hm) as (_ & H & _). }
  split; [|split; [|split]].
  - rewrite average_finite; [|exact Hne|intros m Hm; apply (Hfin m Hm)].
    eexists. split; [reflexivity|]. apply meanQ_bounds; [exact Hne|].
    intros m Hm. destruct (Hprod m Hm) as (_ & _ & (q & Hq & ->) & _).
    cbn [valueOf]. lra.
  - rewrite average_finite; [|exact Hne|intros m Hm; apply (Hfin m Hm)].
    eexists. split; [reflexivity|]. intros Hgen.
    assert (Hmean : 0 <= meanQ Overload.errorRate new <= 0.05); [|lra].
    apply meanQ_bounds; [exact Hne|].
    intros m Hm. destruct (Hprod m Hm) as (_ & _ & _ & (n & ->) & _).
    cbn [valueOf baselined env randomAt]. specialize (Hgen n). lra.
  - rewrite average_finite; [|exact Hne|intros m Hm; apply (Hfin m Hm)].
    eexists. split; [reflexivity|]. intros Hclock. apply meanQ_nonneg; [exact Hne|].
    intros m Hm. destruct (Hprod m Hm) as (_ & _ & _ & _ & (n1 & n2 & Hn & ->)).
    cbn [valueOf Num.ofZ baselined env nowAt].
    assert (Hle := Hclock n1 n2 ltac:(lia)).
    unfold Qle. cbn. lia.
  - apply driftVelocity_unit. exact Hdrifts.
Qed.

Lemma X17_means_of_a_run_are_numbers_witness :
  exists r w',
    runExperiment configA samples12 defaultDurationMs (newWorld env0) = Ok (r, w')
    /\ exists q, semanticConsistency (metrics r) = Fin q /\ 0 <= q <= 1.
Proof.
  destruct (runExperiment_spec configA samples12 defaultDurationMs (newWorld env0))
    as (new & newDrifts & w3 & Hloop & Heq).
  cbv zeta in Heq. eexists _, _. split; [exact Heq|].
  refine (proj1 (X17_means_of_a_run_are_numbers configA samples12 defaultDurationMs
                   (newWorld env0) _ _ Heq _)).
  destruct Hloop as (_ & _ & _ & _ & _ & _ & _ & _ & _ & _ & _ & Lsome).
  assert (Hne : new <> []).
  { apply Lsome; [vm_compute; reflexivity|]. cbn. discriminate. }
  cbn [resultFrom samples]. destruct new; [congruence|]. cbn [length]. lia.
Defined.

Lemma finiteStore_init : finiteStore Overload.init.
Proof.
  split.
  - intros a r H. unfold Overload.history in H. cbn in H.
    rewrite lookup_empty in H. destruct H.
  - intros a b H. cbn in H. now rewrite lookup_empty in H.
Qed.

Lemma in_tail {A} (x : A) (l : list A) : In x (tail l) -> In x l.
Proof. destruct l; [intros []|]. cbn. auto. Qed.

Lemma recordMetric_history_in m st a r :
  In r (Overload.history a (Overload.recordMetric m st)) ->
  r = m \/ In r (Overload.history a st).
Proof.
  rewrite recordMetric_history. cbv zeta.
  destruct (String.eqb (Overload.agentId m) a); [|auto].
  destruct (1000 <? _)%nat; intros H; [apply in_tail in H|];
    apply in_app_iff in H; destruct H as [H|[H|[]]]; auto.
Qed.

Lemma finiteStore_record st m :
  finiteStore st -> finiteMetric m -> finiteStore (Overload.recordMetric m st).
Proof.
  intros [Hh Hb] Hm.
  assert (Hh' : forall a r, In r (Overload.history a (Overload.recordMetric m st)) ->
                            finiteMetric r).
  { intros a r Hr. apply recordMetric_history_in in Hr.
    destruct Hr as [->|Hr]; [exact Hm|now apply (Hh a)]. }
  split; [exact Hh'|].
  intros a b. rewrite recordMetric_baselines. cbv zeta.
  set (h := Overload.history (Overload.agentId m) (Overload.recordMetric m st)).
  destruct (length h <? 20)%nat; [apply Hb|].
  destruct (Nat.ltb_spec 10 (length (lastHealthy h))) as [Hlen|_]; [|apply Hb].
  destruct (string_dec (Overload.agentId m) a) as [->|Hne].
  - rewrite lookup_insert_eq. intros [= <-]. cbn [meansOf Overload.latency].
    rewrite mean_finite; [now eexists| |].
    + intros E. rewrite E in Hlen. cbn in Hlen. lia.
    + intros r Hr. unfold lastHealthy in Hr. apply in_sliceLast in Hr.
      apply filter_In in Hr. destruct Hr as [Hr _].
      destruct (Hh' _ r Hr) as (_ & H & _). exact H.
  - rewrite lookup_insert_ne by assumption. apply Hb.
Qed.

Lemma finiteStore_recordAll new st :
  finiteStore st -> (forall m, In m new -> finiteMetric m) ->
  finiteStore (Overload.recordAll new st).
Proof.
  revert st. induction new as [|m new IH]; intros st Hst Hnew; [exact Hst|].
  cbn [Overload.recordAll fold_left]. apply IH.
  - apply finiteStore_record; [exact Hst|]. apply Hnew. now left.
  - intros x Hx. apply Hnew. now right.
Qed.

(** On a store of finite records the load index is a number between 0
    and 1. *)
Lemma load_finite st a :
  finiteStore st ->
  exists q, Overload.calculateCognitiveLoad a st = Fin q /\ 0 <= q <= 1.
Proof.
  intros [Hh Hb]. unfold Overload.calculateCognitiveLoad.
  destruct (length (Overload.getRecentMetrics a 10 st) =? 0)%nat eqn:E.
  - exists 0. split; [reflexivity|lra].
  - set (recent := Overload.getRecentMetrics a 10 st) in *.
    assert (Hrecent : recent <> []) by (intros H; rewrite H in E; discriminate).
    assert (Hfin : forall r, In r recent -> finiteMetric r).
    { intros r Hr. apply in_sliceLast in Hr. now apply (Hh a). }
    assert (Hbase : finite (Overload.latency (Overload.baselineOf a st))).
    { unfold Overload.baselineOf. destruct (Overload.baselines st !! a) as [b|] eqn:Eb.
      - cbn [default from_option]. now apply (Hb a b).
      - now eexists. }
    destruct Hbase as [base Hbase].
    rewrite !mean_finite by (try assumption; intros r Hr; apply (Hfin r Hr)).
    rewrite Hbase.
    change (Fin base * Fin 3)%js with (Fin (base * 3)).
    change (Fin 1 - Fin (meanQ Overload.semanticConsistency recent))%js
      with (Fin (1 - meanQ Overload.semanticConsistency recent)).
    destruct (normalizeMetric_finite (meanQ Overload.contextWindowUsage recent) 0 1)
      as (cl & -> & _ & Bcl).
    destruct (normalizeMetric_finite
                (meanQ Overload.processingLatency recent) base (base * 3))
      as (ll & -> & _ & Bll).
    destruct (normalizeMetric_finite (meanQ Overload.errorRate recent) 0 0.20)
      as (el & -> & _ & Bel).
    destruct (normalizeMetric_finite
                (1 - meanQ Overload.semanticConsistency recent) 0 0.50)
      as (dl & -> & _ & Bdl).
    exists (cl * 0.25 + ll * 0.25 + el * 0.30 + dl * 0.20).
    split; [reflexivity|lra].
Qed.

(** A result whose four scored metrics are finite has a ranked score. *)
Lemma score_ranked (r : ExperimentResult) :
  finite (semanticConsistency (metrics r)) ->
  finite (cognitiveLoad (metrics r)) ->
  finite (errorRate (metrics r)) ->
  finite (processingLatency (metrics r)) ->
  ranked (calculateScore r) = true.
Proof.
  intros [c Hc] [l Hl] [e He] [t Ht]. unfold calculateScore, ranked.
  rewrite Hc, Hl, He, Ht. unfold Num.div.
  destruct (Qeq_bool t 0); reflexivity.
Qed.

Lemma withinDuration_later w w' start d n :
  laterThan w w' -> withinDuration w' start d n = withinDuration w start d n.
Proof. intros (H & _). unfold withinDuration. now rewrite H. Qed.

(** A run that starts within its duration on more than 10 samples, from a
    store of finite records, gives a ranked score and leaves such a
    store. *)
Lemma runExperiment_ranked config testSamples d w :
  finiteStore (overloadDetector w) ->
  (10 < length testSamples)%nat ->
  withinDuration w (nowAt (env w) (nowCalls (env w))) d (S (S (nowCalls (env w)))) = true ->
  exists r w',
    runExperiment config testSamples d w = Ok (r, w')
    /\ ranked (calculateScore r) = true
    /\ finiteStore (overloadDetector w')
    /\ laterThan w w'.
Proof.
  intros Hstore Hlen Hin.
  destruct (runExperiment_spec config testSamples d w)
    as (new & newDrifts & w3 & Hloop & Heq).
  cbv zeta in *. eexists _, _. split; [exact Heq|].
  destruct Hloop as (_ & _ & Hprod & _ & Hdet & _ & _ & _ & Hlater & _ & _ & Lsome).
  assert (Hne : new <> []).
  { apply Lsome; [exact Hin|]. intros E. apply (f_equal (@length string)) in E.
    rewrite length_skipn in E. cbn in E. lia. }
  assert (Hfin : forall m, In m new -> finiteMetric m).
  { intros m Hm. now destruct (Hprod m Hm) as (_ & H & _). }
  assert (Hstore3 : finiteStore (overloadDetector w3)).
  { rewrite Hdet. now apply finiteStore_recordAll. }
  split; [|split; [exact Hstore3|]].
  - apply score_ranked; cbn [resultFrom metrics semanticConsistency cognitiveLoad
                             errorRate processingLatency].
    + rewrite average_finite; [now eexists|exact Hne|intros m Hm; apply (Hfin m Hm)].
    + destruct (load_finite (overloadDetector w3) (id config) Hstore3) as (q & -> & _).
      now eexists.
    + rewrite average_finite; [now eexists|exact Hne|intros m Hm; apply (Hfin m Hm)].
    + rewrite average_finite; [now eexists|exact Hne|intros m Hm; apply (Hfin m Hm)].
  - apply (laterThan_trans w (baselined config testSamples w)).
    + unfold laterThan, baselined. cbn. repeat split; lia.
    + apply (laterThan_trans _ w3); [exact Hlater|].
      unfold laterThan, finished. cbn. repeat split; lia.
Qed.

Lemma mapSet_not_nil key value (m : Results) : mapSet key value m <> [].
Proof. destruct m as [|[k v] m]; cbn; [discriminate|]. now destruct (String.eqb k key). Qed.

(** The loop of [compareConfigurations] under a clock that advances less
    than the duration between a reading and the second next. *)
Lemma runAll_ranked configs testSamples :
  (10 < length testSamples)%nat ->
  forall acc w,
    finiteStore (overloadDetector w) ->
    (forall n, withinDuration w (nowAt (env w) n) defaultDurationMs (S (S n)) = true) ->
    (forall x, In x acc -> ranked (scoreOf x) = true) ->
    exists res w',
      runAll configs testSamples acc w = Ok (res, w')
      /\ (forall x, In x res -> ranked (scoreOf x) = true)
      /\ (acc <> [] \/ configs <> [] -> res <> []).
Proof.
  intros Hlen. induction configs as [|c cs IH]; intros acc w Hstore Hclock Hacc.
  - exists acc, w. split; [reflexivity|]. split; [exact Hacc|].
    intros [H|H]; congruence.
  - destruct (runExperiment_ranked c testSamples defaultDurationMs w Hstore Hlen
                (Hclock _)) as (r & w1 & Heq & Hr & Hstore1 & Hlater).
    destruct (IH (mapSet (id c) r acc) w1 Hstore1) as (res & w' & Heq' & Hres & Hne).
    + intros n. rewrite (withinDuration_later w w1 _ _ _ Hlater).
      destruct Hlater as (-> & _). apply Hclock.
    + intros x Hx. apply mapSet_in in Hx. destruct Hx as [->|Hx]; [exact Hr|now apply Hacc].
    + exists res, w'. cbn [runAll]. unfold bind. rewrite Heq.
      split; [exact Heq'|]. split; [exact Hres|].
      intros _. apply Hne. left. apply mapSet_not_nil.
Qed.

(** X18: from a store of finite records, with at least one configuration,
    more than 10 samples and a clock that advances less than 60000 ms
    between a reading and the second next, compareConfigurations returns,
    every score is a number above -Infinity, and the winner is the id of a
    configuration whose score is at least every score of the comparison. *)
Theorem X18_comparison_names_a_best_configuration (configs : list AgentConfiguration)
    (testSamples : list string) (w : World) :
  finiteStore (overloadDetector w) ->
  configs <> [] ->
  (10 < length testSamples)%nat ->
  (forall n, withinDuration w (nowAt (env w) n) defaultDurationMs (S (S n)) = true) ->
  exists c w',
    compareConfigurations configs testSamples w = Ok (c, w')
    /\ In (winner c) (map id configs)
    /\ (forall entry, In entry (comparison c) ->
        ranked (calculateScore (snd entry)) = true)
    /\ exists result,
         In (winner c, result) (comparison c)
         /\ forall entry, In entry (comparison c) ->
            (calculateScore result >=? calculateScore (snd entry))%js = true.
Proof.
  intros Hstore Hconfigs Hlen Hclock.
  destruct (runAll_ranked configs testSamples Hlen [] w Hstore Hclock)
    as (res & w1 & Heq & Hranked & Hne); [intros x []|].
  specialize (Hne (or_intror Hconfigs)).
  unfold compareConfigurations, bind. rewrite Heq.
  assert (Hgen : generateComparativeAnalysis res w1 = Ok (tt, w1))
    by (destruct res; [congruence|reflexivity]).
  cbv zeta. rewrite Hgen. unfold ret.
  eexists _, _. split; [reflexivity|].
  cbn [winner comparison].
  destruct (determineWinner_first_max res Hne Hranked)
    as (before & y & after & Hsplit & Hw & Hmax & _).
  apply runAll_keys in Heq; [|constructor]. destruct Heq as [_ Hkeys].
  split; [|split; [exact Hranked|]].
  - assert (Hk : In (fst y) (map fst res))
      by (rewrite Hsplit, map_app, in_app_iff; right; now left).
    apply Hkeys in Hk. destruct Hk as [[]|Hk]. now rewrite Hw.
  - exists (snd y). rewrite Hw, <- surjective_pairing. split; [|exact Hmax].
    rewrite Hsplit. apply in_app_iff. right. now left.
Qed.

Lemma X18_comparison_names_a_best_configuration_witness :
  exists c w',
    compareConfigurations [configA; configB] samples12 (newWorld env0) = Ok (c, w')
    /\ In (winner c) (map id [configA; configB]).
Proof.
  destruct (X18_comparison_names_a_best_configuration [configA; configB] samples12
              (newWorld env0)) as (c & w' & Heq & Hin & _).
  - apply finiteStore_init.
  - discriminate.
  - cbn. lia.
  - intros n. unfold withinDuration. cbn [newWorld env env0 nowAt].
    replace (1700000000000 + 7 * Z.of_nat (S (S n))
             - (1700000000000 + 7 * Z.of_nat n))%Z with 14%Z by lia.
    reflexivity.
  - exists c, w'. split; [exact Heq|exact Hin].
Defined.

Local Close Scope Q_scope.

End RunnerMore.

(* ===================================================================== *)
(** ** The scheduler beyond the priority positions *)

Section SchedulerMore.

Import Scheduler Props More.

Lemma find_catalog x :
  match List.find (fun e => String.eqb (id e) x) EXPERIMENT_CATALOG with
  | Some e => In e EXPERIMENT_CATALOG /\ id e = x
  | None => ~ In x (map id EXPERIMENT_CATALOG)
  end.
Proof.
  destruct (List.find _ EXPERIMENT_CATALOG) as [e|] eqn:E.
  - apply find_some in E. destruct E as [Hin He]. split; [exact Hin|].
    now apply String.eqb_eq.
  - intros Hin. apply in_map_iff in Hin. destruct Hin as (e & He & Hin).
    apply (find_none _ _ E) in Hin. cbv beta in Hin.
    rewrite He, String.eqb_refl in Hin. discriminate.
Qed.

Lemma catalog_ids_distinct : List.NoDup (map id EXPERIMENT_CATALOG).
Proof.
  apply NoDup_ListNoDup. apply (bool_decide_unpack _). vm_compute. exact I.
Qed.

Lemma catalog_entry_unique e e' :
  In e EXPERIMENT_CATALOG -> In e' EXPERIMENT_CATALOG -> id e = id e' -> e = e'.
Proof.
  intros He He' Hid. pose proof catalog_ids_distinct as Hnd.
  revert He He' Hnd. generalize EXPERIMENT_CATALOG as l.
  induction l as [|a l IH]; [intros []|].
  cbn [In map]. intros [->|He] [->|He'] Hnd; inversion Hnd as [|? ? Hnot Hnd']; subst.
  - reflexivity.
  - exfalso. apply Hnot. rewrite Hid. now apply in_map.
  - exfalso. apply Hnot. rewrite <- Hid. now apply in_map.
  - now apply IH.
Qed.

(** X19: scheduleExperiment accepts exactly the ids of the catalog.  For
    such an id it adds one entry to the queue, the only catalog entry of
    that id, keeps the entries that were queued and leaves the two maps
    alone; for any other id it throws the error that names the id. *)
Theorem X19_schedule_accepts_catalog_ids (x : string) (p : Priority) (st : State) :
  (In x (map id EXPERIMENT_CATALOG) ->
   exists e st',
     scheduleExperiment x p st = Ok st'
     /\ In e EXPERIMENT_CATALOG /\ id e = x
     /\ (forall e', In e' EXPERIMENT_CATALOG -> id e' = x -> e' = e)
     /\ experimentQueue st' ≡ₚ e :: experimentQueue st
     /\ activeExperiments st' = activeExperiments st
     /\ completedExperiments st' = completedExperiments st)
  /\ (~ In x (map id EXPERIMENT_CATALOG) ->
      scheduleExperiment x p st
      = Throw (Error ("Experiment " ++ x ++ " not found in catalog")%string)).
Proof.
  pose proof (find_catalog x) as Hfind. unfold scheduleExperiment.
  destruct (List.find _ EXPERIMENT_CATALOG) as [e|]; split; intros Hx.
  - destruct Hfind as [Hin Hid].
    assert (Huniq : forall e', In e' EXPERIMENT_CATALOG -> id e' = x -> e' = e).
    { intros e' Hin' Hid'. apply catalog_entry_unique; congruence. }
    destruct p; cbv zeta;
      (exists e; eexists; split; [reflexivity|];
       split; [exact Hin|]; split; [exact Hid|]; split; [exact Huniq|];
       cbn [withQueue experimentQueue activeExperiments completedExperiments];
       split; [|split; reflexivity]).
    + reflexivity.
    + unfold spliceInsert. generalize (length (experimentQueue st) / 2)%nat as i.
      intros i. rewrite <- Permutation_middle. constructor.
      now rewrite firstn_skipn.
    + symmetry. apply Permutation_cons_append.
  - destruct Hfind as [Hin <-]. exfalso. apply Hx. now apply in_map.
  - contradiction.
  - reflexivity.
Qed.

Lemma X19_schedule_accepts_catalog_ids_witness :
  (exists e st',
     scheduleExperiment "exp-002-specialization-efficiency" normal
       (stateOf twoNormalThenHigh) = Ok st'
     /\ id e = "exp-002-specialization-efficiency"
     /\ length (experimentQueue st') = 4%nat)
  /\ scheduleExperiment "exp-000" low init
     = Throw (Error "Experiment exp-000 not found in catalog").
Proof.
  split.
  - destruct (proj1 (X19_schedule_accepts_catalog_ids
                       "exp-002-specialization-efficiency" normal
                       (stateOf twoNormalThenHigh)))
      as (e & st' & Heq & _ & Hid & _ & Hperm & _).
    + vm_compute. tauto.
    + exists e, st'. split; [exact Heq|]. split; [exact Hid|].
      now rewrite Hperm.
  - apply (proj2 (X19_schedule_accepts_catalog_ids "exp-000" low init)).
    vm_compute. intuition discriminate.
Defined.

(** X20: runNextExperiment on an empty queue returns null and changes
    nothing.  On a non-empty queue it removes the head, returns a result
    that carries the head's id, two findings and three recommendations,
    files the head with that result under its id in the completed map,
    leaves no active entry under that id and no other active entry
    touched, and reads the clock twice and the generator twice. *)
Theorem X20_runNext_takes_the_head (env : Env) (st : State) :
  match experimentQueue st with
  | [] => runNextExperiment env st = (None, env, st)
  | e :: queue =>
      exists result env' st',
        runNextExperiment env st = (Some result, env', st')
        /\ experimentId result = id e
        /\ length (keyFindings result) = 2%nat
        /\ length (recommendations result) = 3%nat
        /\ experimentQueue st' = queue
        /\ (exists completedAt,
              completedExperiments st' !! id e
              = Some {| c_experiment := e; c_result := result;
                        c_completedAt := completedAt |}
              /\ completedAt = nowAt env (S (nowCalls env)))
        /\ (forall key, key <> id e ->
              completedExperiments st' !! key = completedExperiments st !! key
              /\ activeExperiments st' !! key = activeExperiments st !! key)
        /\ activeExperiments st' !! id e = None
        /\ nowCalls env' = (nowCalls env + 2)%nat
        /\ randomCalls env' = (randomCalls env + 2)%nat
  end.
Proof.
  unfold runNextExperiment. destruct (experimentQueue st) as [|e queue]; [reflexivity|].
  unfold executeExperiment, dateNow, mathRandom.
  cbn [nowAt randomAt nowCalls randomCalls].
  eexists _, _, _. split; [reflexivity|].
  cbn [experimentId keyFindings recommendations experimentQueue
       completedExperiments activeExperiments nowCalls randomCalls].
  split; [reflexivity|]. split.
  { unfold generateFindings. repeat destruct (String.eqb _ _); reflexivity. }
  split; [reflexivity|]. split; [reflexivity|]. split.
  { eexists. split; [apply lookup_insert_eq|reflexivity]. }
  split.
  { intros key Hkey. split.
    - now rewrite lookup_insert_ne by congruence.
    - rewrite lookup_delete_ne by congruence.
      now rewrite lookup_insert_ne by congruence. }
  split; [apply lookup_delete_eq|]. split; lia.
Qed.

(** X21: with a generator in [0, 1) the outcome of executeExperiment has
    a confidence level that is a number from 0.85 to 1 (1 included: in
    binary64 the sum can round up to it), and confirms the hypothesis
    exactly when the first of its two draws is above 0.3. *)
Theorem X21_outcome_ranges (design : ExperimentDesign) (env : Env) :
  unitGenerator env ->
  let o := fst (executeExperiment design env) in
  (exists c, confidenceLevel o = Fin c /\ (0.85 <= c <= 1)%Q)
  /\ (hypothesisConfirmed o = true <-> (0.3 < randomAt env (randomCalls env))%Q)
  /\ randomCalls (snd (executeExperiment design env)) = (randomCalls env + 2)%nat.
Proof.
  intros Hgen. unfold executeExperiment, mathRandom.
  cbn [fst snd randomAt randomCalls confidenceLevel hypothesisConfirmed].
  split; [|split; [|lia]].
  - eexists. split; [reflexivity|].
    pose proof (Hgen (S (randomCalls env))). lra.
  - unfold Num.gt, Num.lt. rewrite negb_true_iff.
    destruct (Qle_bool (randomAt env (randomCalls env)) 0.3) eqn:E.
    + apply Qle_bool_iff in E. split; [discriminate|intros H; lra].
    + split; [intros _|reflexivity]. apply Qnot_le_lt. intros H.
      apply Qle_bool_iff in H. congruence.
Qed.

Lemma X21_outcome_ranges_witness :
  match List.find (fun e => String.eqb (id e) "exp-001-database-impact")
          EXPERIMENT_CATALOG with
  | Some design =>
      exists c,
        confidenceLevel (fst (executeExperiment design env0)) = Fin c
        /\ (0.85 <= c <= 1)%Q
  | None => False
  end.
Proof.
  destruct (List.find _ EXPERIMENT_CATALOG) as [design|] eqn:E;
    [|vm_compute in E; discriminate].
  refine (proj1 (X21_outcome_ranges design env0 _)).
  intros n. cbn. lra.
Defined.

Lemma scheduleExperiment_accepts x p st :
  In x (map id EXPERIMENT_CATALOG) ->
  exists e,
    In e EXPERIMENT_CATALOG /\ id e = x
    /\ scheduleExperiment x p st
       = Ok (withQueue
               match p with
               | high => e :: experimentQueue st
               | low => experimentQueue st ++ [e]
               | normal =>
                   spliceInsert (length (experimentQueue st) / 2) e (experimentQueue st)
               end st).
Proof.
  intros Hx. pose proof (find_catalog x) as Hfind. unfold scheduleExperiment.
  destruct (List.find _ EXPERIMENT_CATALOG) as [e|]; [|contradiction].
  destruct Hfind as [Hin Hid]. exists e. split; [exact Hin|]. split; [exact Hid|].
  now destruct p.
Qed.

Lemma scheduleAll_snoc p ids x st :
  scheduleAll p (ids ++ [x]) st = andThen (scheduleAll p ids st) (scheduleExperiment x p).
Proof. unfold scheduleAll. now rewrite fold_left_app. Qed.

(** X22: entries of high priority are executed last in, first out, and
    entries of low priority first in, first out: after scheduling a list
    of catalog ids with high priority the ids run in reverse order before
    what was queued, and with low priority in order after it. *)
Theorem X22_high_is_lifo_low_is_fifo (ids : list string) (st : State) (env : Env) :
  (forall x, In x ids -> In x (map id EXPERIMENT_CATALOG)) ->
  exists sth stl,
    scheduleAll high ids st = Ok sth
    /\ executionOrder env sth = rev ids ++ executionOrder env st
    /\ scheduleAll low ids st = Ok stl
    /\ executionOrder env stl = executionOrder env st ++ ids.
Proof.
  induction ids as [|x ids IH] using rev_ind; intros Hids.
  - exists st, st. rewrite app_nil_r. repeat split.
  - destruct IH as (sth & stl & Hh & Oh & Hl & Ol).
    { intros y Hy. apply Hids. apply in_app_iff. now left. }
    assert (Hx : In x (map id EXPERIMENT_CATALOG)).
    { apply Hids. apply in_app_iff. right. now left. }
    destruct (scheduleExperiment_accepts x high sth Hx) as (eh & _ & Hidh & Hsh).
    destruct (scheduleExperiment_accepts x low stl Hx) as (el & _ & Hidl & Hsl).
    eexists _, _. rewrite !scheduleAll_snoc, Hh, Hl. cbn [andThen].
    rewrite !executionOrder_queue in *.
    split; [exact Hsh|]. split.
    + cbn [withQueue experimentQueue map]. rewrite rev_app_distr. cbn [rev app].
      now rewrite Hidh, Oh.
    + split; [exact Hsl|]. cbn [withQueue experimentQueue]. rewrite map_app, Ol.
      cbn [map]. now rewrite Hidl, <- app_assoc.
Qed.

Lemma X22_high_is_lifo_low_is_fifo_witness :
  exists sth,
    scheduleAll high ["exp-001-database-impact"; "exp-002-specialization-efficiency"]
      (stateOf twoNormalThenHigh) = Ok sth
    /\ executionOrder env0 sth
       = rev ["exp-001-database-impact"; "exp-002-specialization-efficiency"]
         ++ executionOrder env0 (stateOf twoNormalThenHigh).
Proof.
  destruct (X22_high_is_lifo_low_is_fifo
              ["exp-001-database-impact"; "exp-002-specialization-efficiency"]
              (stateOf twoNormalThenHigh) env0) as (sth & _ & Hh & Oh & _).
  - intros x Hx. vm_compute in Hx |- *. tauto.
  - exists sth. split; [exact Hh|exact Oh].
Defined.

(** X23: only an entry of low priority displaces the last entry of a
    non-empty queue: after an accepted call with high or normal priority
    the experiment that was to run last still runs last; and a normal
    entry scheduled into a queue of one entry runs first. *)
Theorem X23_only_low_displaces_the_last (x : string) (p : Priority) (st st' : State)
    (env : Env) :
  scheduleExperiment x p st = Ok st' ->
  p <> low ->
  experimentQueue st <> [] ->
  last (executionOrder env st') = last (executionOrder env st)
  /\ (p = normal -> length (experimentQueue st) = 1%nat ->
      head (executionOrder env st') = Some x).
Proof.
  intros Hs Hp Hne. apply scheduleExperiment_queue in Hs.
  destruct Hs as (e & _ & Hid & Hq). rewrite !executionOrder_queue, Hq.
  destruct p; [| |congruence].
  - split; [|discriminate].
    destruct (experimentQueue st); [congruence|reflexivity].
  - split.
    + assert (Hi : (length (experimentQueue st) / 2 < length (experimentQueue st))%nat).
      { apply Nat.div_lt; [|lia]. destruct (experimentQueue st); [congruence|cbn; lia]. }
      revert Hi. generalize (length (experimentQueue st) / 2)%nat as i. intros i Hi.
      unfold spliceInsert.
      assert (Hsplit : map id (experimentQueue st)
                       = map id (firstn i (experimentQueue st))
                         ++ map id (skipn i (experimentQueue st)))
        by (now rewrite <- map_app, firstn_skipn).
      rewrite Hsplit, map_app. cbn [map].
      destruct (map id (skipn i (experimentQueue st))) as [|y l2] eqn:E.
      * apply (f_equal (@length string)) in E.
        rewrite length_map, length_skipn in E. cbn in E. lia.
      * now rewrite last_app_cons, (last_app_cons _ l2 y).
    + intros _ Hlen. destruct (experimentQueue st) as [|y [|z q]]; try discriminate.
      cbn. now rewrite Hid.
Qed.

Lemma X23_only_low_displaces_the_last_witness :
  last (executionOrder env0
          (stateOf (scheduleExperiment "exp-002-specialization-efficiency" normal
                      (stateOf twoNormalThenHigh))))
  = last (executionOrder env0 (stateOf twoNormalThenHigh)).
Proof.
  refine (proj1 (X23_only_low_displaces_the_last
                   "exp-002-specialization-efficiency" normal
                   (stateOf twoNormalThenHigh) _ env0 _ _ _)).
  - vm_compute. reflexivity.
  - discriminate.
  - vm_compute. discriminate.
Defined.

Lemma length_spliceInsert {A} (i : nat) (x : A) (l : list A) :
  length (spliceInsert i x l) = S (length l).
Proof.
  unfold spliceInsert. rewrite length_app. cbn [length].
  rewrite <- (firstn_skipn i l) at 3. rewrite length_app. lia.
Qed.

Lemma perform_consistent s c :
  consistent (snd s) ->
  consistent (snd (perform s c))
  /\ forall rest,
       queued (c :: rest) (length (experimentQueue (snd s)))
       = queued rest (length (experimentQueue (snd (perform s c)))).
Proof.
  destruct s as [env st]. cbn [fst snd]. intros (Hactive & Hqueue & Hdone).
  destruct c as [x p|]; cbn [perform queued fst snd].
  - unfold scheduleExperiment. pose proof (find_catalog x) as Hfind.
    destruct (List.find _ EXPERIMENT_CATALOG) as [e|].
    + destruct Hfind as [Hin Hid].
      assert (Hlen : length (match p with
                             | high => e :: experimentQueue st
                             | normal => spliceInsert (length (experimentQueue st) / 2) e
                                           (experimentQueue st)
                             | low => experimentQueue st ++ [e]
                             end) = S (length (experimentQueue st))).
      { destruct p; [reflexivity|apply length_spliceInsert|].
        rewrite length_app. cbn. lia. }
      assert (Hmem : forall e', In e' (match p with
                             | high => e :: experimentQueue st
                             | normal => spliceInsert (length (experimentQueue st) / 2) e
                                           (experimentQueue st)
                             | low => experimentQueue st ++ [e]
                             end) -> In e' EXPERIMENT_CATALOG).
      { intros e' H. destruct p.
        - destruct H as [<-|H]; auto.
        - apply in_spliceInsert in H. destruct H as [->|H]; auto.
        - apply in_app_iff in H. destruct H as [H|[<-|[]]]; auto. }
      destruct p; cbn [snd withQueue experimentQueue] in *;
        (split; [split; [exact Hactive|split; [exact Hmem|exact Hdone]]|]);
        intros rest; now rewrite Hlen.
    + cbn [snd]. split; [exact (conj Hactive (conj Hqueue Hdone))|reflexivity].
  - unfold runNextExperiment. destruct (experimentQueue st) as [|e queue] eqn:Eq.
    + cbn [snd]. rewrite Eq. rewrite <- Eq in Hqueue.
      split; [exact (conj Hactive (conj Hqueue Hdone))|reflexivity].
    + unfold executeExperiment, dateNow, mathRandom, consistent.
      cbn [snd experimentQueue activeExperiments completedExperiments length pred].
      split; [|reflexivity]. split; [|split].
      * rewrite Hactive, delete_insert_eq. apply delete_empty.
      * intros e' H. apply Hqueue. now right.
      * intros key c. destruct (string_dec (id e) key) as [<-|Hne].
        -- rewrite lookup_insert_eq. intros [= <-].
           cbn [c_experiment c_result experimentId].
           split; [|split; reflexivity]. apply Hqueue. now left.
        -- rewrite lookup_insert_ne by assumption. apply Hdone.
Qed.

Lemma performAll_consistent calls :
  forall s,
    consistent (snd s) ->
    consistent (snd (performAll calls s))
    /\ length (experimentQueue (snd (performAll calls s)))
       = queued calls (length (experimentQueue (snd s))).
Proof.
  induction calls as [|c calls IH]; intros s Hs; [now split|].
  destruct (perform_consistent s c Hs) as [Hc Hlen].
  destruct (IH (perform s c) Hc) as [Hall Hq].
  cbn [performAll fold_left]. split; [exact Hall|].
  rewrite Hlen. exact Hq.
Qed.

(** X24: after any calls of scheduleExperiment and runNextExperiment on a
    new scheduler, whether they throw or not, no experiment is active,
    every queued entry is an entry of the catalog, every completed record
    is filed under the id of its own experiment and of its own result, and
    the queue holds one entry for each accepted call less one for each run
    that found it non-empty. *)
Theorem X24_scheduler_stays_consistent (calls : list Call) (env : Env) :
  let st := snd (performAll calls (env, init)) in
  activeExperiments st = ∅
  /\ (forall e, In e (experimentQueue st) -> In e EXPERIMENT_CATALOG)
  /\ (forall key c,
        completedExperiments st !! key = Some c ->
        In (c_experiment c) EXPERIMENT_CATALOG
        /\ id (c_experiment c) = key
        /\ experimentId (c_result c) = key)
  /\ length (experimentQueue st) = queued calls 0.
Proof.
  destruct (performAll_consistent calls (env, init)) as [(Ha & Hq & Hd) Hlen].
  { split; [reflexivity|]. split; [intros e []|].
    intros key c H. cbn in H. now rewrite lookup_empty in H. }
  cbv zeta. split; [exact Ha|]. split; [exact Hq|]. split; [exact Hd|exact Hlen].
Qed.

End SchedulerMore.

(* ===================================================================== *)
(** ** The council of advisors *)

Section CouncilMore.

Import Council Props More.

Variable toText : number -> string.

Lemma impact_test (debate : ResearchDebate) :
  match economicImpact debate with
  | Some impact => truthy impact && (impact >? Fin 1000)%js
  | None => false
  end = impactAbove debate.
Proof.
  unfold impactAbove. destruct (economicImpact debate) as [[q| | |]|]; try reflexivity.
  unfold truthy, Num.gt, Num.lt.
  destruct (Qle_bool q 1000) eqn:E; [apply andb_false_r|].
  rewrite andb_true_r. cbn [negb]. destruct (Qeq_bool q 0) eqn:E0; [|reflexivity].
  apply Qeq_bool_iff in E0.
  assert (H : Qle_bool q 1000 = true) by (apply Qle_bool_iff; rewrite E0; lra).
  congruence.
Qed.

(** For its position and its confidence a review reads three things of the
    debate: whether the impact is above 1000, whether there are more than
    three pieces of evidence, and whether the thesis mentions consistency. *)
Lemma generateReview_reads advisor (d d' : ResearchDebate) :
  impactAbove d = impactAbove d' ->
  length (evidence (thesis d)) = length (evidence (thesis d')) ->
  includes "consistency" (p_thesis (thesis d))
  = includes "consistency" (p_thesis (thesis d')) ->
  position (fst (generateReview toText advisor d))
  = position (fst (generateReview toText advisor d'))
  /\ r_confidence (fst (generateReview toText advisor d))
     = r_confidence (fst (generateReview toText advisor d'))
  /\ snd (generateReview toText advisor d) = snd (generateReview toText advisor d').
Proof.
  intros H1 H2 H3. unfold generateReview. rewrite !impact_test, H1, H2, H3.
  repeat destruct (String.eqb (specialization advisor) _); cbn; repeat split.
Qed.

Lemma reviewStep_reads (d d' : ResearchDebate) acc acc' entry :
  impactAbove d = impactAbove d' ->
  length (evidence (thesis d)) = length (evidence (thesis d')) ->
  includes "consistency" (p_thesis (thesis d))
  = includes "consistency" (p_thesis (thesis d')) ->
  tallied acc = tallied acc' ->
  tallied (reviewStep toText d acc entry) = tallied (reviewStep toText d' acc' entry).
Proof.
  intros H1 H2 H3 Hacc. unfold reviewStep.
  destruct (generateReview_reads (snd entry) d d' H1 H2 H3) as (Hp & Hc & Ha).
  destruct (generateReview toText (snd entry) d) as [r a].
  destruct (generateReview toText (snd entry) d') as [r' a'].
  cbn [fst snd] in Hp, Hc, Ha. subst a'.
  unfold tallied in *. cbn [t_reviews totalWeight weightedSum t_advisors].
  injection Hacc as Hr Ht Hw Hadv.
  rewrite !map_app. cbn [map]. now rewrite Hr, Ht, Hw, Hadv, Hp, Hc.
Qed.

Lemma fold_reviewStep_reads (d d' : ResearchDebate) l :
  impactAbove d = impactAbove d' ->
  length (evidence (thesis d)) = length (evidence (thesis d')) ->
  includes "consistency" (p_thesis (thesis d))
  = includes "consistency" (p_thesis (thesis d')) ->
  forall acc acc',
    tallied acc = tallied acc' ->
    tallied (fold_left (reviewStep toText d) l acc)
    = tallied (fold_left (reviewStep toText d') l acc').
Proof.
  intros H1 H2 H3.
  induction l as [|entry l IH]; intros acc acc' Hacc; [exact Hacc|].
  cbn [fold_left]. apply IH. now apply reviewStep_reads.
Qed.

Lemma reviewAll_reads (d d' : ResearchDebate) l :
  impactAbove d = impactAbove d' ->
  length (evidence (thesis d)) = length (evidence (thesis d')) ->
  includes "consistency" (p_thesis (thesis d))
  = includes "consistency" (p_thesis (thesis d')) ->
  tallied (reviewAll toText d l) = tallied (reviewAll toText d' l).
Proof.
  intros H1 H2 H3. unfold reviewAll. now apply fold_reviewStep_reads.
Qed.

(** The loop of the peer review over the five advisors of a debate without
    evidence. *)
Lemma reviewAll_seated n debate :
  evidence (thesis debate) = [] ->
  let b1 := impactAbove debate in
  let b2 := includes "consistency" (p_thesis (thesis debate)) in
  t_advisors (reviewAll toText debate (seated n)) = seated (n + 1)
  /\ map position (t_reviews (reviewAll toText debate (seated n)))
     = [if b1 then support else oppose; synthesize; oppose;
        if b2 then support else synthesize; oppose]
  /\ totalWeight (reviewAll toText debate (seated n))
     = Fin (0 + 0.85 * 0.85 + 0.75 * 0.75 + 0.90 * 0.90 + 0.88 * 0.88 + 0.70 * 0.70)
  /\ weightedSum (reviewAll toText debate (seated n))
     = Fin (0 + 0.85 * 0.85 * (if b1 then 1 else 0) + 0.75 * 0.75 * 0.5
            + 0.90 * 0.90 * 0 + 0.88 * 0.88 * (if b2 then 1 else 0.5)
            + 0.70 * 0.70 * 0).
Proof.
  intros Hev b1 b2.
  pose (position' := {| p_id := ""; p_advisor := ""; school := pragmatist;
                        p_thesis := if b2 then "consistency" else "";
                        evidence := []; p_confidence := Fin 0.5 |}).
  pose (d' := {| d_id := ""; topic := ""; thesis := position'; antithesis := position';
                 synthesis := None; status := proposed; priority := efficiency;
                 economicImpact := if b1 then Some (Fin 2000) else None;
                 requiredConsensus := Fin 0.6; currentConsensus := None;
                 humanInterventionNeeded := false |}).
  assert (Hreads : tallied (reviewAll toText debate (seated n))
                   = tallied (reviewAll toText d' (seated n))).
  { apply reviewAll_reads.
    - fold b1. subst d'. now destruct b1.
    - now rewrite Hev.
    - fold b2. subst d' position'. now destruct b2. }
  pose proof (f_equal (fun x => fst (fst (fst x))) Hreads) as Hp.
  pose proof (f_equal (fun x => snd (fst (fst x))) Hreads) as Ht.
  pose proof (f_equal (fun x => snd (fst x)) Hreads) as Hw.
  pose proof (f_equal snd Hreads) as Ha.
  unfold tallied in Hp, Ht, Hw, Ha. cbn [fst snd] in Hp, Ht, Hw, Ha.
  rewrite Hp, Ht, Hw, Ha. clear Hreads Hp Ht Hw Ha.
  subst d' position'. destruct b1, b2; vm_compute; repeat split.
Qed.

Lemma verdict (b1 b2 : bool) (required : number) :
  required = Fin 0.6 \/ required = Fin 0.8 ->
  let consensus :=
    (Fin (0 + 0.85 * 0.85 * (if b1 then 1 else 0) + 0.75 * 0.75 * 0.5
          + 0.90 * 0.90 * 0 + 0.88 * 0.88 * (if b2 then 1 else 0.5)
          + 0.70 * 0.70 * 0)
     / Fin (0 + 0.85 * 0.85 + 0.75 * 0.75 + 0.90 * 0.90 + 0.88 * 0.88 + 0.70 * 0.70))%js in
  (consensus >=? required)%js = false
  /\ Num.le consensus (Fin 0.3) = negb (b1 || b2)
  /\ (consensus <? Fin 0.53)%js = true
  /\ (b1 = false -> (consensus >? Fin 0.4)%js = false).
Proof.
  intros [-> | ->]; destruct b1, b2; vm_compute; repeat split; discriminate.
Qed.

Lemma seated_zero : seated 0 = initializeCouncil.
Proof. reflexivity. Qed.

Lemma filed_required key debate :
  filed key debate ->
  requiredConsensus debate = Fin 0.6 \/ requiredConsensus debate = Fin 0.8.
Proof.
  intros (_ & _ & -> & _). destruct (isRevenueCritical (priority debate)); auto.
Qed.

(** A peer review of a filed debate by the seated advisors. *)
Lemma conductPeerReview_filed n st debateId debate :
  advisors st = seated n ->
  debates st !! debateId = Some debate ->
  filed debateId debate ->
  exists r debate',
    conductPeerReview toText debateId st
    = Ok (r, {| advisors := seated (n + 1);
                debates := <[debateId := debate']> (debates st) |})
    /\ filed debateId debate'
    /\ recommendation r
       = (if favoured debate then "SYNTHESIZE: Combine best of both approaches"
          else "REJECTED: Implement antithesis instead")
    /\ (consensus r <? Fin 0.53)%js = true
    /\ map position (reviews r)
       = [if impactAbove debate then support else oppose; synthesize; oppose;
          if includes "consistency" (p_thesis (thesis debate)) then support
          else synthesize;
          oppose]
    /\ (impactAbove debate = false -> (consensus r >? Fin 0.4)%js = false)
    /\ status debate' = (if favoured debate then reviewing else implementing).
Proof.
  intros Hadv Hlookup Hfiled.
  pose proof (filed_required _ _ Hfiled) as Hreq.
  destruct Hfiled as (Hid & Hev & Hrc & Hflag & Hstatus).
  destruct (reviewAll_seated n debate Hev) as (Ha & Hp & Htw & Hws).
  destruct (verdict (impactAbove debate)
              (includes "consistency" (p_thesis (thesis debate)))
              (requiredConsensus debate) Hreq) as (Hge & Hle & Hlt & Hgt).
  unfold conductPeerReview. rewrite Hlookup, Hadv. cbv zeta.
  rewrite Htw, Hws, Ha. cbv zeta in Hge, Hle, Hlt, Hgt, Hp. rewrite Hge, Hle.
  fold (favoured debate). destruct (favoured debate) eqn:Efav; cbn [negb].
  - eexists _, _. split; [reflexivity|]. cbn [recommendation consensus reviews].
    split; [|split; [reflexivity|split; [exact Hlt|split; [exact Hp|split; [exact Hgt|reflexivity]]]]].
    split; [exact Hid|]. split; [exact Hev|]. split; [exact Hrc|].
    split; [exact Hflag|]. right. right.
    cbn [reviewed status currentConsensus synthesis]. repeat split; try discriminate.
    exact Efav.
  - eexists _, _. split; [reflexivity|]. cbn [recommendation consensus reviews].
    split; [|split; [reflexivity|split; [exact Hlt|split; [exact Hp|split; [exact Hgt|reflexivity]]]]].
    split; [exact Hid|]. split; [exact Hev|]. split; [exact Hrc|].
    split; [exact Hflag|]. right. left.
    cbn [reviewed status currentConsensus synthesis].
    split; [reflexivity|]. split; [discriminate|]. split; [|exact Efav].
    destruct Hstatus as [(_ & _ & H)|[(_ & _ & H & _)|(_ & _ & _ & H)]];
      [exact H|exact H|congruence].
Qed.

Lemma proposeResearch_filed topic text priority impact env st :
  let '(debateId, env', st') := proposeResearch topic text priority impact env st in
  debateId = ("debate-" ++ decimal (nowAt env (nowCalls env)))%string
  /\ advisors st' = advisors st
  /\ nowCalls env' = S (nowCalls env)
  /\ nowAt env' = nowAt env
  /\ exists debate,
       debates st' = <[debateId := debate]> (debates st)
       /\ filed debateId debate
       /\ topic = Council.topic debate
       /\ text = p_thesis (thesis debate)
       /\ priority = Council.priority debate
       /\ impact = economicImpact debate.
Proof.
  unfold proposeResearch, dateNow. cbv zeta.
  split; [reflexivity|]. split; [reflexivity|]. split; [reflexivity|].
  split; [reflexivity|]. eexists. split; [reflexivity|].
  split; [|repeat split].
  split; [reflexivity|]. split; [reflexivity|]. split; [reflexivity|].
  split; [now destruct priority|]. left. repeat split.
Qed.

Lemma councilPerform_invariant s c n :
  advisors (snd s) = seated n ->
  (forall key debate, debates (snd s) !! key = Some debate -> filed key debate) ->
  advisors (snd (councilPerform toText s c))
  = seated (n + peerReviews toText [c] s)
  /\ (forall key debate,
        debates (snd (councilPerform toText s c)) !! key = Some debate ->
        filed key debate).
Proof.
  destruct s as [env st]. cbn [fst snd]. intros Hadv Hfiled.
  destruct c as [topic text priority impact|debateId]; cbn [councilPerform peerReviews fst snd].
  - pose proof (proposeResearch_filed topic text priority impact env st) as H.
    destruct (proposeResearch topic text priority impact env st) as [[debateId env'] st'].
    destruct H as (_ & Ha & _ & _ & debate & Hd & Hf & _). cbn [snd].
    rewrite Ha, Hadv, N.add_0_r. split; [reflexivity|].
    intros key d. rewrite Hd. destruct (string_dec debateId key) as [<-|Hne].
    + rewrite lookup_insert_eq. now intros [= <-].
    + rewrite lookup_insert_ne by assumption. apply Hfiled.
  - destruct (debates st !! debateId) as [debate|] eqn:Elook.
    + destruct (conductPeerReview_filed n st debateId debate Hadv Elook
                  (Hfiled _ _ Elook)) as (r & debate' & -> & Hf & _).
      cbn [isThrow snd advisors debates]. rewrite N.add_0_r. split; [reflexivity|].
      intros key d. destruct (string_dec debateId key) as [<-|Hne].
      * rewrite lookup_insert_eq. now intros [= <-].
      * rewrite lookup_insert_ne by assumption. apply Hfiled.
    + unfold conductPeerReview. rewrite Elook. cbn [isThrow snd].
      rewrite N.add_0_r. split; [exact Hadv|exact Hfiled].
Qed.

Lemma councilAfter_invariant calls :
  forall s n,
    advisors (snd s) = seated n ->
    (forall key debate, debates (snd s) !! key = Some debate -> filed key debate) ->
    advisors (snd (fold_left (councilPerform toText) calls s))
    = seated (n + peerReviews toText calls s)
    /\ (forall key debate,
          debates (snd (fold_left (councilPerform toText) calls s)) !! key = Some debate ->
          filed key debate).
Proof.
  induction calls as [|c calls IH]; intros s n Hadv Hfiled.
  - cbn [fold_left peerReviews]. now rewrite N.add_0_r.
  - destruct (councilPerform_invariant s c n Hadv Hfiled) as [Hadv' Hfiled'].
    destruct (IH _ _ Hadv' Hfiled') as [Ha Hf]. cbn [fold_left].
    split; [|exact Hf]. rewrite Ha. f_equal.
    cbn [peerReviews]. lia.
Qed.

Lemma council_reachable calls env :
  advisors (snd (councilAfter toText calls env))
  = seated (peerReviews toText calls (env, init))
  /\ (forall key debate,
        debates (snd (councilAfter toText calls env)) !! key = Some debate ->
        filed key debate).
Proof.
  destruct (councilAfter_invariant calls (env, init) 0) as [Ha Hf].
  - reflexivity.
  - intros key debate H. cbn in H. now rewrite lookup_empty in H.
  - split; [exact Ha|exact Hf].
Qed.

(** X25: on a council that has only been used through proposeResearch and
    conductPeerReview, a peer review never approves.  It throws exactly
    when no debate has the id; otherwise the skeptic and the empiricist
    oppose, and the recommendation is to synthesize when the impact is above
    1000 or the thesis mentions consistency, and to reject otherwise, with
    a consensus below 0.53. *)
Theorem X25_peer_review_never_approves (calls : list CouncilCall) (env : Env)
    (debateId : string) :
  let st := snd (councilAfter toText calls env) in
  match conductPeerReview toText debateId st with
  | Throw e => debates st !! debateId = None /\ e = Error "Debate not found"
  | Ok (r, _) =>
      exists debate,
        debates st !! debateId = Some debate
        /\ recommendation r <> "APPROVED: Implement thesis with monitoring"
        /\ recommendation r
           = (if favoured debate then "SYNTHESIZE: Combine best of both approaches"
              else "REJECTED: Implement antithesis instead")
        /\ (consensus r <? Fin 0.53)%js = true
        /\ map position (reviews r)
           = [if impactAbove debate then support else oppose; synthesize; oppose;
              if includes "consistency" (p_thesis (thesis debate)) then support
              else synthesize;
              oppose]
  end.
Proof.
  cbv zeta. destruct (council_reachable calls env) as [Hadv Hfiled].
  destruct (debates (snd (councilAfter toText calls env)) !! debateId) as [debate|] eqn:Elook.
  - destruct (conductPeerReview_filed _ _ debateId debate Hadv Elook (Hfiled _ _ Elook))
      as (r & debate' & -> & _ & Hrec & Hlt & Hpos & _).
    exists debate. split; [reflexivity|]. split; [|split; [exact Hrec|now split]].
    rewrite Hrec. destruct (favoured debate); discriminate.
  - unfold conductPeerReview. rewrite Elook. now split.
Qed.

(** X26: after any calls of proposeResearch and conductPeerReview on a new
    council the advisors are those of a new council, each with as many
    contributions as there were peer reviews that found their debate; and
    every debate is stored under its own id, has no evidence, requires a
    consensus of 0.8 if it is revenue-critical and of 0.6 otherwise, asks
    for a human exactly if it is revenue-critical, and is either proposed
    and unreviewed, or implementing after a rejection, or reviewing with a
    synthesis. *)
Theorem X26_council_stays_consistent (calls : list CouncilCall) (env : Env) :
  let st := snd (councilAfter toText calls env) in
  advisors st = seated (peerReviews toText calls (env, init))
  /\ (forall key debate, debates st !! key = Some debate -> filed key debate).
Proof. exact (council_reachable calls env). Qed.

Lemma to_int_not_nil z :
  Z.to_int z <> Decimal.Pos Decimal.Nil /\ Z.to_int z <> Decimal.Neg Decimal.Nil.
Proof.
  pose proof (DecimalZ.to_of (Z.to_int z)) as H. rewrite DecimalZ.of_to in H.
  split; intros E; rewrite E in H; discriminate H.
Qed.

(** Two integers with the same digits are equal. *)
Lemma decimal_inj z1 z2 : decimal z1 = decimal z2 -> z1 = z2.
Proof.
  unfold decimal. intros H. apply DecimalZ.to_int_inj.
  destruct (to_int_not_nil z1) as [Hp1 Hn1]. destruct (to_int_not_nil z2) as [Hp2 Hn2].
  pose proof (NilZero.isi _ Hp1 Hn1) as H1. pose proof (NilZero.isi _ Hp2 Hn2) as H2.
  rewrite H in H1. congruence.
Qed.

(** X27: the id of a debate is the reading of the clock, so two proposals
    get the same id exactly when the clock gave them the same reading; then
    the second debate replaces the first, which is lost, and otherwise both
    are stored. *)
Theorem X27_same_reading_replaces_the_debate (topic1 thesis1 topic2 thesis2 : string)
    (priority1 priority2 : Priority) (impact1 impact2 : option number)
    (env : Env) (st : State) :
  let '(id1, env1, st1) := proposeResearch topic1 thesis1 priority1 impact1 env st in
  let '(id2, _, st2) := proposeResearch topic2 thesis2 priority2 impact2 env1 st1 in
  (id1 = id2 <-> nowAt env (nowCalls env) = nowAt env (S (nowCalls env)))
  /\ (exists debate2,
        debates st2 !! id2 = Some debate2
        /\ topic debate2 = topic2 /\ p_thesis (thesis debate2) = thesis2)
  /\ (id1 = id2 ->
      forall key, key <> id2 -> debates st2 !! key = debates st !! key)
  /\ (id1 <> id2 ->
      exists debate1,
        debates st2 !! id1 = Some debate1
        /\ topic debate1 = topic1 /\ p_thesis (thesis debate1) = thesis1).
Proof.
  pose proof (proposeResearch_filed topic1 thesis1 priority1 impact1 env st) as H1.
  destruct (proposeResearch topic1 thesis1 priority1 impact1 env st) as [[id1 env1] st1].
  pose proof (proposeResearch_filed topic2 thesis2 priority2 impact2 env1 st1) as H2.
  destruct (proposeResearch topic2 thesis2 priority2 impact2 env1 st1) as [[id2 env2] st2].
  destruct H1 as (Hid1 & _ & Hcalls & Hclock & d1 & Hd1 & _ & Ht1 & Hx1 & _).
  destruct H2 as (Hid2 & _ & _ & _ & d2 & Hd2 & _ & Ht2 & Hx2 & _).
  rewrite Hclock, Hcalls in Hid2.
  split; [|split; [|split]].
  - rewrite Hid1, Hid2. split.
    + intros H. cbn in H. injection H as H. now apply decimal_inj.
    + now intros ->.
  - exists d2. rewrite Hd2, lookup_insert_eq. now split.
  - intros <- key Hkey. rewrite Hd2, Hd1.
    now rewrite !lookup_insert_ne by congruence.
  - intros Hne. exists d1. rewrite Hd2, Hd1.
    rewrite lookup_insert_ne by congruence. rewrite lookup_insert_eq. now split.
Qed.

End CouncilMore.

(* ===================================================================== *)
(** ** From the scheduler to the council *)

Section MonitorMore.

Import Props More.

Variable toText : number -> string.

(** No finding of the scheduler mentions a reduction or an improvement. *)
Lemma findings_plain design :
  existsb (fun f => Council.includes "reduction" f || Council.includes "improvement" f)
    (Scheduler.generateFindings design) = false.
Proof.
  unfold Scheduler.generateFindings. repeat destruct (String.eqb _ _); vm_compute; reflexivity.
Qed.

(** The thesis that the monitor proposes for a result of a catalog
    experiment mentions consistency in two cases only. *)
Lemma thesis_mentions_consistency design (confirmed : bool) :
  In design Scheduler.EXPERIMENT_CATALOG ->
  Council.includes "consistency"
    (if confirmed
     then ("Implement recommended changes: "
           ++ match Scheduler.generateFindings design with
              | finding :: _ => finding
              | [] => "undefined"
              end)%string
     else ("Do not implement changes from " ++ Scheduler.id design)%string)
  = (confirmed && String.eqb (Scheduler.id design) "exp-001-database-impact")
    || (negb confirmed && String.eqb (Scheduler.id design) "exp-010-temporal-consistency").
Proof.
  intros Hin. unfold Scheduler.EXPERIMENT_CATALOG in Hin.
  repeat (destruct Hin as [<-|Hin]; [destruct confirmed; vm_compute; reflexivity|]).
  destruct Hin.
Qed.

(** X28: when the monitor hands the council the result of a catalog
    experiment run by the scheduler, the review finds the debate, no alert
    is created and no metric of the monitor changes; the debate ends under
    review, with a synthesis, if the hypothesis of exp-001 was confirmed or
    that of exp-010 was not, and is rejected in every other case. *)
Theorem X28_experiment_results_raise_no_alert (calls : list CouncilCall)
    (started generated env : Env) (design : Scheduler.ExperimentDesign)
    (alerts : list Monitor.ResearchAlert) (metrics : Monitor.ResearchMetrics) :
  In design Scheduler.EXPERIMENT_CATALOG ->
  let result := fst (Scheduler.executeExperiment design generated) in
  let st := {| Monitor.council := snd (councilAfter toText calls started);
               Monitor.alerts := alerts;
               Monitor.metrics := metrics |} in
  exists env' st' debate,
    Monitor.processExperimentResult toText result env st = Ok (env', st')
    /\ Monitor.alerts st' = alerts
    /\ Monitor.metrics st' = metrics
    /\ nowCalls env' = S (nowCalls env)
    /\ Council.debates (Monitor.council st')
         !! ("debate-" ++ Council.decimal (nowAt env (nowCalls env)))%string
       = Some debate
    /\ Council.status debate
       = (if (Scheduler.hypothesisConfirmed result
              && String.eqb (Scheduler.id design) "exp-001-database-impact")
             || (negb (Scheduler.hypothesisConfirmed result)
                 && String.eqb (Scheduler.id design) "exp-010-temporal-consistency")
          then Council.reviewing else Council.implementing).
Proof.
  intros Hin result st.
  assert (Hid : Scheduler.experimentId result = Scheduler.id design) by reflexivity.
  assert (Hfind : Scheduler.keyFindings result = Scheduler.generateFindings design)
    by reflexivity.
  generalize dependent result. intros result Hid Hfind.
  destruct (council_reachable toText calls started) as [Hseated Hall].
  unfold Monitor.processExperimentResult.
  match goal with
  | |- context [Council.proposeResearch ?a ?b ?c ?d ?e ?f] =>
      pose proof (proposeResearch_filed a b c d e f) as H;
      destruct (Council.proposeResearch a b c d e f) as [[debateId env1] council1]
  end.
  destruct H as (Hdebate & Hadv & Hcalls & _ & debate & Hd & Hfiled & _ & Hthesis & _ & Himpact).
  cbn [Monitor.council st] in Hadv, Hd.
  assert (Hlook : Council.debates council1 !! debateId = Some debate)
    by (rewrite Hd; apply lookup_insert_eq).
  rewrite Hseated in Hadv.
  destruct (conductPeerReview_filed toText _ council1 debateId debate Hadv Hlook Hfiled)
    as (r & debate' & -> & _ & _ & _ & _ & Hgt & Hstatus).
  assert (Himp : impactAbove debate = false)
    by (unfold impactAbove; now rewrite <- Himpact).
  rewrite (Hgt Himp), andb_false_r. unfold Monitor.economicImpactOf.
  rewrite Hfind, findings_plain.
  eexists _, _, debate'. split; [reflexivity|].
  cbn [Monitor.alerts Monitor.metrics Monitor.council Council.debates st].
  split; [reflexivity|]. split; [reflexivity|]. split; [exact Hcalls|].
  rewrite <- Hdebate. split; [apply lookup_insert_eq|].
  rewrite Hstatus. unfold favoured. rewrite Himp, orb_false_l, <- Hthesis.
  unfold Monitor.firstFinding. rewrite Hfind, Hid.
  now rewrite thesis_mentions_consistency.
Qed.

End MonitorMore.

Lemma X28_experiment_results_raise_no_alert_witness :
  match List.find (fun e => String.eqb (Scheduler.id e) "exp-001-database-impact")
          Scheduler.EXPERIMENT_CATALOG with
  | Some design =>
      exists env' st',
        Monitor.processExperimentResult (fun _ => "1500")
          (fst (Scheduler.executeExperiment design Props.env0)) Props.env0 Monitor.init
        = Ok (env', st')
        /\ Monitor.alerts st' = []
  | None => False
  end.
Proof.
  destruct (List.find _ Scheduler.EXPERIMENT_CATALOG) as [design|] eqn:E;
    [|vm_compute in E; discriminate].
  apply find_some in E. destruct E as [Hin _].
  destruct (X28_experiment_results_raise_no_alert (fun _ => "1500") [] Props.env0
              Props.env0 Props.env0 design [] (Monitor.metrics Monitor.init) Hin)
    as (env' & st' & debate & Heq & Ha & _).
  exists env', st'. split; [exact Heq|exact Ha].
Defined.

(* ===================================================================== *)
(** ** The usage tracker *)

Section TrackerMore.

Import Tracker Props More.

Lemma orElse_truthy x d :
  Council.truthy d = true -> Council.truthy (orElse x d) = true.
Proof.
  intros Hd. unfold orElse. destruct x as [v|]; [|exact Hd].
  destruct (Council.truthy v) eqn:E; [exact E|exact Hd].
Qed.

Lemma orElse_number x d : Num.isNaN d = false -> Num.isNaN (orElse x d) = false.
Proof.
  intros Hd. unfold orElse. destruct x as [v|]; [|exact Hd].
  destruct (Council.truthy v) eqn:E; [|exact Hd]. now destruct v.
Qed.

(** What one [recordUsage] does to the records and to the active agents. *)
Lemma recordUsage_step agent report env st :
  let st' := snd (recordUsage agent report env st) in
  (exists full,
     (complete agent full /\ reportedAs report full)
     /\ usageOf agent st'
        = if (10000 <? N.of_nat (length (usageOf agent st ++ [full])))%N
          then tail (usageOf agent st ++ [full]) else usageOf agent st ++ [full])
  /\ usageHistory st' !! agent <> None
  /\ (forall other, other <> agent ->
        usageHistory st' !! other = usageHistory st !! other)
  /\ activeAgents st' = {[ agent ]} ∪ activeAgents st
  /\ trainingSessions st' = trainingSessions st
  /\ nowCalls (fst (recordUsage agent report env st)) = (nowCalls env + 2)%nat.
Proof.
  unfold recordUsage, dateNow, usageOf.
  cbn [fst snd usageHistory activeAgents trainingSessions nowCalls nowAt].
  split; [|split; [|split; [|split; [|split]]]].
  - eexists. split; [|rewrite lookup_insert_eq; reflexivity].
    split; [|split; reflexivity].
    split; [reflexivity|]. cbn [invocationCount successRate responseCoherence
      taskCompletionRate structuralConsistency totalProcessingTime averageResponseTime
      errorCount semanticDrift cognitiveLoad contextWindowUsage memoryPressure
      vocabularyDiversity].
    split; repeat constructor; (apply orElse_truthy || apply orElse_number); reflexivity.
  - now rewrite lookup_insert_eq.
  - intros other Hne. now rewrite lookup_insert_ne by congruence.
  - reflexivity.
  - reflexivity.
  - lia.
Qed.

Lemma recordAllUsage_snoc calls c s :
  recordAllUsage (calls ++ [c]) s
  = recordUsage (fst c) (snd c) (fst (recordAllUsage calls s))
      (snd (recordAllUsage calls s)).
Proof. unfold recordAllUsage. now rewrite fold_left_app. Qed.

(** X29: after any calls of recordUsage on a new tracker, an agent has
    records exactly if it was reported, and then it is active; it never has
    more than 10000 records; every record carries its agent's id, a
    success rate, an invocation count, a coherence, a completion rate and a
    structural consistency that are neither 0 nor NaN (a reported 0 is
    stored as 1), and no NaN in the eight numbers that default to 0.  The
    user satisfaction score alone has no default: it is stored as one of
    the agent's reports gave it, NaN or missing included. *)
Theorem X29_usage_records_are_complete (calls : list (string * UsageReport))
    (env : Env) (agent : string) :
  let st := snd (recordAllUsage calls (env, init)) in
  (N.of_nat (length (usageOf agent st)) <= 10000)%N
  /\ (usageHistory st !! agent <> None <-> In agent (map fst calls))
  /\ (agent ∈ activeAgents st <-> In agent (map fst calls))
  /\ (In agent (map fst calls) -> usageOf agent st <> [])
  /\ (forall r, In r (usageOf agent st) ->
      complete agent r
      /\ exists report, In (agent, report) calls /\ reportedAs report r).
Proof.
  cbv zeta. induction calls as [|c calls IH] using rev_ind.
  - cbn. unfold usageOf. cbn. rewrite lookup_empty. cbn.
    split; [lia|]. split; [split; [congruence|intros []]|].
    split; [split; [intros H; now apply elem_of_empty in H|intros []]|].
    split; intros; contradiction.
  - rewrite recordAllUsage_snoc.
    destruct (recordUsage_step (fst c) (snd c) (fst (recordAllUsage calls (env, init)))
                (snd (recordAllUsage calls (env, init))))
      as ((full & Hfull & Hnew) & Hsome & Hother & Hactive & _).
    cbv zeta in *. destruct IH as (Hlen & Hhist & Hact & Hne & Hall).
    rewrite map_app, Hactive. cbn [map].
    destruct (string_dec agent (fst c)) as [->|Hdiff].
    + rewrite Hnew.
      assert (Hin : In (fst c) (map fst calls ++ [fst c]))
        by (apply in_app_iff; right; now left).
      set (pushed := usageOf (fst c) (snd (recordAllUsage calls (env, init))) ++ [full]).
      assert (Hpushed : length pushed
                        = S (length (usageOf (fst c)
                                       (snd (recordAllUsage calls (env, init))))))
        by (unfold pushed; rewrite length_app; cbn; lia).
      split; [|split; [|split; [|split]]].
      * destruct (N.ltb_spec 10000 (N.of_nat (length pushed))) as [Hgt|Hle];
          [|exact Hle].
        destruct pushed; cbn [tail length] in *; lia.
      * split; [intros _; exact Hin|intros _; exact Hsome].
      * split; [intros _; exact Hin|intros _]. apply elem_of_union. left.
        now apply elem_of_singleton.
      * intros _. destruct (N.ltb_spec 10000 (N.of_nat (length pushed))) as [Hgt|Hle].
        -- destruct pushed as [|r0 [|r1 rest]]; cbn [tail length] in *;
             [lia|lia|discriminate].
        -- destruct pushed; [discriminate Hpushed|discriminate].
      * intros r Hr.
        assert (Hr' : In r pushed).
        { destruct (_ <? _)%N; [apply in_tail in Hr|]; exact Hr. }
        apply in_app_iff in Hr'.
        destruct Hr' as [Hr'|[<-|[]]].
        -- destruct (Hall r Hr') as (Hc & report & Hin' & Hrep).
           split; [exact Hc|]. exists report. split; [|exact Hrep].
           apply in_app_iff. now left.
        -- split; [exact (proj1 Hfull)|]. exists (snd c).
           split; [|exact (proj2 Hfull)].
           apply in_app_iff. right. left. now destruct c.
    + unfold usageOf in *. rewrite (Hother agent Hdiff).
      assert (Hin : In agent (map fst calls ++ [fst c]) <-> In agent (map fst calls)).
      { rewrite in_app_iff. cbn [In]. split; [intros [H|[H|[]]]|]; auto. congruence. }
      rewrite Hin. split; [exact Hlen|]. split; [exact Hhist|].
      split; [|split; [exact Hne|]].
      * rewrite <- Hact. rewrite elem_of_union, elem_of_singleton.
        split; [intros [H|H]; [congruence|exact H]|intros H; now right].
      * intros r Hr. destruct (Hall r Hr) as (Hc & report & Hin' & Hrep).
        split; [exact Hc|]. exists report. split; [|exact Hrep].
        apply in_app_iff. now left.
Qed.

Lemma find_snoc {A} (f : A -> bool) (l : list A) (x : A) :
  List.find f l = None -> f x = true -> List.find f (l ++ [x]) = Some x.
Proof.
  induction l as [|y l IH]; cbn; intros Hnone Hx; [now rewrite Hx|].
  destruct (f y); [discriminate|]. now apply IH.
Qed.

(** A session pushed for an agent is the one found under its id when no
    session had that id. *)
Lemma findSession_started sid agent session m :
  findSession sid m = None ->
  s_id session = sid ->
  findSession sid (mapSet agent (default [] (mapGet agent m) ++ [session]) m)
  = Some (agent, session).
Proof.
  intros Hnone Hid.
  assert (Hs : String.eqb (s_id session) sid = true) by (now apply String.eqb_eq).
  induction m as [|[k v] m IH]; cbn [mapGet mapSet findSession].
  - cbn. now rewrite Hs.
  - cbn [findSession] in Hnone.
    destruct (List.find (fun s => String.eqb (s_id s) sid) v) eqn:Ev; [discriminate|].
    destruct (String.eqb k agent) eqn:Ek.
    + apply String.eqb_eq in Ek. subst k. cbn [findSession default from_option].
      unfold id. now rewrite (find_snoc _ v session Ev Hs).
    + cbn [findSession]. rewrite Ev. now apply IH.
Qed.

Lemma zero_ratio (q m : Q) : ~ m == 0 -> (q + - q) / m == 0.
Proof. intros Hm. field. exact Hm. Qed.

Lemma settled (z : Q) :
  z == 0 -> orZero (Fin z) = Fin 0 /\ (Fin z >? Fin 0.1)%js = false.
Proof.
  intros Hz. unfold orZero, Council.truthy, Num.gt, Num.lt.
  assert (H0 : Qeq_bool z 0 = true) by (now apply Qeq_bool_iff).
  assert (H1 : Qle_bool z 0.1 = true) by (apply Qle_bool_iff; rewrite Hz; lra).
  now rewrite H0, H1.
Qed.

(** An average that did not move gives no improvement. *)
Lemma unmoved (x : number) :
  let relative := whenBoth x x ((x - x) / x)%js in
  let absolute := whenBoth x x ((x - x) / Num.max x (Fin 1))%js in
  orZero relative = Fin 0 /\ (relative >? Fin 0.1)%js = false
  /\ orZero absolute = Fin 0 /\ (absolute >? Fin 0.1)%js = false.
Proof.
  cbv zeta. destruct x as [q| | |]; try (cbn; repeat split; reflexivity).
  unfold whenBoth, Council.truthy. destruct (Qeq_bool q 0) eqn:E.
  - cbn. repeat split; reflexivity.
  - cbn [negb andb]. unfold Num.sub, Num.neg, Num.add, Num.div. rewrite E.
    assert (Hq : ~ q == 0) by (now apply Qeq_bool_neq).
    destruct (settled _ (zero_ratio q q Hq)) as [H1 H2]. rewrite H1, H2.
    split; [reflexivity|]. split; [reflexivity|].
    unfold Num.max, Num.le. destruct (Qle_bool q 1) eqn:E1.
    + change (Qeq_bool 1 0) with false. cbv iota.
      assert (H : ~ 1 == 0) by (intros H; discriminate H).
      destruct (settled _ (zero_ratio q 1 H)) as [H3 H4]. now rewrite H3, H4.
    + rewrite E. destruct (settled _ (zero_ratio q q Hq)) as [H3 H4]. now rewrite H3, H4.
Qed.

(** X30: a training session that ends without any usage recorded for its
    agent since it started is found, has effectiveness 0 and no
    improvement, and recommends alternative protocols, whatever the records
    of the agent hold; the usage records stay as they were. *)
Theorem X30_training_without_usage (toFixed : number -> nat -> string)
    (agent protocol : string) (env : Env) (st : State) :
  agent <> "" ->
  findSession ("training-" ++ agent ++ "-"
               ++ Council.decimal (nowAt env (nowCalls env)))%string
    (trainingSessions st) = None ->
  let '(id, env1, st1) := startTrainingSession agent protocol env st in
  exists effect env2 st2,
    endTrainingSession toFixed id env1 st1 = Ok (effect, env2, st2)
    /\ Num.same (effectiveness effect) (Fin 0)
    /\ improvements effect = []
    /\ In "Try alternative training protocols" (recommendations effect)
    /\ usageHistory st2 = usageHistory st
    /\ nowCalls env2 = (nowCalls env + 3)%nat.
Proof.
  intros Hagent Hnone. unfold startTrainingSession, dateNow. cbv zeta.
  cbn [nowAt nowCalls]. unfold endTrainingSession.
  cbn [trainingSessions usageHistory].
  rewrite findSession_started; [|exact Hnone|reflexivity].
  destruct (String.eqb agent "") eqn:E; [apply String.eqb_eq in E; contradiction|].
  unfold dateNow. cbv zeta.
  cbn [baselineMetrics averages m_semanticDrift m_cognitiveLoad m_errorCount].
  set (recent := sliceLast 50 (default [] (usageHistory st !! agent))).
  destruct (unmoved (average semanticDrift recent)) as (D1 & D2 & _).
  destruct (unmoved (average cognitiveLoad recent)) as (L1 & L2 & _).
  destruct (unmoved (average errorCount recent)) as (_ & _ & E1 & E2).
  cbv zeta in D1, D2, L1, L2, E1, E2.
  eexists _, _, _. split; [reflexivity|].
  cbn [effectiveness improvements recommendations usageHistory nowCalls].
  rewrite D1, D2, L1, L2, E1, E2.
  split; [vm_compute; reflexivity|]. split; [reflexivity|].
  split; [|split; [reflexivity|lia]].
  apply in_app_iff. right. apply in_app_iff. right. now left.
Qed.

Lemma X30_training_without_usage_witness :
  let '(id, env1, st1) :=
    startTrainingSession "devy" "incremental_reinforcement" env0 init in
  exists effect env2 st2,
    endTrainingSession (fun _ _ => "0.0") id env1 st1 = Ok (effect, env2, st2)
    /\ improvements effect = [].
Proof.
  assert (Hagent : "devy" <> "") by discriminate.
  pose proof (X30_training_without_usage (fun _ _ => "0.0") "devy"
                "incremental_reinforcement" env0 init Hagent eq_refl) as H.
  destruct (startTrainingSession "devy" "incremental_reinforcement" env0 init)
    as [[id env1] st1].
  destruct H as (effect & env2 & st2 & Heq & _ & Himp & _).
  exists effect, env2, st2. split; [exact Heq|exact Himp].
Defined.

End TrackerMore.
